(** * GI-bleed cohort extraction: a shallow embedding of [cohort_extraction.ipynb]

    The notebook is a straight-line pandas/NumPy script.  Its cells are
    embedded as functions on an explicit [DataFrame] value that is threaded
    from cell to cell; every pandas or NumPy call that can raise
    ([KeyError], [TypeError], [ValueError], shape mismatch) returns [option].

    Numeric cells are IEEE binary64 values (Rocq's primitive floats); the
    missing marker [np.nan] is the float NaN.  The integer columns of the
    SQL result are embedded in binary64 as well. *)

From Stdlib Require Import String Ascii Bool Arith NArith ZArith Lia Floats List Sorted.
Import ListNotations.

Local Open Scope string_scope.
Local Open Scope list_scope.
Local Open Scope nat_scope.

(** ** Exceptions as [option] *)

Definition bind {A B : Type} (m : option A) (k : A -> option B) : option B :=
  match m with
  | Some a => k a
  | None => None
  end.

Notation "x <- m ;; k" := (bind m (fun x => k))
  (at level 61, m at next level, right associativity).

Fixpoint traverse {A B : Type} (f : A -> option B) (l : list A) : option (list B) :=
  match l with
  | [] => Some []
  | x :: l' => y <- f x ;; r <- traverse f l' ;; Some (y :: r)
  end.

(** ** NumPy arrays of [float64] *)

Module Numpy.

Definition ndarray := list float.

(** [np.empty(n, dtype='float64')]: [n] cells of whatever the allocator left
    there, given by [junk]. *)
Definition empty (junk : nat -> float) (n : nat) : ndarray := map junk (seq 0 n).

Fixpoint count_true (mask : list bool) : nat :=
  match mask with
  | [] => 0
  | b :: mask' => (if b then 1 else 0) + count_true mask'
  end.

(** The cells of [a] at the [True] positions of [mask], in order. *)
Fixpoint compress {A : Type} (mask : list bool) (a : list A) : list A :=
  match mask, a with
  | b :: mask', x :: a' => if b then x :: compress mask' a' else compress mask' a'
  | _, _ => []
  end.

(** [a[mask]]: the boolean index must have the length of [a]. *)
Definition getitem_mask {A : Type} (a : list A) (mask : list bool) : option (list A) :=
  if length mask =? length a then Some (compress mask a) else None.

(** The cells of [a] at the [True] positions of [mask] overwritten, in order,
    by [vals]. *)
Fixpoint place (mask : list bool) (vals : list float) (a : ndarray) : ndarray :=
  match mask, a with
  | true :: mask', _ :: a' =>
      match vals with
      | v :: vals' => v :: place mask' vals' a'
      | [] => a
      end
  | false :: mask', x :: a' => x :: place mask' vals a'
  | _, _ => a
  end.

(** [a[mask] = vals] with [vals] a one-dimensional sequence: the mask has the
    length of [a] and [vals] has one value per [True]. *)
Definition setitem_mask (a : ndarray) (mask : list bool) (vals : list float)
  : option ndarray :=
  if (length mask =? length a) && (length vals =? count_true mask)
  then Some (place mask vals a)
  else None.

End Numpy.

(** ** pandas Series and DataFrame *)

(** A cell of an [object] column: a [str], a Python float, or [None]. *)
Inductive obj : Type :=
| OStr (s : string)
| OFloat (x : float)
| ONone.

(** A column is either numeric ([float64]) or of dtype [object]. *)
Inductive Series : Type :=
| FloatCol (l : list float)
| ObjCol (l : list obj).

Record DataFrame : Type := mkDataFrame {
  index : list Z;
  data : list (string * Series)
}.

Module Pandas.

Definition size (s : Series) : nat :=
  match s with
  | FloatCol l => length l
  | ObjCol l => length l
  end.

Definition float_of_obj (o : obj) : option float :=
  match o with
  | OFloat x => Some x
  | _ => None
  end.

(** The numeric content of a column, as arithmetic and ordering comparisons
    see it; a [str] or [None] cell raises [TypeError]. *)
Definition values (s : Series) : option (list float) :=
  match s with
  | FloatCol l => Some l
  | ObjCol l => traverse float_of_obj l
  end.

Fixpoint lookup (name : string) (cols : list (string * Series)) : option Series :=
  match cols with
  | [] => None
  | (n, s) :: cols' => if String.eqb name n then Some s else lookup name cols'
  end.

(** [df.name] and [df['name']]. *)
Definition col (name : string) (df : DataFrame) : option Series :=
  lookup name (data df).

Definition mem (name : string) (l : list string) : bool :=
  existsb (String.eqb name) l.

Definition columns (df : DataFrame) : list string := map fst (data df).

(** [df.drop(labels, axis=1)]: [KeyError] when a label is not a column. *)
Definition drop (labels : list string) (df : DataFrame) : option DataFrame :=
  if forallb (fun l => mem l (columns df)) labels
  then Some {| index := index df;
               data := filter (fun c => negb (mem (fst c) labels)) (data df) |}
  else None.

Fixpoint set_column (name : string) (s : Series) (cols : list (string * Series))
  : list (string * Series) :=
  match cols with
  | [] => [(name, s)]
  | (n, s0) :: cols' =>
      if String.eqb name n then (n, s) :: cols' else (n, s0) :: set_column name s cols'
  end.

(** [df.assign(name=s)], [df['name'] = s] and [df.name = s]: an existing
    column is replaced in place, a new one is appended; the length of [s]
    must be the number of rows. *)
Definition assign (name : string) (s : Series) (df : DataFrame) : option DataFrame :=
  if size s =? length (index df)
  then Some {| index := index df; data := set_column name s (data df) |}
  else None.

Definition take_rows (mask : list bool) (s : Series) : option Series :=
  match s with
  | FloatCol l => option_map FloatCol (Numpy.getitem_mask l mask)
  | ObjCol l => option_map ObjCol (Numpy.getitem_mask l mask)
  end.

(** [df.loc[mask, :]] and [df[mask]] with a boolean mask. *)
Definition loc_rows (mask : list bool) (df : DataFrame) : option DataFrame :=
  idx <- Numpy.getitem_mask (index df) mask ;;
  cols <- traverse (fun c => s <- take_rows mask (snd c) ;; Some (fst c, s)) (data df) ;;
  Some {| index := idx; data := cols |}.

(** [s[mask]] as a list of numbers, ready to be stored in a float array. *)
Definition getitem (s : Series) (mask : list bool) : option (list float) :=
  l <- values s ;; Numpy.getitem_mask l mask.

(** [s == t] for a [str] [t]: elementwise, [False] on anything that is not
    that string. *)
Definition eq_str (s : Series) (t : string) : list bool :=
  match s with
  | FloatCol l => map (fun _ => false) l
  | ObjCol l => map (fun o => match o with OStr u => String.eqb u t | _ => false end) l
  end.

Definition ne_str (s : Series) (t : string) : list bool := map negb (eq_str s t).

(** [s.isin(ts)] for a list of strings. *)
Definition isin (s : Series) (ts : list string) : list bool :=
  match s with
  | FloatCol l => map (fun _ => false) l
  | ObjCol l => map (fun o => match o with OStr u => mem u ts | _ => false end) l
  end.

Definition invert (mask : list bool) : list bool := map negb mask.

Fixpoint map2 {A B C : Type} (f : A -> B -> C) (a : list A) (b : list B) : list C :=
  match a, b with
  | x :: a', y :: b' => f x y :: map2 f a' b'
  | _, _ => []
  end.

(** [m1 & m2] on two masks computed from the same frame. *)
Definition and_mask (m1 m2 : list bool) : list bool := map2 andb m1 m2.

(** [s >= x], [s <= x], [s < x] against a scalar: comparisons with NaN are
    [False]. *)
Definition ge (s : Series) (x : float) : option (list bool) :=
  l <- values s ;; Some (map (fun v => PrimFloat.leb x v) l).

Definition le (s : Series) (x : float) : option (list bool) :=
  l <- values s ;; Some (map (fun v => PrimFloat.leb v x) l).

Definition lt (s : Series) (x : float) : option (list bool) :=
  l <- values s ;; Some (map (fun v => PrimFloat.ltb v x) l).

(** [abs(s - x)]. *)
Definition abs_dev (s : Series) (x : float) : option (list float) :=
  l <- values s ;; Some (map (fun v => PrimFloat.abs (PrimFloat.sub v x)) l).

(** [a >= b] between two numeric series of the same frame. *)
Definition ge_series (a b : list float) : option (list bool) :=
  if length a =? length b
  then Some (map2 (fun x y => PrimFloat.leb y x) a b)
  else None.

Definition putmask (mask : list bool) (x : float) (s : Series) : Series :=
  match s with
  | FloatCol l => FloatCol (map2 (fun (b : bool) v => if b then x else v) mask l)
  | ObjCol l => ObjCol (map2 (fun (b : bool) o => if b then OFloat x else o) mask l)
  end.

(** [df.loc[mask, name] = x] for a float [x]. *)
Definition loc_setitem (mask : list bool) (name : string) (x : float) (df : DataFrame)
  : option DataFrame :=
  s <- col name df ;;
  if length mask =? size s
  then assign name (putmask mask x s) df
  else None.

(** [df.replace(old, new)] on numbers: every numeric cell equal to [old], in
    every column, becomes [new]; strings and [None] are left alone. *)
Definition replace_cell (old new : float) (v : float) : float :=
  if PrimFloat.eqb v old then new else v.

Definition replace_series (old new : float) (s : Series) : Series :=
  match s with
  | FloatCol l => FloatCol (map (replace_cell old new) l)
  | ObjCol l =>
      ObjCol (map (fun o => match o with
                            | OFloat v => OFloat (replace_cell old new v)
                            | _ => o
                            end) l)
  end.

Definition replace (old new : float) (df : DataFrame) : DataFrame :=
  {| index := index df;
     data := map (fun c => (fst c, replace_series old new (snd c))) (data df) |}.

(** [pd.concat([a, b], axis=1)], the second frame given by its columns; both
    frames are over the same rows. *)
Definition concat_columns (a : DataFrame) (b : list (string * Series)) : DataFrame :=
  {| index := index a; data := data a ++ b |}.

End Pandas.

(** ** [astype] and [get_dummies] *)

Module Encoding.

Import Pandas.

(** [s.astype('float64')].  [float_of_string] is Python's [float] on a [str]
    ([None] where it raises [ValueError], as on the empty string); a float
    cell is kept and [None] becomes NaN. *)
Definition astype_float64 (float_of_string : string -> option float) (s : Series)
  : option Series :=
  match s with
  | FloatCol l => Some (FloatCol l)
  | ObjCol l =>
      option_map FloatCol
        (traverse (fun o => match o with
                            | OStr t => float_of_string t
                            | OFloat x => Some x
                            | ONone => Some PrimFloat.nan
                            end) l)
  end.

(** [b.astype('int')] on a boolean mask. *)
Definition astype_int (mask : list bool) : list Z :=
  map (fun b : bool => if b then 1%Z else 0%Z) mask.

(** The categories of a text column are its distinct strings in increasing
    order (code-point order, as Python compares [str]); [None] is not a
    category. *)
Fixpoint insert_level (s : string) (l : list string) : list string :=
  match l with
  | [] => [s]
  | t :: l' =>
      if String.eqb s t then l
      else if String.ltb s t then s :: l
      else t :: insert_level s l'
  end.

Fixpoint levels (l : list obj) : list string :=
  match l with
  | [] => []
  | OStr s :: l' => insert_level s (levels l')
  | _ :: l' => levels l'
  end.

Definition is_text (o : obj) : bool :=
  match o with
  | OFloat _ => false
  | _ => true
  end.

Definition indicator (level : string) (o : obj) : float :=
  match o with
  | OStr s => if String.eqb s level then 1%float else 0%float
  | _ => 0%float
  end.

Definition dummy_column (prefix : string) (l : list obj) (level : string)
  : string * Series :=
  ((prefix ++ "_" ++ level)%string, FloatCol (map (indicator level) l)).

(** [pd.get_dummies(s, prefix, drop_first=True)] on a text column (cells are
    [str] or [None]; numeric data is outside this model and is reported as an
    error): one 0/1 column per category, without the first category. *)
Definition get_dummies_drop_first (s : Series) (prefix : string)
  : option (list (string * Series)) :=
  match s with
  | FloatCol _ => None
  | ObjCol l =>
      if forallb is_text l
      then Some (map (dummy_column prefix l) (tl (levels l)))
      else None
  end.

(** [a + b] between two numeric series of the same frame. *)
Definition add_series (a b : Series) : option Series :=
  x <- values a ;; y <- values b ;;
  if length x =? length y
  then Some (FloatCol (map2 PrimFloat.add x y))
  else None.

End Encoding.

(** ** The notebook *)

Module Notebook.

Import Pandas Encoding.

(** The columns selected by [base_cohort_query] and [feature_set_query]
    (PostgreSQL folds the unquoted names to lower case). *)
Definition base_cohort_columns : list string :=
  [ "patientunitstayid"; "age"; "gender"; "ethnicity"; "height"; "weight";
    "unit_type"; "unitadmitsource"; "unit_los"; "hospital_los";
    "gcs_meds"; "gcs_verbal"; "gcs_motor"; "gcs_eyes";
    "admit_diagnosis";
    "hepatic_failure"; "metastatic_cancer"; "immunosuppression"; "cirrhosis";
    "diabetes"; "copd"; "cad"; "afib"; "ckd";
    "apache_readmit"; "apache_midur";
    "apache_ventday1"; "apache_intubday1";
    "apache_fio2"; "apache_pao2"; "apache_o2ratio";
    "apache_prediction"; "apache_score"; "hospital_expiration" ].

Definition feature_set_columns : list string :=
  [ "patientunitstayid"; "hr_mean"; "sbp_periodic_mean"; "dbp_periodic_mean";
    "map_periodic_mean"; "sbp_aperiodic_mean"; "dbp_aperiodic_mean";
    "map_aperiodic_mean"; "rr_mean"; "spo2_mean"; "tempc_mean";
    "albumin_min"; "albumin_max";
    "amylase_min"; "amylase_max";
    "bicarbonate_min"; "bicarbonate_max";
    "bun_min"; "bun_max";
    "cpk_min"; "cpk_max";
    "bilirubin_min"; "bilirubin_max";
    "ioncalcium_min"; "ioncalcium_max";
    "creatinine_min"; "creatinine_max";
    "glucose_min"; "glucose_max";
    "hematocrit_min"; "hematocrit_max";
    "fibrinogen_min"; "fibrinogen_max";
    "lipase_min"; "lipase_max";
    "hemoglobin_min"; "hemoglobin_max";
    "lactate_min"; "lactate_max";
    "lymphs_min"; "lymphs_max";
    "platelet_min"; "platelet_max";
    "pmn_min"; "pmn_max";
    "potassium_min"; "potassium_max";
    "ptt_min"; "ptt_max";
    "inr_min"; "inr_max";
    "pt_min"; "pt_max";
    "sodium_min"; "sodium_max";
    "tropi_min"; "tropi_max";
    "wbc_min"; "wbc_max";
    "alt_min"; "alt_max";
    "ast_min"; "ast_max";
    "alkphos_min"; "alkphos_max";
    "abx"; "vasopressor"; "antiarr"; "sedative"; "diuretic";
    "blood_product_prbc"; "blood_product_other"; "antiinf" ].

(** The columns of [pd.merge(base_cohort, feature_set, how='inner',
    on='patientunitstayid')] for a base cohort that has rows: the key once,
    then the rest of the left frame, then the rest of the right frame. *)
Definition cohort_columns : list string :=
  base_cohort_columns
  ++ filter (fun n => negb (String.eqb n "patientunitstayid")) feature_set_columns.

(** The text columns of the joined table; every other column is numeric. *)
Definition text_columns : list string :=
  [ "age"; "gender"; "ethnicity"; "unit_type"; "unitadmitsource";
    "admit_diagnosis"; "hospital_expiration" ].

Section Cells.

(** Python's [float(str)] and the initial content of [np.empty] arrays. *)
Variable float_of_string : string -> option float.
Variable junk : nat -> float.

(** *** Inclusion and exclusion criteria (cells 14-18) *)

Definition filter_stage (cohort : DataFrame) : option DataFrame :=
  (* cohort.loc[cohort.age == '> 89', 'age'] = 93.0 *)
  age <- col "age" cohort ;;
  cohort <- loc_setitem (eq_str age "> 89") "age" 93%float cohort ;;
  (* cohort = cohort.loc[cohort.age != '', :] *)
  age <- col "age" cohort ;;
  cohort <- loc_rows (ne_str age "") cohort ;;
  (* cohort.age = cohort.age.astype('float64') *)
  age <- col "age" cohort ;;
  age <- astype_float64 float_of_string age ;;
  cohort <- assign "age" age cohort ;;
  (* cohort = cohort.loc[cohort.age >= 18., :] *)
  age <- col "age" cohort ;;
  adult <- ge age 18%float ;;
  cohort <- loc_rows adult cohort ;;
  (* cohort = cohort.loc[cohort.unit_los >= 240, :] *)
  unit_los <- col "unit_los" cohort ;;
  long_stay <- ge unit_los 240%float ;;
  cohort <- loc_rows long_stay cohort ;;
  (* cohort = cohort[~cohort.admit_diagnosis.isin(['S-UGIBLEED', 'S-LGIBLEED'])] *)
  admit_diagnosis <- col "admit_diagnosis" cohort ;;
  cohort <- loc_rows (invert (isin admit_diagnosis ["S-UGIBLEED"; "S-LGIBLEED"])) cohort ;;
  (* cohort = cohort[(cohort.weight >= 50) & (cohort.weight <= 300)] *)
  weight <- col "weight" cohort ;;
  w_lo <- ge weight 50%float ;;
  w_hi <- le weight 300%float ;;
  cohort <- loc_rows (and_mask w_lo w_hi) cohort ;;
  (* cohort = cohort[(cohort.height <= 250) & (cohort.height >= 50)] *)
  height <- col "height" cohort ;;
  h_hi <- le height 250%float ;;
  h_lo <- ge height 50%float ;;
  loc_rows (and_mask h_hi h_lo) cohort.

(** *** Abnormal-value reduction (cell 21) *)

Definition lab_drop : list string :=
  [ "bicarbonate_max"; "platelet_max";
    "hemoglobin_max"; "fibrinogen_max"; "hematocrit_max"; "albumin_max"; "ioncalcium_max";
    "creatinine_min"; "alt_min"; "ast_min"; "alkphos_min";
    "bun_min"; "bilirubin_min"; "pt_min"; "ptt_min"; "inr_min"; "lactate_min";
    "tropi_min"; "amylase_min"; "lipase_min"; "cpk_min" ].

(** The idiom used for each two-sided analyte:
<<
    x = np.empty(len(cohort.index), dtype='float64')
    x[check] = cohort.x_min[check]
    x[~check] = cohort.x_max[~check]
>> *)
Definition most_abnormal (check : list bool) (x_min x_max : Series) (n : nat)
  : option Series :=
  let x := Numpy.empty junk n in
  lo <- getitem x_min check ;;
  x <- Numpy.setitem_mask x check lo ;;
  hi <- getitem x_max (invert check) ;;
  x <- Numpy.setitem_mask x (invert check) hi ;;
  Some (FloatCol x).

Definition abnormal_value_reducer (cohort : DataFrame) : option DataFrame :=
  cohort <- drop lab_drop cohort ;;
  (* sodium, deviates bidirectionally *)
  sodium_min <- col "sodium_min" cohort ;;
  sodium_max <- col "sodium_max" cohort ;;
  dev_min <- abs_dev sodium_min 135%float ;;
  dev_max <- abs_dev sodium_max 145%float ;;
  sodium_check <- ge_series dev_min dev_max ;;
  sodium <- most_abnormal sodium_check sodium_min sodium_max (length (index cohort)) ;;
  cohort <- assign "sodium" sodium cohort ;;
  cohort <- drop ["sodium_min"; "sodium_max"] cohort ;;
  (* potassium, deviates bidirectionally, same treatment then *)
  potassium_min <- col "potassium_min" cohort ;;
  potassium_max <- col "potassium_max" cohort ;;
  dev_min <- abs_dev potassium_min 3.5%float ;;
  dev_max <- abs_dev potassium_max 5%float ;;
  potassium_check <- ge_series dev_min dev_max ;;
  potassium <- most_abnormal potassium_check potassium_min potassium_max
                 (length (index cohort)) ;;
  cohort <- assign "potassium" potassium cohort ;;
  cohort <- drop ["potassium_min"; "potassium_max"] cohort ;;
  (* wbc counts *)
  wbc_min <- col "wbc_min" cohort ;;
  wbc_check <- lt wbc_min 2%float ;;
  pmn_min <- col "pmn_min" cohort ;;
  pmn_check <- lt pmn_min 45%float ;;
  lymphs_min <- col "lymphs_min" cohort ;;
  lym_check <- lt lymphs_min 20%float ;;
  wbc_max <- col "wbc_max" cohort ;;
  wbc <- most_abnormal wbc_check wbc_min wbc_max (length (index cohort)) ;;
  cohort <- assign "wbc" wbc cohort ;;
  cohort <- drop ["wbc_min"; "wbc_max"] cohort ;;
  pmn_min <- col "pmn_min" cohort ;;
  pmn_max <- col "pmn_max" cohort ;;
  pmn <- most_abnormal pmn_check pmn_min pmn_max (length (index cohort)) ;;
  cohort <- assign "pmn" pmn cohort ;;
  cohort <- drop ["pmn_min"; "pmn_max"] cohort ;;
  lymphs_min <- col "lymphs_min" cohort ;;
  lymphs_max <- col "lymphs_max" cohort ;;
  lym <- most_abnormal lym_check lymphs_min lymphs_max (length (index cohort)) ;;
  cohort <- assign "lym" lym cohort ;;
  drop ["lymphs_min"; "lymphs_max"] cohort.

(** *** Feature curation (cells 22-27) *)

(** Cell 22: the sentinel pass and the redundant signals. *)
Definition relabel_and_prune (cohort : DataFrame) : option DataFrame :=
  let cohort := replace (-1)%float PrimFloat.nan cohort in
  drop [ "sbp_periodic_mean"; "dbp_periodic_mean"; "map_periodic_mean";
         "tempc_mean"; "apache_pao2"; "apache_fio2"; "apache_o2ratio"; "hospital_los";
         "unitadmitsource" ] cohort.

(** Cells 24 and 25. *)
Definition drop_features (cohort : DataFrame) : option DataFrame :=
  cohort <- drop ["apache_score"; "unit_los"] cohort ;;
  cohort <- drop [ "height"; "weight"; "gender"; "ethnicity";
                   "unit_type";
                   "diabetes"; "copd"; "cad"; "ckd"; "afib"; "cirrhosis"; "hepatic_failure";
                   "sedative"; "diuretic"; "antiinf";
                   "apache_midur";
                   "sodium"; "glucose_min" ] cohort ;;
  cohort <- drop ["gcs_meds"] cohort ;;
  cohort <- drop [ "sbp_aperiodic_mean"; "dbp_aperiodic_mean";
                   "apache_ventday1";
                   "alt_max";
                   "hematocrit_min";
                   "lym" ] cohort ;;
  drop [ "tropi_max";
         "fibrinogen_min";
         "ioncalcium_min";
         "cpk_max";
         "amylase_max"; "lipase_max" ] cohort.

(** Cell 26. *)
Definition encode_admit_diagnosis (cohort : DataFrame) : option DataFrame :=
  admit_diagnosis <- col "admit_diagnosis" cohort ;;
  adx_dummies <- get_dummies_drop_first admit_diagnosis "adx" ;;
  let cohort := concat_columns cohort adx_dummies in
  drop ["admit_diagnosis"] cohort.

(** Cell 27. *)
Definition combine_gcs (cohort : DataFrame) : option DataFrame :=
  gcs_eyes <- col "gcs_eyes" cohort ;;
  gcs_motor <- col "gcs_motor" cohort ;;
  gcs_verbal <- col "gcs_verbal" cohort ;;
  eyes_motor <- add_series gcs_eyes gcs_motor ;;
  gcs_net <- add_series eyes_motor gcs_verbal ;;
  cohort <- assign "gcs" gcs_net cohort ;;
  drop ["gcs_eyes"; "gcs_motor"; "gcs_verbal"] cohort.

Definition feature_curator (cohort : DataFrame) : option DataFrame :=
  cohort <- relabel_and_prune cohort ;;
  cohort <- drop_features cohort ;;
  cohort <- encode_admit_diagnosis cohort ;;
  combine_gcs cohort.

(** *** Label and benchmark separation (cell 28) *)

Record Separated : Type := mkSeparated {
  features : DataFrame;
  label : list Z;
  apache_pred : Series
}.

Definition separate_label (cohort : DataFrame) : option Separated :=
  hospital_expiration <- col "hospital_expiration" cohort ;;
  let label := astype_int (eq_str hospital_expiration "EXPIRED") in
  apache_pred <- col "apache_prediction" cohort ;;
  cohort <- drop ["hospital_expiration"; "apache_prediction"] cohort ;;
  Some {| features := cohort; label := label; apache_pred := apache_pred |}.

(** The notebook from the joined table to the arguments of
    [train_test_split]. *)
Definition pre_split (cohort : DataFrame) : option Separated :=
  cohort <- filter_stage cohort ;;
  cohort <- abnormal_value_reducer cohort ;;
  cohort <- feature_curator cohort ;;
  separate_label cohort.

End Cells.

End Notebook.


(** ** The database connection and the materialized views (cells 1 to 3) *)

Module Database.

(** The exceptions of these cells: an error reported by the server for a
    statement, and a query file that cannot be opened. *)
Inductive exn : Type :=
| DatabaseError (message : string)
| OSError (path : string).

(** What the cells act upon: the text files on disk, each as the characters
    it holds, line endings as they are stored; the statements sent over the
    connection so far (oldest first); the number of cursors that are open on
    it; and the text printed so far. *)
Record world : Type := mkWorld {
  files : string -> option string;
  sent : list string;
  cursors : nat;
  stdout : string
}.

(** A computation returns a value or raises, and leaves a world behind. *)
Definition M (A : Type) : Type := world -> (A + exn) * world.

Definition ret {A : Type} (a : A) : M A := fun w => (inl a, w).

Definition raise {A : Type} (e : exn) : M A := fun w => (inr e, w).

Definition bindM {A B : Type} (m : M A) (k : A -> M B) : M B :=
  fun w =>
    match m w with
    | (inl a, w') => k a w'
    | (inr e, w') => (inr e, w')
    end.

Notation "x <<- m ;; k" := (bindM m (fun x => k))
  (at level 61, m at next level, right associativity).

Notation "m >> k" := (bindM m (fun _ => k))
  (at level 61, right associativity).

(** [try: body except: handler(e)] with a bare [except], which catches every
    exception. *)
Definition try_except {A : Type} (body : M A) (handler : exn -> M A) : M A :=
  fun w =>
    match body w with
    | (inl a, w') => (inl a, w')
    | (inr e, w') => handler e w'
    end.

(** [try: body finally: final]: [final] runs on every path; the outcome is
    that of [body] unless [final] raises. *)
Definition try_finally {A : Type} (body : M A) (final : M unit) : M A :=
  fun w =>
    match body w with
    | (r, w') =>
        match final w' with
        | (inl _, w'') => (r, w'')
        | (inr e, w'') => (inr e, w'')
        end
    end.

(** The line terminator of a text file read in text mode. *)
Definition newline : string := String "010"%char EmptyString.

(** What [open(path)] makes of the stored characters: the file is opened in
    text mode with the default [newline=None], so a line ending stored as
    carriage return and line feed, or as a carriage return alone, is read as
    a line feed. *)
Fixpoint universal_newlines (text : string) : string :=
  match text with
  | EmptyString => EmptyString
  | String c rest =>
      if Ascii.eqb c "013"%char then
        match rest with
        | String c' rest' =>
            if Ascii.eqb c' "010"%char
            then String "010"%char (universal_newlines rest')
            else String "010"%char (universal_newlines rest)
        | EmptyString => String "010"%char EmptyString
        end
      else String c (universal_newlines rest)
  end.

(** [fp.readlines()] on the text read: the lines, each with its terminator,
    the last one without when the text does not end with one. *)
Fixpoint readlines (text : string) : list string :=
  match text with
  | EmptyString => []
  | String c rest =>
      if Ascii.eqb c "010"%char then String c EmptyString :: readlines rest
      else match readlines rest with
           | [] => [String c EmptyString]
           | line :: lines => String c line :: lines
           end
  end.

(** [print(s, end=e)]. *)
Definition print (s e : string) : M unit :=
  fun w => (inl tt, {| files := files w; sent := sent w; cursors := cursors w;
                       stdout := stdout w ++ s ++ e |}).

(** [with open(path) as fp: fp.readlines()]: the lines of the stored text
    after the translation of its line endings. *)
Definition open_readlines (path : string) : M (list string) :=
  fun w =>
    match files w path with
    | Some text => (inl (readlines (universal_newlines text)), w)
    | None => (inr (OSError path), w)
    end.

Section Connection.

(** The server: its answer to a statement, given the statements it received
    before on this connection; [None] when it accepts the statement, the
    error message otherwise. *)
Variable server : list string -> string -> option string.

(** [con.cursor()], [cur.execute(sql)] and [cur.close()]. *)
Definition cursor : M unit :=
  fun w => (inl tt, {| files := files w; sent := sent w; cursors := S (cursors w);
                       stdout := stdout w |}).

Definition execute (sql : string) : M unit :=
  fun w =>
    let w' := {| files := files w; sent := sent w ++ [sql]; cursors := cursors w;
                 stdout := stdout w |} in
    match server (sent w) sql with
    | None => (inl tt, w')
    | Some message => (inr (DatabaseError message), w')
    end.

Definition close : M unit :=
  fun w => (inl tt, {| files := files w; sent := sent w; cursors := pred (cursors w);
                       stdout := stdout w |}).

(** Cell 2:
<<
    def execute_query_safely(sql, con):
        cur = con.cursor()
        try:
            cur.execute(sql)
        except:
            cur.execute('rollback;')
            raise
        finally:
            cur.close()
        return
>> *)
Definition execute_query_safely (sql : string) : M unit :=
  cursor >>
  try_finally
    (try_except (execute sql) (fun e => execute "rollback;" >> raise e))
    close >>
  ret tt.

(** Cell 2:
<<
    def generate_materialized_view(query_file, con, query_schema):
        with open(query_file) as fp:
            query = ''.join(fp.readlines())
        print('Generating materialized view using {} ...'.format(query_file), end=' ')
        execute_query_safely(query_schema + query, con)
        print('done.')
>> *)
Definition generate_materialized_view (query_file query_schema : string) : M unit :=
  lines <<- open_readlines query_file ;;
  let query := String.concat "" lines in
  print ("Generating materialized view using " ++ query_file ++ " ...") " " >>
  execute_query_safely (query_schema ++ query) >>
  print "done." newline.

(** Cell 1. *)
Definition schema_name : string := "eicu_crd".

Definition query_schema : string := "SET search_path TO " ++ schema_name ++ ";".

(** Cell 3. *)
Definition generate_views : M unit :=
  generate_materialized_view "./sql/vitalsfirstday.sql" query_schema >>
  generate_materialized_view "./sql/labsfirstday.sql" query_schema >>
  generate_materialized_view "./sql/treatmentfirstday.sql" query_schema.

End Connection.

End Database.
(** ** The join of the two query results (cell 13) *)

Module Merge.

Import Pandas.

(** The stay identifier is an integer column.  A frame holds it as the
    binary64 numbers of the same value, which tells two integers apart as
    long as they are below 2^53 in magnitude; [key_of] reads the integer
    back from such a cell.  A cell that is no such integer (a fraction, a
    NaN, an infinity, or a number of magnitude 2^53 or more) is outside this
    model and is reported as an error. *)
Definition key_of (x : float) : option Z :=
  match Prim2SF x with
  | S754_zero _ => Some 0%Z
  | S754_finite s m e =>
      let whole := (0 <=? e)%Z || (Z.pos m mod 2 ^ (- e) =? 0)%Z in
      let n := if (0 <=? e)%Z then (Z.pos m * 2 ^ e)%Z else (Z.pos m / 2 ^ (- e))%Z in
      if whole && (n <? 2 ^ 53)%Z then Some (if s then (- n)%Z else n) else None
  | _ => None
  end.

(** The integer keys of a key column (a key column that is not numeric is
    outside this model as well). *)
Definition keys (s : Series) : option (list Z) :=
  match s with
  | FloatCol l => traverse key_of l
  | ObjCol _ => None
  end.

(** The rows of a key column that hold [x], numbered from [j]. *)
Fixpoint matches (x : Z) (ks : list Z) (j : nat) : list nat :=
  match ks with
  | [] => []
  | y :: ks' =>
      if Z.eqb x y then j :: matches x ks' (S j) else matches x ks' (S j)
  end.

(** The distinct keys, in the order in which they first appear. *)
Fixpoint first_seen (ks : list Z) : list Z :=
  match ks with
  | [] => []
  | x :: ks' => x :: filter (fun y => negb (Z.eqb y x)) (first_seen ks')
  end.

(** The pairs of matching rows of an inner join: pandas numbers the keys in
    the order in which they first appear in the left column and groups the
    rows by key; the pairs of one key come in the order of the left rows
    and, for one left row, in the order of the right rows. *)
Definition join_pairs (lk rk : list Z) : list (nat * nat) :=
  flat_map (fun x => flat_map (fun i => map (pair i) (matches x rk 0)) (matches x lk 0))
    (first_seen lk).

(** The cells of a column at the given positions. *)
Definition take (positions : list nat) (s : Series) : option Series :=
  match s with
  | FloatCol l => option_map FloatCol (traverse (nth_error l) positions)
  | ObjCol l => option_map ObjCol (traverse (nth_error l) positions)
  end.

(** [pd.merge(left=left, right=right, how='inner', on=key)] on an integer
    key.  The result has one row per pair of matching rows, with a fresh
    index.  Its columns are those of [left] followed by those of [right]
    without the key; when [left] has no row, pandas keeps the key column of
    [right] instead of that of [left], so the columns are those of [left]
    without the key followed by those of [right].  A name other than the key
    that both frames use gets the suffix [_x] on the left and [_y] on the
    right. *)
Definition merge_inner (key : string) (left right : DataFrame) : option DataFrame :=
  lkey <- col key left ;;
  lk <- keys lkey ;;
  rkey <- col key right ;;
  rk <- keys rkey ;;
  let pairs := join_pairs lk rk in
  let shared (n : string) :=
    negb (String.eqb n key) && mem n (columns left) && mem n (columns right) in
  let other (c : string * Series) := negb (String.eqb (fst c) key) in
  let empty := length (index left) =? 0 in
  lcols <- traverse (fun c => s <- take (map fst pairs) (snd c) ;;
                              Some (if shared (fst c) then (fst c ++ "_x")%string
                                    else fst c, s))
             (if empty then filter other (data left) else data left) ;;
  rcols <- traverse (fun c => s <- take (map snd pairs) (snd c) ;;
                              Some (if shared (fst c) then (fst c ++ "_y")%string
                                    else fst c, s))
             (if empty then data right else filter other (data right)) ;;
  Some {| index := map Z.of_nat (seq 0 (length pairs)); data := lcols ++ rcols |}.

(** Cell 13. *)
Definition join_cohort (base_cohort feature_set : DataFrame) : option DataFrame :=
  merge_inner "patientunitstayid" base_cohort feature_set.

End Merge.

(** * Vocabulary of the specification *)

Module Spec.

Import Numpy Pandas Encoding Notebook.

(** ** Row-wise rules of the reducer *)

(** The row-wise choice that the two masked assignments implement. *)
Fixpoint choose (check : list bool) (lo hi : list float) : list float :=
  match check, lo, hi with
  | b :: check', x :: lo', y :: hi' => (if b then x else y) :: choose check' lo' hi'
  | _, _, _ => []
  end.

(** [abs(x_min - lower) >= abs(x_max - upper)], row by row. *)
Definition deviation_check (lower upper : float) (lo hi : list float) : list bool :=
  map2 (fun x y => PrimFloat.leb y x)
       (map (fun v => PrimFloat.abs (PrimFloat.sub v lower)) lo)
       (map (fun v => PrimFloat.abs (PrimFloat.sub v upper)) hi).

(** [x_min < t], row by row. *)
Definition threshold_check (t : float) (lo : list float) : list bool :=
  map (fun v => PrimFloat.ltb v t) lo.

(** The minimum [m] when [|m - lower| >= |M - upper|], else the maximum [M]. *)
Definition deviation_rule (lower upper m M : float) : float :=
  if PrimFloat.leb (PrimFloat.abs (PrimFloat.sub M upper))
                   (PrimFloat.abs (PrimFloat.sub m lower))
  then m else M.

(** The minimum [m] when [m < t], else the maximum [M]. *)
Definition threshold_rule (t m M : float) : float :=
  if PrimFloat.ltb m t then m else M.

(** The two-sided analytes: the columns of the two bounds, the reduced
    column, and the rule that picks one of the bounds. *)
Definition two_sided : list (string * string * string * (float -> float -> float)) :=
  [ ("sodium_min", "sodium_max", "sodium", deviation_rule 135 145);
    ("potassium_min", "potassium_max", "potassium", deviation_rule 3.5 5);
    ("wbc_min", "wbc_max", "wbc", threshold_rule 2);
    ("pmn_min", "pmn_max", "pmn", threshold_rule 45);
    ("lymphs_min", "lymphs_max", "lym", threshold_rule 20) ].

(** The universal missing marker is NaN. *)
Definition missing (x : float) : bool := PrimFloat.is_nan x.

(** The sentinel pass on one cell, and a column free of the sentinel. *)
Definition normalize (x : float) : float := replace_cell (-1)%float PrimFloat.nan x.

Definition no_sentinel (l : list float) : bool :=
  forallb (fun v => negb (PrimFloat.eqb v (-1)%float)) l.

(** The analytes that deviate in one direction only, by the bound kept. *)
Definition retain_minimum : list string :=
  [ "bicarbonate"; "platelet"; "hemoglobin"; "fibrinogen"; "hematocrit";
    "albumin"; "ioncalcium" ].

Definition retain_maximum : list string :=
  [ "creatinine"; "alt"; "ast"; "alkphos"; "bun"; "bilirubin"; "pt"; "ptt";
    "inr"; "lactate"; "tropi"; "amylase"; "lipase"; "cpk" ].

Definition min_of (analyte : string) : string := (analyte ++ "_min")%string.
Definition max_of (analyte : string) : string := (analyte ++ "_max")%string.

(** ** Frames as maps from names to columns *)

Definition view : Type := string -> option Series.

Definition after_drop (labels : list string) (v : view) : view :=
  fun n => if mem n labels then None else v n.

Definition after_assign (name : string) (s : Series) (v : view) : view :=
  fun n => if String.eqb n name then Some s else v n.

Definition after_replace (old new : float) (v : view) : view :=
  fun n => option_map (replace_series old new) (v n).

Definition after_concat (b : list (string * Series)) (v : view) : view :=
  fun n => match v n with
           | Some s => Some s
           | None => lookup n b
           end.

Definition has (name : string) (df : DataFrame) : bool :=
  match col name df with
  | Some _ => true
  | None => false
  end.

(** Column [name] of [df] is numeric, with content [l], one cell per row. *)
Definition numeric (name : string) (df : DataFrame) (l : list float) : Prop :=
  exists s, col name df = Some s /\ values s = Some l /\ length l = length (index df).

Definition numericb (name : string) (df : DataFrame) : bool :=
  match col name df with
  | Some s =>
      match values s with
      | Some l => length l =? length (index df)
      | None => false
      end
  | None => false
  end.

(** What the reducer needs of its input: the columns it drops exist and the
    ten columns it compares are numeric. *)
Definition reducer_ready (df : DataFrame) : bool :=
  forallb (fun n => has n df) lab_drop
  && forallb (fun n => numericb n df)
       [ "sodium_min"; "sodium_max"; "potassium_min"; "potassium_max";
         "wbc_min"; "wbc_max"; "pmn_min"; "pmn_max"; "lymphs_min"; "lymphs_max" ].

(** The frame the reducer returns, as a view of the frame it was given. *)
Definition reduced_view (v : view)
  (na_lo na_hi k_lo k_hi w_lo w_hi p_lo p_hi l_lo l_hi : list float) : view :=
  after_drop ["lymphs_min"; "lymphs_max"]
    (after_assign "lym" (FloatCol (choose (threshold_check 20 l_lo) l_lo l_hi))
    (after_drop ["pmn_min"; "pmn_max"]
    (after_assign "pmn" (FloatCol (choose (threshold_check 45 p_lo) p_lo p_hi))
    (after_drop ["wbc_min"; "wbc_max"]
    (after_assign "wbc" (FloatCol (choose (threshold_check 2 w_lo) w_lo w_hi))
    (after_drop ["potassium_min"; "potassium_max"]
    (after_assign "potassium"
       (FloatCol (choose (deviation_check 3.5 5 k_lo k_hi) k_lo k_hi))
    (after_drop ["sodium_min"; "sodium_max"]
    (after_assign "sodium"
       (FloatCol (choose (deviation_check 135 145 na_lo na_hi) na_lo na_hi))
    (after_drop lab_drop v)))))))))).

(** The feature matrix handed to the split, as a view of the reducer's
    output: the sentinel pass, the drops of cells 22 to 25, the indicator
    columns, the composite score and the separation of label and benchmark. *)
Definition curated_view (v : view) (adx_dummies : list (string * Series)) (gcs : Series)
  : view :=
  after_drop ["hospital_expiration"; "apache_prediction"]
    (after_drop ["gcs_eyes"; "gcs_motor"; "gcs_verbal"]
    (after_assign "gcs" gcs
    (after_drop ["admit_diagnosis"]
    (after_concat adx_dummies
    (after_drop [ "tropi_max"; "fibrinogen_min"; "ioncalcium_min"; "cpk_max";
                  "amylase_max"; "lipase_max" ]
    (after_drop [ "sbp_aperiodic_mean"; "dbp_aperiodic_mean"; "apache_ventday1";
                  "alt_max"; "hematocrit_min"; "lym" ]
    (after_drop ["gcs_meds"]
    (after_drop [ "height"; "weight"; "gender"; "ethnicity"; "unit_type";
                  "diabetes"; "copd"; "cad"; "ckd"; "afib"; "cirrhosis";
                  "hepatic_failure"; "sedative"; "diuretic"; "antiinf";
                  "apache_midur"; "sodium"; "glucose_min" ]
    (after_drop ["apache_score"; "unit_los"]
    (after_drop [ "sbp_periodic_mean"; "dbp_periodic_mean"; "map_periodic_mean";
                  "tempc_mean"; "apache_pao2"; "apache_fio2"; "apache_o2ratio";
                  "hospital_los"; "unitadmitsource" ]
    (after_replace (-1)%float PrimFloat.nan v))))))))))).

(** The names [adx_...] of the indicator columns. *)
Definition named_adx (n : string) : bool :=
  match n with
  | String "a" (String "d" (String "x" (String "_" _))) => true
  | _ => false
  end.

(** The cell of row [i] in an indicator column, and the sum of the
    indicators of a row. *)
Definition cell (c : string * Series) (i : nat) : float :=
  match snd c with
  | FloatCol v => nth i v 0%float
  | ObjCol _ => 0%float
  end.

Definition row_sum (dummies : list (string * Series)) (i : nat) : float :=
  fold_right (fun c acc => PrimFloat.add (cell c i) acc) 0%float dummies.

(** The admission diagnoses of the database, and those left by the
    surgical-bleed exclusion. *)
Definition known_categories : list string :=
  ["UNKGIBLEED"; "UGIBLEED"; "LOWGIBLEED"; "S-UGIBLEED"; "S-LGIBLEED"].

Definition known_vocabulary (df : DataFrame) : bool :=
  match col "admit_diagnosis" df with
  | Some (ObjCol l) =>
      forallb (fun o => match o with
                        | OStr c => mem c known_categories
                        | _ => false
                        end) l
  | _ => false
  end.

(** Strings in strictly increasing order. *)
Definition ascending (l : list string) : Prop :=
  StronglySorted (fun a b => String.ltb a b = true) l.

(** Row selections applied one after the other. *)
Fixpoint select (masks : list (list bool)) (s : Series) : option Series :=
  match masks with
  | [] => Some s
  | m :: masks' => s' <- take_rows m s ;; select masks' s'
  end.

Definition same_kind (s s' : Series) : Prop :=
  match s, s' with
  | FloatCol _, FloatCol _ => True
  | ObjCol _, ObjCol _ => True
  | _, _ => False
  end.

Definition is_float (s : Series) : Prop := exists l, s = FloatCol l.

(** The joined table is typed as the queries type it: every column is
    numeric, the text columns apart. *)
Definition typed_as_queried (df : DataFrame) : bool :=
  forallb (fun c => mem (fst c) text_columns
                    || match snd c with FloatCol _ => true | ObjCol _ => false end)
          (data df).

(** Every column of the view is numeric, the names in [except] apart. *)
Definition numeric_except (except : list string) (v : view) : Prop :=
  forall n s, v n = Some s -> mem n except = false -> is_float s.

(** ** Tables that passed the inclusion and exclusion criteria *)

(** Every column has one cell per row. *)
Definition rectangular (df : DataFrame) : Prop :=
  Forall (fun c => size (snd c) = length (index df)) (data df).

(** A test on a column, row by row, as the filter cells compute it. *)
Definition row_test : Type := Series -> option (list bool).

Definition adult : row_test := fun age => ge age 18%float.

Definition long_stay : row_test := fun unit_los => ge unit_los 240%float.

Definition not_surgical : row_test :=
  fun admit_diagnosis => Some (invert (isin admit_diagnosis ["S-UGIBLEED"; "S-LGIBLEED"])).

Definition plausible_weight : row_test :=
  fun weight => w_lo <- ge weight 50%float ;; w_hi <- le weight 300%float ;;
                Some (and_mask w_lo w_hi).

Definition plausible_height : row_test :=
  fun height => h_hi <- le height 250%float ;; h_lo <- ge height 50%float ;;
                Some (and_mask h_hi h_lo).

(** A row test is stable when selecting rows of the column selects the same
    rows of the test's outcome. *)
Definition stable (t : row_test) : Prop :=
  forall mask s s' m,
    take_rows mask s = Some s' -> t s = Some m ->
    t s' = Some (Numpy.compress mask m).

(** Every row of column [name] passes the test. *)
Definition satisfied (t : row_test) (name : string) (df : DataFrame) : Prop :=
  exists s m, col name df = Some s /\ t s = Some m /\ Forall (fun b => b = true) m.

(** The state of a table after the filter cells: age is a number, and every
    row meets every criterion. *)
Definition filtered (df : DataFrame) : Prop :=
  rectangular df
  /\ (exists a, col "age" df = Some (FloatCol a))
  /\ satisfied adult "age" df
  /\ satisfied long_stay "unit_los" df
  /\ satisfied not_surgical "admit_diagnosis" df
  /\ satisfied plausible_weight "weight" df
  /\ satisfied plausible_height "height" df.

(** ** Tables the notebook runs on without an exception *)

Definition rectangularb (df : DataFrame) : bool :=
  forallb (fun c => size (snd c) =? length (index df)) (data df).

(** Column [name] holds text: strings or [None]. *)
Definition textb (name : string) (df : DataFrame) : bool :=
  match col name df with
  | Some (ObjCol l) => forallb is_text l
  | _ => false
  end.

(** Column [name] can take part in arithmetic and comparisons. *)
Definition valuesb (name : string) (df : DataFrame) : bool :=
  match col name df with
  | Some s => match values s with Some _ => true | None => false end
  | None => false
  end.

Definition valcol (name : string) (df : DataFrame) : Prop :=
  exists s l, col name df = Some s /\ values s = Some l.

(** An age cell is the placeholder "> 89", the empty string, or a string
    that [float] accepts; [convertible] is what the cast itself needs. *)
Definition parses (parse : string -> option float) (o : obj) : bool :=
  match o with
  | OStr t =>
      String.eqb t "> 89" || String.eqb t ""
      || match parse t with Some _ => true | None => false end
  | _ => true
  end.

Definition convertible (parse : string -> option float) (o : obj) : Prop :=
  match o with
  | OStr t => parse t <> None
  | _ => True
  end.

Definition age_ready (parse : string -> option float) (df : DataFrame) : bool :=
  match col "age" df with
  | Some (ObjCol l) => forallb (parses parse) l
  | Some (FloatCol _) => true
  | None => false
  end.

(** What the filter cells need of their input. *)
Definition filter_ready (parse : string -> option float) (df : DataFrame) : bool :=
  rectangularb df
  && age_ready parse df
  && forallb (fun n => valuesb n df) ["unit_los"; "weight"; "height"]
  && has "admit_diagnosis" df.

(** What the later filter cells rely on, whatever rows are left. *)
Definition filterable (df : DataFrame) : Prop :=
  rectangular df
  /\ valcol "unit_los" df /\ valcol "weight" df /\ valcol "height" df
  /\ has "admit_diagnosis" df = true.

(** What the curation cells need of the reducer's output. *)
Definition curation_ready (df : DataFrame) : bool :=
  forallb (fun n => has n df)
    [ "sbp_periodic_mean"; "dbp_periodic_mean"; "map_periodic_mean";
      "tempc_mean"; "apache_pao2"; "apache_fio2"; "apache_o2ratio";
      "hospital_los"; "unitadmitsource";
      "apache_score"; "unit_los";
      "height"; "weight"; "gender"; "ethnicity"; "unit_type";
      "diabetes"; "copd"; "cad"; "ckd"; "afib"; "cirrhosis"; "hepatic_failure";
      "sedative"; "diuretic"; "antiinf"; "apache_midur"; "sodium"; "glucose_min";
      "gcs_meds";
      "sbp_aperiodic_mean"; "dbp_aperiodic_mean"; "apache_ventday1";
      "alt_max"; "hematocrit_min"; "lym";
      "tropi_max"; "fibrinogen_min"; "ioncalcium_min"; "cpk_max";
      "amylase_max"; "lipase_max";
      "hospital_expiration"; "apache_prediction" ]
  && forallb (fun n => numericb n df) ["gcs_eyes"; "gcs_motor"; "gcs_verbal"]
  && textb "admit_diagnosis" df.

(** The joined table as the two queries deliver it: one cell per row in
    every column, the columns of both queries, numbers everywhere but in the
    text columns, ages that can be cast, and a diagnosis in text. *)
Definition joined_ready (parse : string -> option float) (df : DataFrame) : bool :=
  rectangularb df
  && age_ready parse df
  && forallb (fun n => has n df) cohort_columns
  && typed_as_queried df
  && textb "admit_diagnosis" df.

(** ** Statements that the notebook does not satisfy as written *)

(** Missingness of either bound propagates to the reduced value. *)
Definition missingness_propagates (junk : nat -> float) (df : DataFrame) : Prop :=
  forall out x_min x_max x rule lo hi r i m M v,
    abnormal_value_reducer junk df = Some out ->
    In (x_min, x_max, x, rule) two_sided ->
    numeric x_min df lo -> numeric x_max df hi ->
    col x out = Some (FloatCol r) ->
    nth_error lo i = Some m -> nth_error hi i = Some M -> nth_error r i = Some v ->
    missing m = true \/ missing M = true ->
    missing v = true.

(** Reducing and then running the sentinel pass, as the notebook does, gives
    the reduced values of the table normalized first. *)
Definition sentinel_normalized_first (junk : nat -> float) (df : DataFrame) : Prop :=
  forall red red' x_min x_max x rule,
    In (x_min, x_max, x, rule) two_sided ->
    abnormal_value_reducer junk df = Some red ->
    abnormal_value_reducer junk (replace (-1)%float PrimFloat.nan df) = Some red' ->
    col x (replace (-1)%float PrimFloat.nan red) = col x red'.

(** The glucose maximum reaches the feature matrix as it entered the
    reducer. *)
Definition glucose_max_unchanged
  (float_of_string : string -> option float) (junk : nat -> float) (df : DataFrame)
  : Prop :=
  forall cohort reduced curated sep,
    filter_stage float_of_string df = Some cohort ->
    abnormal_value_reducer junk cohort = Some reduced ->
    feature_curator reduced = Some curated ->
    separate_label curated = Some sep ->
    col "glucose_max" (features sep) = col "glucose_max" cohort.

(** With the five known categories in the joined table, the feature matrix
    has exactly four indicator columns and no diagnosis column. *)
Definition four_indicator_columns
  (float_of_string : string -> option float) (junk : nat -> float) (df : DataFrame)
  : Prop :=
  known_vocabulary df = true ->
  forall sep,
    pre_split float_of_string junk df = Some sep ->
    length (filter named_adx (columns (features sep))) = 4
    /\ has "admit_diagnosis" (features sep) = false.

(** No stay identifier is left in the feature matrix. *)
Definition no_identifier_column
  (float_of_string : string -> option float) (junk : nat -> float) (df : DataFrame)
  : Prop :=
  forall sep,
    pre_split float_of_string junk df = Some sep ->
    mem "patientunitstayid" (columns (features sep)) = false.

End Spec.

(** * Sample tables *)

Module Examples.

Import Pandas Notebook.

(** Python's [float] restricted to strings of decimal digits. *)
Fixpoint digits (s : string) (acc : Z) : option Z :=
  match s with
  | EmptyString => Some acc
  | String c s' =>
      let n := Z.of_nat (nat_of_ascii c) in
      if ((48 <=? n) && (n <=? 57))%Z then digits s' (10 * acc + (n - 48))%Z else None
  end.

Definition float_of_digits (s : string) : option float :=
  match s with
  | EmptyString => None
  | _ => option_map (fun z => PrimFloat.of_uint63 (Uint63.of_Z z)) (digits s 0%Z)
  end.

Definition zeros (i : nat) : float := 0%float.

Definition default_series (rows : nat) (name : string) : Series :=
  if mem name text_columns
  then ObjCol (repeat (OStr "> 89") rows)
  else FloatCol (repeat 100%float rows).

(** A joined table with the columns of the two queries; the columns not
    listed in [given] hold a default value. *)
Definition frame (rows : nat) (given : list (string * Series)) : DataFrame :=
  {| index := map Z.of_nat (seq 0 rows);
     data := map (fun n => (n, match lookup n given with
                               | Some s => s
                               | None => default_series rows n
                               end)) cohort_columns |}.

(** Six stays: one without age, one minor, two surgical bleeds. *)
Definition joined : DataFrame :=
  frame 6
    [ ("patientunitstayid",
       FloatCol [141168; 141194; 141203; 141227; 141233; 141244]%float);
      ("age", ObjCol [OStr "45"; OStr "> 89"; OStr ""; OStr "17"; OStr "60"; OStr "70"]);
      ("unit_los", FloatCol [1440; 2880; 1440; 1440; 300; 1440]%float);
      ("weight", FloatCol [80; 61.5; 80; 80; 120; 80]%float);
      ("height", FloatCol [170; 158; 170; 170; 182; 170]%float);
      ("admit_diagnosis",
       ObjCol [ OStr "UGIBLEED"; OStr "LOWGIBLEED"; OStr "UNKGIBLEED";
                OStr "S-UGIBLEED"; OStr "UNKGIBLEED"; OStr "S-LGIBLEED" ]);
      ("hospital_expiration",
       ObjCol [ OStr "ALIVE"; OStr "EXPIRED"; OStr "ALIVE";
                OStr "ALIVE"; OStr "ALIVE"; OStr "EXPIRED" ]);
      ("sodium_min", FloatCol [128; 134; 140; 140; 140; 140]%float);
      ("sodium_max", FloatCol [150; 152; 141; 141; 141; 141]%float);
      ("potassium_min", FloatCol [-1; nan; 3; 3; 3; 3]%float);
      ("potassium_max", FloatCol [4; 4; 4; 4; nan; 4]%float);
      ("wbc_min", FloatCol [1.5; 5; 5; 5; nan; 5]%float);
      ("wbc_max", FloatCol [14; 14; 14; 14; 9; 14]%float);
      ("bicarbonate_min", FloatCol [22; 18; 22; 22; 20; 22]%float);
      ("bicarbonate_max", FloatCol [26; 24; 26; 26; nan; 26]%float);
      ("glucose_min", FloatCol [90; 85; 90; 90; 70; 90]%float);
      ("glucose_max", FloatCol [-1; 210; 140; 140; 180; 140]%float);
      ("gcs_eyes", FloatCol [4; 3; 4; 4; -1; 4]%float);
      ("gcs_motor", FloatCol [6; 5; 6; 6; 6; 6]%float);
      ("gcs_verbal", FloatCol [5; 4; 5; 5; 5; 5]%float) ].

(** What the notebook computes from it, cell by cell. *)
Definition filtered_cohort : DataFrame :=
  Eval vm_compute in
    match filter_stage float_of_digits joined with
    | Some d => d
    | None => joined
    end.

Definition separated : Separated :=
  Eval vm_compute in
    match pre_split float_of_digits zeros joined with
    | Some s => s
    | None => {| features := joined; label := []; apache_pred := FloatCol [] |}
    end.

End Examples.

(** * Further vocabulary *)

Module Properties.

Import Numpy Pandas Encoding Notebook Spec.

(** ** The sentinel *)

(** No numeric cell of the column compares equal to -1. *)
Definition sentinel_free (s : Series) : bool :=
  match s with
  | FloatCol l => no_sentinel l
  | ObjCol l =>
      forallb (fun o => match o with
                        | OFloat v => negb (PrimFloat.eqb v (-1)%float)
                        | _ => true
                        end) l
  end.

(** Every column of the view has the property, the names in [except] apart. *)
Definition all_except (P : Series -> Prop) (except : list string) (v : view) : Prop :=
  forall n s, v n = Some s -> mem n except = false -> P s.

(** ** The two-sided analytes, by the test that picks the bound *)

(** Sodium and potassium: the columns of the two bounds, the reduced column
    and the two ends of the normal range the deviations are measured from. *)
Definition bidirectional : list (string * string * string * float * float) :=
  [ ("sodium_min", "sodium_max", "sodium", 135, 145);
    ("potassium_min", "potassium_max", "potassium", 3.5, 5) ]%float.

(** The three cell counts: the columns of the two bounds, the reduced column
    and the threshold the minimum is compared with. *)
Definition thresholded : list (string * string * string * float) :=
  [ ("wbc_min", "wbc_max", "wbc", 2);
    ("pmn_min", "pmn_max", "pmn", 45);
    ("lymphs_min", "lymphs_max", "lym", 20) ]%float.

(** A value that stands for "not recorded": NaN, or the sentinel. *)
Definition unrecorded (x : float) : bool :=
  missing x || PrimFloat.eqb x (-1)%float.

(** ** The composite coma score *)

(** The score of a row: the three components after the sentinel pass, added
    from left to right. *)
Definition gcs_rule (eyes motor verbal : float) : float :=
  (normalize eyes + normalize motor + normalize verbal)%float.

(** ** The outcome label *)

(** The label of a stay: 1 for the text EXPIRED, 0 for anything else. *)
Definition expired (o : obj) : Z :=
  match o with
  | OStr t => if String.eqb t "EXPIRED" then 1%Z else 0%Z
  | _ => 0%Z
  end.

(** ** The criteria of the filter cells, read on the joined table *)

(** The cells of a column as Python objects. *)
Definition cells (s : Series) : list obj :=
  match s with
  | FloatCol l => map OFloat l
  | ObjCol l => l
  end.

(** The age cell is not the empty string. *)
Definition nonempty (o : obj) : bool :=
  match o with
  | OStr t => negb (String.eqb t "")
  | _ => true
  end.

(** The age that cell 14 gives a cell: 93 for "> 89", the number the text
    stands for, NaN for [None] and for a text that is no number. *)
Definition age_number (parse : string -> option float) (o : obj) : float :=
  match o with
  | OStr t =>
      if String.eqb t "> 89" then 93%float
      else match parse t with
           | Some x => x
           | None => PrimFloat.nan
           end
  | OFloat x => x
  | ONone => PrimFloat.nan
  end.

(** The rows that meet every criterion: the six tests of cells 14 to 18,
    each computed on the whole joined table, combined row by row. *)
Definition eligible (parse : string -> option float) (df : DataFrame)
  : option (list bool) :=
  age <- col "age" df ;;
  let known := map nonempty (cells age) in
  m_adult <- adult (FloatCol (map (age_number parse) (cells age))) ;;
  unit_los <- col "unit_los" df ;;
  m_los <- long_stay unit_los ;;
  admit_diagnosis <- col "admit_diagnosis" df ;;
  m_adx <- not_surgical admit_diagnosis ;;
  weight <- col "weight" df ;;
  m_weight <- plausible_weight weight ;;
  height <- col "height" df ;;
  m_height <- plausible_height height ;;
  Some (and_mask (and_mask (and_mask (and_mask (and_mask known m_adult) m_los) m_adx)
                    m_weight) m_height).

(** Frame [d] holds the rows of the columns [base] selected by [mask]. *)
Definition selection (base : view) (idx : list Z) (mask : list bool) (d : DataFrame)
  : Prop :=
  length mask = length idx
  /\ index d = Numpy.compress mask idx
  /\ forall n, col n d = (s <- base n ;; take_rows mask s).

(** ** The columns the reducer names *)

(** The bounds it drops, the bounds it reduces, and the reduced columns. *)
Definition reducer_names : list string :=
  lab_drop
  ++ [ "sodium_min"; "sodium_max"; "potassium_min"; "potassium_max";
       "wbc_min"; "wbc_max"; "pmn_min"; "pmn_max"; "lymphs_min"; "lymphs_max" ]
  ++ [ "sodium"; "potassium"; "wbc"; "pmn"; "lym" ].

(** The reduced analytes that reach the feature matrix: the columns of the
    two bounds, the reduced column and its rule. *)
Definition kept_analytes : list (string * string * string * (float -> float -> float)) :=
  [ ("potassium_min", "potassium_max", "potassium", deviation_rule 3.5 5);
    ("wbc_min", "wbc_max", "wbc", threshold_rule 2);
    ("pmn_min", "pmn_max", "pmn", threshold_rule 45) ].

(** ** The header of the feature matrix *)

(** The columns of the joined table that reach the feature matrix, in the
    order of the joined table, followed by the three reduced analytes that
    are kept. *)
Definition feature_names : list string :=
  [ "patientunitstayid"; "age"; "metastatic_cancer"; "immunosuppression";
    "apache_readmit"; "apache_intubday1"; "hr_mean";
    "map_aperiodic_mean"; "rr_mean"; "spo2_mean"; "albumin_min";
    "bicarbonate_min"; "bun_max"; "bilirubin_max"; "creatinine_max";
    "glucose_max"; "hemoglobin_min"; "lactate_max"; "platelet_min";
    "ptt_max"; "inr_max"; "pt_max"; "ast_max"; "alkphos_max"; "abx";
    "vasopressor"; "antiarr"; "blood_product_prbc";
    "blood_product_other"; "potassium"; "wbc"; "pmn" ].

(** The columns among them that no cell computes: they come from the
    joined table. *)
Definition passed_through : list string :=
  filter (fun n => negb (mem n ["potassium"; "wbc"; "pmn"])) feature_names.

(** The names of the indicator columns of a diagnosis column. *)
Definition indicator_names (l : list obj) : list string :=
  map (fun level => ("adx_" ++ level)%string) (tl (levels l)).

(** No name occurs twice. *)
Fixpoint distinct (l : list string) : bool :=
  match l with
  | [] => true
  | n :: l' => negb (mem n l') && distinct l'
  end.

(** ** The join *)

(** The header of the join when the base cohort has no row: the stay
    identifier is then the column of the feature set, after the other
    columns of the base cohort. *)
Definition cohort_columns_without_stays : list string :=
  filter (fun n => negb (String.eqb n "patientunitstayid")) base_cohort_columns
  ++ feature_set_columns.

(** The key column of the frame holds integer identifiers, each below 2^53
    in magnitude. *)
Definition keyed (key : string) (df : DataFrame) : bool :=
  match col key df with
  | Some s =>
      match Merge.keys s with
      | Some _ => true
      | None => false
      end
  | None => false
  end.

(** The first row of a key column that holds [x]. *)
Fixpoint first_index (x : Z) (ks : list Z) : nat :=
  match ks with
  | [] => 0
  | y :: ks' => if Z.eqb x y then 0 else S (first_index x ks')
  end.

(** The order of the rows of a join, a row being given by its left and its
    right row: the row whose key appears first in the left column comes
    first; for one key, the row with the earlier left row; for one left
    row, the row with the earlier right row. *)
Definition row_before (lk : list Z) (p q : nat * nat) : Prop :=
  exists x y,
    nth_error lk (fst p) = Some x /\ nth_error lk (fst q) = Some y
    /\ (first_index x lk < first_index y lk
        \/ (x = y /\ (fst p < fst q \/ (fst p = fst q /\ snd p < snd q)))).

(** What a column taken at valid positions keeps of the column: it has [n]
    cells, the same dtype, and no cell of its own. *)
Definition taken_from (n : nat) (s s' : Series) : Prop :=
  size s' = n /\ same_kind s s' /\ forall o, In o (cells s') -> In o (cells s).

(** The two frames have no column name in common but the key. *)
Definition share_only (key : string) (left right : DataFrame) : bool :=
  forallb (fun n => String.eqb n key || negb (mem n (columns right))) (columns left).

(** ** The query files and the log of cell 3 *)

(** The text holds a carriage return. *)
Fixpoint has_cr (text : string) : bool :=
  match text with
  | EmptyString => false
  | String c rest => Ascii.eqb c "013" || has_cr rest
  end.

(** The line printed for a view that was generated. *)
Definition view_line (query_file : string) : string :=
  ("Generating materialized view using " ++ query_file ++ " ... done."
   ++ Database.newline)%string.

(** The line left unfinished by a view that failed. *)
Definition view_started (query_file : string) : string :=
  ("Generating materialized view using " ++ query_file ++ " ... ")%string.

End Properties.

(** * Further sample data *)

Module Samples.

Import Pandas Notebook Database Merge.

(** The sample cohort after the reducer and after the curation cells. *)
Definition reduced_cohort : DataFrame :=
  Eval vm_compute in
    match abnormal_value_reducer Examples.zeros Examples.filtered_cohort with
    | Some d => d
    | None => Examples.filtered_cohort
    end.

Definition curated_cohort : DataFrame :=
  Eval vm_compute in
    match feature_curator reduced_cohort with
    | Some d => d
    | None => reduced_cohort
    end.

(** Two stays, one with an age that is no number. *)
Definition unreadable_ages : list obj := [OStr "45"; OStr "n/a"].

Definition unreadable : DataFrame :=
  Examples.frame 2 [("age", ObjCol unreadable_ages)].

(** A disk with the three query files, the first one stored with carriage
    return and line feed at the end of its line, the second with a line
    feed; a connection with nothing sent yet; and two servers: one accepts
    every statement, the other rejects the second statement it receives. *)
Definition crlf : string := String "013" (String "010" "").

Definition vitals_file : string := "CREATE MATERIALIZED VIEW v;" ++ crlf.
Definition labs_file : string := "CREATE MATERIALIZED VIEW l;" ++ newline.
Definition treatment_file : string := "CREATE MATERIALIZED VIEW t;".

Definition disk (path : string) : option string :=
  if String.eqb path "./sql/vitalsfirstday.sql" then Some vitals_file
  else if String.eqb path "./sql/labsfirstday.sql" then Some labs_file
  else if String.eqb path "./sql/treatmentfirstday.sql" then Some treatment_file
  else None.

Definition fresh : world :=
  {| files := disk; sent := []; cursors := 0; stdout := "" |}.

Definition accepting (before : list string) (sql : string) : option string := None.

Definition rejecting_second (before : list string) (sql : string) : option string :=
  match before with
  | [_] => Some "relation does not exist"
  | _ => None
  end.

(** A frame with the given header, every column one cell per row: the key
    column holds [keys], age the text 45, the other text columns the text
    UGIBLEED, and the numeric columns the value [fill]. *)
Definition table (header : list string) (keys : list float) (fill : float) : DataFrame :=
  {| index := map Z.of_nat (seq 0 (length keys));
     data := map (fun n => (n, if String.eqb n "patientunitstayid" then FloatCol keys
                               else if String.eqb n "age"
                                    then ObjCol (map (fun _ => OStr "45") keys)
                               else if mem n text_columns
                                    then ObjCol (map (fun _ => OStr "UGIBLEED") keys)
                               else FloatCol (map (fun _ => fill) keys))) header |}.

(** Three stays in the base cohort, three in the feature set, two in both. *)
Definition base_cohort : DataFrame :=
  table base_cohort_columns [141168; 141194; 141203]%float 250%float.

Definition feature_set : DataFrame :=
  table feature_set_columns [141203; 141168; 141227]%float 2%float.

Definition joined_cohort : DataFrame :=
  Eval vm_compute in
    match join_cohort base_cohort feature_set with
    | Some d => d
    | None => base_cohort
    end.

(** A base cohort without a stay. *)
Definition no_stay : DataFrame := table base_cohort_columns [] 250%float.

(** Two small tables, the left one with a key in two rows that are not
    adjacent. *)
Definition visits : DataFrame :=
  {| index := [0; 1; 2]%Z;
     data := [ ("patientunitstayid", FloatCol [2; 1; 2]%float);
               ("a", FloatCol [20; 10; 21]%float) ] |}.

Definition measurements : DataFrame :=
  {| index := [0; 1]%Z;
     data := [ ("patientunitstayid", FloatCol [1; 2]%float);
               ("b", FloatCol [7; 8]%float) ] |}.

End Samples.
(** * Properties *)

(** ** Inversion of the exception monad *)

Lemma bind_Some {A B : Type} (m : option A) (k : A -> option B) (b : B) :
  bind m k = Some b -> exists a, m = Some a /\ k a = Some b.
Proof.
  destruct m as [a|]; simpl; intros H; [exists a; auto | discriminate].
Qed.

Ltac inv_bind H :=
  match type of H with
  | bind ?m _ = Some _ =>
      let x := fresh "x" in
      let E := fresh "E" in
      apply bind_Some in H; destruct H as (x & E & H)
  end.

Ltac inv_binds :=
  repeat match goal with
         | H : bind _ _ = Some _ |- _ => inv_bind H
         end.

Lemma traverse_length {A B : Type} (f : A -> option B) (l : list A) (r : list B) :
  traverse f l = Some r -> length r = length l.
Proof.
  revert r; induction l as [|x l IH]; simpl; intros r H.
  - injection H as <-; reflexivity.
  - inv_bind H. inv_bind H. injection H as <-. simpl. f_equal. auto.
Qed.

(** ** Boolean-mask indexing *)

Module NumpyFacts.

Import Numpy Spec.

Lemma length_empty junk n : length (empty junk n) = n.
Proof. unfold empty. rewrite length_map, length_seq. reflexivity. Qed.

Lemma length_compress {A : Type} (mask : list bool) (a : list A) :
  length mask = length a -> length (compress mask a) = count_true mask.
Proof.
  revert a; induction mask as [|b mask IH]; intros [|x a]; simpl; try discriminate; auto.
  intros H; injection H as H. destruct b; simpl; auto.
Qed.

Lemma compress_all {A : Type} (mask : list bool) (a : list A) :
  length mask = length a -> Forall (fun b => b = true) mask -> compress mask a = a.
Proof.
  revert a; induction mask as [|b mask IH]; intros [|x a]; simpl; try discriminate; auto.
  intros H F; injection H as H. inversion F; subst. f_equal; auto.
Qed.

Lemma compress_Forall {A : Type} (P : A -> Prop) (mask : list bool) (a : list A) :
  Forall P a -> Forall P (compress mask a).
Proof.
  intros F; revert mask; induction F as [|x a Hx F IH]; intros [|b mask]; simpl; auto.
  destruct b; auto.
Qed.

(** What survives a mask satisfies the test the mask was computed from. *)
Lemma compress_map_Forall {A : Type} (p : A -> bool) (a : list A) :
  Forall (fun x => p x = true) (compress (map p a) a).
Proof.
  induction a as [|x a IH]; simpl; auto.
  destruct (p x) eqn:E; auto.
Qed.

Lemma length_choose check lo hi :
  length lo = length check -> length hi = length check ->
  length (choose check lo hi) = length check.
Proof.
  revert lo hi; induction check as [|b check IH]; intros [|x lo] [|y hi]; simpl;
    try discriminate; auto.
Qed.

(** Filling the [True] positions from [lo] and then the [False] positions
    from [hi] leaves nothing of the initial array. *)
Lemma place_twice check lo hi a :
  length lo = length check -> length hi = length check -> length a = length check ->
  place (map negb check) (compress (map negb check) hi)
        (place check (compress check lo) a)
  = choose check lo hi.
Proof.
  revert lo hi a; induction check as [|b check IH]; intros [|x lo] [|y hi] [|z a];
    simpl; try discriminate; auto.
  intros H1 H2 H3. injection H1 as H1. injection H2 as H2. injection H3 as H3.
  destruct b; simpl; f_equal; auto.
Qed.

Lemma length_place mask vals a : length (place mask vals a) = length a.
Proof.
  revert vals a; induction mask as [|b mask IH]; intros vals a.
  - destruct a; reflexivity.
  - destruct b, a, vals; simpl; try rewrite IH; reflexivity.
Qed.

Lemma getitem_mask_Some {A : Type} (a : list A) mask r :
  getitem_mask a mask = Some r -> length mask = length a /\ r = compress mask a.
Proof.
  unfold getitem_mask. destruct (Nat.eqb_spec (length mask) (length a)); [|discriminate].
  intros H; injection H as <-; auto.
Qed.

Lemma getitem_mask_ok {A : Type} (a : list A) mask :
  length mask = length a -> getitem_mask a mask = Some (compress mask a).
Proof. intros H; unfold getitem_mask. rewrite H, Nat.eqb_refl. reflexivity. Qed.

Lemma setitem_mask_Some a mask vals r :
  setitem_mask a mask vals = Some r ->
  length mask = length a /\ length vals = count_true mask /\ r = place mask vals a.
Proof.
  unfold setitem_mask.
  destruct (Nat.eqb_spec (length mask) (length a)); [|discriminate].
  destruct (Nat.eqb_spec (length vals) (count_true mask)); [|discriminate].
  intros H; injection H as <-; auto.
Qed.

Lemma setitem_mask_ok a mask vals :
  length mask = length a -> length vals = count_true mask ->
  setitem_mask a mask vals = Some (place mask vals a).
Proof. intros H1 H2; unfold setitem_mask. rewrite H1, H2, !Nat.eqb_refl. reflexivity. Qed.

End NumpyFacts.

(** ** Columns of a frame through [drop], [assign], [replace] and row selection *)

Module PandasFacts.

Import Numpy NumpyFacts Pandas Spec.

Lemma lookup_drop labels cols n :
  lookup n (filter (fun c => negb (mem (fst c) labels)) cols)
  = if mem n labels then None else lookup n cols.
Proof.
  induction cols as [|[m s] cols IH]; simpl.
  - destruct (mem n labels); reflexivity.
  - destruct (mem m labels) eqn:Em; simpl.
    + rewrite IH. destruct (String.eqb_spec n m) as [->|]; [rewrite Em|]; reflexivity.
    + rewrite IH. destruct (String.eqb_spec n m) as [->|]; [rewrite Em|]; reflexivity.
Qed.

Lemma lookup_set_column name s cols n :
  lookup n (set_column name s cols)
  = if String.eqb n name then Some s else lookup n cols.
Proof.
  induction cols as [|[m s0] cols IH]; simpl.
  - destruct (String.eqb n name); reflexivity.
  - destruct (String.eqb_spec name m) as [->|Hne]; simpl.
    + destruct (String.eqb n m); reflexivity.
    + rewrite IH. destruct (String.eqb_spec n m) as [->|]; [|reflexivity].
      destruct (String.eqb_spec m name) as [->|]; [contradiction|reflexivity].
Qed.

Lemma drop_Some labels df df' :
  drop labels df = Some df' ->
  index df' = index df /\ forall n, col n df' = after_drop labels (fun m => col m df) n.
Proof.
  unfold drop. destruct (forallb _ labels); [|discriminate].
  intros H; injection H as <-. split; [reflexivity|].
  intros n. unfold col, after_drop; simpl. apply lookup_drop.
Qed.

Lemma assign_Some name s df df' :
  assign name s df = Some df' ->
  size s = length (index df) /\ index df' = index df
  /\ forall n, col n df' = after_assign name s (fun m => col m df) n.
Proof.
  unfold assign. destruct (Nat.eqb_spec (size s) (length (index df))); [|discriminate].
  intros H; injection H as <-. repeat split; auto.
  intros n. unfold col, after_assign; simpl. apply lookup_set_column.
Qed.

Lemma col_replace old new df n :
  col n (replace old new df) = option_map (replace_series old new) (col n df).
Proof.
  unfold col, replace; simpl.
  induction (data df) as [|[m s] cols IH]; simpl; [reflexivity|].
  destruct (String.eqb n m); auto.
Qed.

Lemma col_concat a b n :
  col n (concat_columns a b)
  = match col n a with Some s => Some s | None => lookup n b end.
Proof.
  unfold col, concat_columns; simpl.
  induction (data a) as [|[m s] cols IH]; simpl; [reflexivity|].
  destruct (String.eqb n m); auto.
Qed.

Lemma mem_columns n df :
  mem n (columns df) = match col n df with Some _ => true | None => false end.
Proof.
  unfold columns, col.
  induction (data df) as [|[m s] cols IH]; simpl; [reflexivity|].
  destruct (String.eqb n m); auto.
Qed.

(** Row selection acts on every column with the same mask. *)
Lemma loc_rows_Some mask df df' :
  loc_rows mask df = Some df' ->
  length mask = length (index df)
  /\ index df' = compress mask (index df)
  /\ forall n, col n df' = (s <- col n df ;; take_rows mask s).
Proof.
  unfold loc_rows. intros H. inv_bind H. inv_bind H. injection H as <-.
  apply getitem_mask_Some in E as [Hl ->]. repeat split; auto.
  intros n. unfold col; simpl. clear Hl.
  revert x0 E0. induction (data df) as [|[m s] cols IH]; simpl; intros r H.
  - injection H as <-. reflexivity.
  - inv_bind H. inv_bind H. inv_bind E. injection E as <-. injection H as <-.
    simpl. destruct (String.eqb n m); auto.
Qed.

Lemma take_rows_Some mask s s' :
  take_rows mask s = Some s' ->
  length mask = size s /\
  match s with
  | FloatCol l => s' = FloatCol (compress mask l)
  | ObjCol l => s' = ObjCol (compress mask l)
  end.
Proof.
  destruct s as [l|l]; simpl; unfold getitem_mask;
    destruct (Nat.eqb_spec (length mask) (length l)); simpl; try discriminate;
    intros H; injection H as <-; auto.
Qed.

Lemma values_length s l : values s = Some l -> length l = size s.
Proof.
  destruct s as [l0|l0]; simpl.
  - intros H; injection H as <-; reflexivity.
  - apply traverse_length.
Qed.

End PandasFacts.

(** ** The abnormal-value reducer *)

Module ReducerFacts.

Import Numpy NumpyFacts Pandas PandasFacts Notebook Spec.

Lemma length_map2 {A B C : Type} (f : A -> B -> C) a b :
  length a = length b -> length (map2 f a b) = length a.
Proof.
  revert b; induction a as [|x a IH]; intros [|y b]; simpl; try discriminate; auto.
Qed.

Lemma nth_error_map2 {A B C : Type} (f : A -> B -> C) a b i x y :
  nth_error a i = Some x -> nth_error b i = Some y ->
  nth_error (map2 f a b) i = Some (f x y).
Proof.
  revert b i; induction a as [|u a IH]; intros [|v b] [|i]; simpl; try discriminate; auto.
  intros H1 H2; injection H1 as ->; injection H2 as ->; reflexivity.
Qed.

Lemma most_abnormal_Some junk check x_min x_max n s :
  most_abnormal junk check x_min x_max n = Some s ->
  exists lo hi,
    values x_min = Some lo /\ values x_max = Some hi
    /\ length lo = n /\ length hi = n /\ length check = n
    /\ s = FloatCol (choose check lo hi).
Proof.
  unfold most_abnormal, getitem, invert. intros H. inv_binds.
  injection H as <-.
  repeat match goal with
         | H : getitem_mask _ _ = Some _ |- _ =>
             apply getitem_mask_Some in H; destruct H as [? ->]
         | H : setitem_mask _ _ _ = Some _ |- _ =>
             apply setitem_mask_Some in H; destruct H as (? & ? & ->)
         end.
  rewrite ?length_empty, ?length_map, ?length_place in *.
  do 2 eexists. repeat split; try eassumption; try congruence.
  f_equal. apply place_twice; try congruence.
Qed.

Lemma most_abnormal_ok junk check x_min x_max n lo hi :
  values x_min = Some lo -> values x_max = Some hi ->
  length lo = n -> length hi = n -> length check = n ->
  most_abnormal junk check x_min x_max n = Some (FloatCol (choose check lo hi)).
Proof.
  intros V1 V2 L1 L2 L3. unfold most_abnormal, getitem, invert.
  rewrite V1, V2; simpl.
  rewrite (getitem_mask_ok lo check) by congruence; simpl.
  rewrite setitem_mask_ok; simpl.
  - rewrite (getitem_mask_ok hi (map negb check)) by (rewrite length_map; congruence); simpl.
    rewrite setitem_mask_ok; simpl.
    + rewrite place_twice; auto; try congruence. rewrite length_empty; congruence.
    + rewrite length_map, length_place, length_empty. congruence.
    + apply length_compress. rewrite length_map; congruence.
  - rewrite length_empty; congruence.
  - apply length_compress; congruence.
Qed.

Ltac open_frames :=
  repeat match goal with
         | H : drop _ _ = Some _ |- _ =>
             apply drop_Some in H; destruct H as [? ?]
         | H : assign _ _ _ = Some _ |- _ =>
             apply assign_Some in H; destruct H as (? & ? & ?)
         end.

Ltac eval_names :=
  cbv [after_drop after_assign after_concat after_replace mem existsb
       String.eqb Ascii.eqb Bool.eqb orb lab_drop].

Ltac eval_names_in H :=
  cbv [after_drop after_assign after_concat after_replace mem existsb
       String.eqb Ascii.eqb Bool.eqb orb lab_drop] in H.

Lemma reducer_Some junk df out :
  abnormal_value_reducer junk df = Some out ->
  exists na_lo na_hi k_lo k_hi w_lo w_hi p_lo p_hi l_lo l_hi,
    numeric "sodium_min" df na_lo /\ numeric "sodium_max" df na_hi
    /\ numeric "potassium_min" df k_lo /\ numeric "potassium_max" df k_hi
    /\ numeric "wbc_min" df w_lo /\ numeric "wbc_max" df w_hi
    /\ numeric "pmn_min" df p_lo /\ numeric "pmn_max" df p_hi
    /\ numeric "lymphs_min" df l_lo /\ numeric "lymphs_max" df l_hi
    /\ index out = index df
    /\ forall n, col n out
         = reduced_view (fun m => col m df)
             na_lo na_hi k_lo k_hi w_lo w_hi p_lo p_hi l_lo l_hi n.
Proof.
  unfold abnormal_value_reducer. intros H. inv_binds.
  open_frames.
  repeat match goal with
         | H : most_abnormal _ _ _ _ _ = Some _ |- _ =>
             apply most_abnormal_Some in H; destruct H as (? & ? & ? & ? & ? & ? & ? & ->)
         end.
  repeat match goal with
         | E : col _ ?d = Some _, Hd : forall n, col n ?d = _ |- _ =>
             rewrite Hd in E; eval_names_in E
         end.
  unfold abs_dev, lt in *. inv_binds.
  repeat match goal with
         | H : Some _ = Some _ |- _ => injection H as H; subst
         | H : ge_series _ _ = Some _ |- _ =>
             unfold ge_series in H;
             match type of H with
             | (if ?c then _ else _) = _ => destruct c; [|discriminate H]
             end
         | H1 : ?a = Some ?x, H2 : ?a = Some ?y |- _ =>
             rewrite H1 in H2; injection H2 as H2; subst y
         end.
  assert (Hidx : index out = index df) by congruence.
  do 10 eexists.
  repeat match goal with
         | |- numeric _ _ _ /\ _ =>
             split; [eexists; split; [eassumption | split; [eassumption | congruence]] |]
         end.
  split; [exact Hidx|].
  intros n. unfold reduced_view, threshold_check, deviation_check.
  unfold after_drop, after_assign in *.
  repeat match goal with
         | Hd : forall n, col n ?d = _ |- context [col ?m ?d] => rewrite (Hd m)
         end.
  reflexivity.
Qed.

Lemma numericb_numeric name df :
  numericb name df = true -> exists l, numeric name df l.
Proof.
  unfold numericb, numeric. destruct (col name df) as [s|]; [|discriminate].
  destruct (values s) as [l|] eqn:V; [|discriminate].
  intros H. apply Nat.eqb_eq in H. exists l, s. repeat split; auto.
Qed.

Lemma drop_ok labels df :
  forallb (fun l => has l df) labels = true -> exists df', drop labels df = Some df'.
Proof.
  intros H. unfold drop.
  replace (forallb (fun l => mem l (columns df)) labels) with true; [eauto|].
  rewrite <- H. clear H. induction labels as [|l labels IH]; simpl; [reflexivity|].
  unfold has at 1. rewrite mem_columns, IH. reflexivity.
Qed.

Lemma assign_ok name s df :
  size s = length (index df) -> exists df', assign name s df = Some df'.
Proof. intros H. unfold assign. rewrite H, Nat.eqb_refl. eauto. Qed.

Lemma abs_dev_ok s x l :
  values s = Some l ->
  abs_dev s x = Some (map (fun v => PrimFloat.abs (PrimFloat.sub v x)) l).
Proof. intros H; unfold abs_dev; rewrite H; reflexivity. Qed.

Lemma ge_series_ok a b :
  length a = length b ->
  ge_series a b = Some (map2 (fun x y => PrimFloat.leb y x) a b).
Proof. intros H; unfold ge_series; rewrite H, Nat.eqb_refl; reflexivity. Qed.

Lemma deviation_ok lower upper lo hi :
  length lo = length hi ->
  ge_series (map (fun v => PrimFloat.abs (PrimFloat.sub v lower)) lo)
            (map (fun v => PrimFloat.abs (PrimFloat.sub v upper)) hi)
  = Some (deviation_check lower upper lo hi).
Proof. intros H. apply ge_series_ok. rewrite !length_map. exact H. Qed.

Lemma lt_ok s x l : values s = Some l -> lt s x = Some (threshold_check x l).
Proof. intros H; unfold lt; rewrite H; reflexivity. Qed.

Lemma length_deviation_check lower upper lo hi :
  length lo = length hi -> length (deviation_check lower upper lo hi) = length lo.
Proof.
  intros H. unfold deviation_check. rewrite length_map2; rewrite !length_map; auto.
Qed.

Lemma length_threshold_check t lo : length (threshold_check t lo) = length lo.
Proof. apply length_map. Qed.

Ltac known_cols :=
  repeat match goal with
         | H : col ?n ?d = Some _ |- context [col ?n ?d] => rewrite H
         end.

Ltac chase :=
  repeat (match goal with
          | Hd : forall n, col n ?d = _ |- context [col ?m ?d] => rewrite (Hd m)
          end; eval_names).

Ltac lengths :=
  cbn [size];
  rewrite ?length_choose, ?length_deviation_check, ?length_threshold_check;
  rewrite ?length_deviation_check, ?length_threshold_check;
  congruence.

Ltac has_all := cbn [forallb]; unfold has; chase; known_cols; reflexivity.

Ltac step :=
  lazymatch goal with
  | |- exists out, bind (col _ _) _ = Some out => chase; known_cols; cbn [bind]
  | |- exists out, bind (abs_dev _ _) _ = Some out =>
      erewrite abs_dev_ok by eassumption; cbn [bind]
  | |- exists out, bind (lt _ _) _ = Some out =>
      erewrite lt_ok by eassumption; cbn [bind]
  | |- exists out, bind (ge_series _ _) _ = Some out =>
      rewrite deviation_ok by congruence; cbn [bind]
  | |- exists out, bind (most_abnormal _ _ _ _ _) _ = Some out =>
      erewrite most_abnormal_ok; [cbn [bind] | eassumption | eassumption | lengths ..]
  | |- exists out, bind (assign ?n ?s ?d) _ = Some out =>
      let d' := fresh "d" in
      let D := fresh "D" in
      destruct (assign_ok n s d) as [d' D];
      [ lengths
      | rewrite D; cbn [bind]; apply assign_Some in D; destruct D as (_ & ? & ?) ]
  | |- exists out, bind (drop ?L ?d) _ = Some out =>
      let d' := fresh "d" in
      let D := fresh "D" in
      destruct (drop_ok L d) as [d' D];
      [ has_all
      | rewrite D; cbn [bind]; apply drop_Some in D; destruct D as [? ?] ]
  | |- exists out, drop ?L ?d = Some out => apply drop_ok; has_all
  end.

Lemma reducer_total junk df :
  reducer_ready df = true -> exists out, abnormal_value_reducer junk df = Some out.
Proof.
  unfold reducer_ready. intros H. apply andb_prop in H. destruct H as [Hd Hn].
  cbn [forallb] in Hn.
  repeat match goal with
         | H : (_ && _) = true |- _ => apply andb_prop in H; destruct H as [? ?]
         | H : numericb _ _ = true |- _ =>
             apply numericb_numeric in H; destruct H as (? & ? & ? & ? & ?)
         | H : true = true |- _ => clear H
         end.
  unfold abnormal_value_reducer.
  destruct (drop_ok _ _ Hd) as [d1 D1]. rewrite D1; cbn [bind].
  apply drop_Some in D1. destruct D1 as [? ?].
  repeat step.
Qed.

End ReducerFacts.

(** ** NaN in comparisons and arithmetic *)

Module FloatFacts.

Import Spec.

Lemma SFcompare_refl (f : spec_float) : f <> S754_nan -> SFcompare f f = Some Eq.
Proof.
  destruct f as [s|s| |s m e]; simpl; try congruence; intros _.
  - destruct s; reflexivity.
  - destruct s; rewrite Z.compare_refl, Pos.compare_cont_refl; reflexivity.
Qed.

Lemma missing_spec (x : float) : missing x = true <-> Prim2SF x = S754_nan.
Proof.
  unfold missing, is_nan. rewrite FloatAxioms.eqb_spec. unfold SFeqb. split.
  - intros H. destruct (Prim2SF x) eqn:E; try reflexivity;
      rewrite SFcompare_refl in H by discriminate; discriminate.
  - intros ->. reflexivity.
Qed.

Lemma sub_missing (m a : float) : missing m = true -> missing (m - a)%float = true.
Proof.
  rewrite !missing_spec. intros H. rewrite sub_spec, H. reflexivity.
Qed.

Lemma abs_missing (m : float) : missing m = true -> missing (abs m) = true.
Proof.
  rewrite !missing_spec. intros H. rewrite abs_spec, H. reflexivity.
Qed.

Lemma leb_missing_r (x m : float) : missing m = true -> (x <=? m)%float = false.
Proof.
  rewrite missing_spec. intros H. rewrite leb_spec, H. unfold SFleb.
  destruct (Prim2SF x); reflexivity.
Qed.

Lemma leb_missing_l (m x : float) : missing m = true -> (m <=? x)%float = false.
Proof.
  rewrite missing_spec. intros H. rewrite leb_spec, H. reflexivity.
Qed.

Lemma ltb_missing_l (m x : float) : missing m = true -> (m <? x)%float = false.
Proof.
  rewrite missing_spec. intros H. rewrite ltb_spec, H. reflexivity.
Qed.

Lemma eqb_missing_l (m x : float) : missing m = true -> (m =? x)%float = false.
Proof.
  rewrite missing_spec. intros H. rewrite FloatAxioms.eqb_spec, H. reflexivity.
Qed.

(** A missing minimum never satisfies either test, so both rules return the
    maximum; a missing maximum never lets the deviation test succeed. *)
Lemma deviation_rule_missing_min lower upper m M :
  missing m = true -> deviation_rule lower upper m M = M.
Proof.
  intros H. unfold deviation_rule.
  rewrite leb_missing_r; [reflexivity|]. apply abs_missing, sub_missing, H.
Qed.

Lemma deviation_rule_missing_max lower upper m M :
  missing M = true -> deviation_rule lower upper m M = M.
Proof.
  intros H. unfold deviation_rule.
  rewrite leb_missing_l; [reflexivity|]. apply abs_missing, sub_missing, H.
Qed.

Lemma threshold_rule_missing_min t m M :
  missing m = true -> threshold_rule t m M = M.
Proof. intros H. unfold threshold_rule. rewrite ltb_missing_l by exact H. reflexivity. Qed.

Lemma deviation_rule_cases lower upper m M :
  deviation_rule lower upper m M = m \/ deviation_rule lower upper m M = M.
Proof. unfold deviation_rule. destruct (_ <=? _)%float; auto. Qed.

Lemma threshold_rule_cases t m M :
  threshold_rule t m M = m \/ threshold_rule t m M = M.
Proof. unfold threshold_rule. destruct (_ <? _)%float; auto. Qed.

(** A test that succeeds has compared numbers, not NaN. *)
Lemma ltb_true_present (m t : float) : (m <? t)%float = true -> missing m = false.
Proof.
  intros H. destruct (missing m) eqn:E; [|reflexivity].
  rewrite (ltb_missing_l m t E) in H. discriminate H.
Qed.

(** The reduced value of a bidirectional analyte is missing exactly when the
    maximum is. *)
Lemma deviation_rule_missing lower upper m M :
  missing (deviation_rule lower upper m M) = missing M.
Proof.
  destruct (missing M) eqn:EM.
  - rewrite (deviation_rule_missing_max lower upper m M EM). exact EM.
  - destruct (missing m) eqn:Em.
    + rewrite (deviation_rule_missing_min lower upper m M Em). exact EM.
    + destruct (deviation_rule_cases lower upper m M) as [-> | ->]; assumption.
Qed.

(** The reduced value of a thresholded analyte is missing exactly when the
    maximum is missing and the minimum is not below the threshold. *)
Lemma threshold_rule_missing t m M :
  missing (threshold_rule t m M) = missing M && negb (m <? t)%float.
Proof.
  unfold threshold_rule. destruct (m <? t)%float eqn:E; simpl.
  - rewrite (ltb_true_present m t E), andb_false_r. reflexivity.
  - rewrite andb_true_r. reflexivity.
Qed.

End FloatFacts.

(** ** The rules of the reducer and the sentinel pass *)

Module RuleFacts.

Import Numpy NumpyFacts Pandas PandasFacts Notebook Spec ReducerFacts.

Lemma choose_deviation lower upper lo hi :
  choose (deviation_check lower upper lo hi) lo hi
  = map2 (deviation_rule lower upper) lo hi.
Proof.
  unfold deviation_check.
  revert hi; induction lo as [|m lo IH]; intros [|M hi]; simpl; try reflexivity.
  rewrite IH. reflexivity.
Qed.

Lemma choose_threshold t lo hi :
  length lo = length hi ->
  choose (threshold_check t lo) lo hi = map2 (threshold_rule t) lo hi.
Proof.
  unfold threshold_check.
  revert hi; induction lo as [|m lo IH]; intros [|M hi]; simpl; try discriminate; auto.
  intros H; injection H as H. rewrite IH by exact H. reflexivity.
Qed.

Lemma numeric_length name df l : numeric name df l -> length l = length (index df).
Proof. intros (s & _ & _ & H). exact H. Qed.

Lemma numeric_unique name df l l' : numeric name df l -> numeric name df l' -> l = l'.
Proof. intros (s & C & V & _) (s' & C' & V' & _). congruence. Qed.

End RuleFacts.

Module SentinelFacts.

Import Numpy NumpyFacts Pandas PandasFacts Notebook Spec ReducerFacts RuleFacts FloatFacts.

Lemma reducer_rules junk df out :
  abnormal_value_reducer junk df = Some out ->
  forall x_min x_max x rule,
    In (x_min, x_max, x, rule) two_sided ->
    exists lo hi,
      numeric x_min df lo /\ numeric x_max df hi
      /\ col x out = Some (FloatCol (map2 rule lo hi)).
Proof.
  intros Hout.
  destruct (reducer_Some junk df out Hout)
    as (na_lo & na_hi & k_lo & k_hi & w_lo & w_hi & p_lo & p_hi & l_lo & l_hi
        & N1 & N2 & N3 & N4 & N5 & N6 & N7 & N8 & N9 & N10 & _ & Hv).
  intros x_min x_max x rule Hin. simpl in Hin.
  repeat (destruct Hin as [Hin|Hin]; [injection Hin as <- <- <- <-|]);
    try contradiction.
  - exists na_lo, na_hi. rewrite Hv, <- choose_deviation. auto.
  - exists k_lo, k_hi. rewrite Hv, <- choose_deviation. auto.
  - exists w_lo, w_hi. rewrite Hv, <- choose_threshold; auto.
    rewrite (numeric_length _ _ _ N5), (numeric_length _ _ _ N6). reflexivity.
  - exists p_lo, p_hi. rewrite Hv, <- choose_threshold; auto.
    rewrite (numeric_length _ _ _ N7), (numeric_length _ _ _ N8). reflexivity.
  - exists l_lo, l_hi. rewrite Hv, <- choose_threshold; auto.
    rewrite (numeric_length _ _ _ N9), (numeric_length _ _ _ N10). reflexivity.
Qed.

(** Every rule returns one of the two bounds, and the maximum when the
    minimum is missing. *)
Lemma two_sided_rule x_min x_max x rule :
  In (x_min, x_max, x, rule) two_sided ->
  forall m M, (rule m M = m \/ rule m M = M) /\ (missing m = true -> rule m M = M).
Proof.
  intros Hin m M. simpl in Hin.
  repeat (destruct Hin as [Hin|Hin]; [injection Hin as <- <- <- <-|]);
    try contradiction;
    (split;
     [ first [apply deviation_rule_cases | apply threshold_rule_cases]
     | first [apply deviation_rule_missing_min | apply threshold_rule_missing_min] ]).
Qed.

(** The sentinel pass on numeric content. *)
Lemma values_replace old new s :
  values (replace_series old new s) = option_map (map (replace_cell old new)) (values s).
Proof.
  destruct s as [l|l]; simpl; [reflexivity|].
  induction l as [|o l IH]; simpl; [reflexivity|].
  destruct o as [t|v|]; simpl; try reflexivity.
  rewrite IH. destruct (traverse float_of_obj l); reflexivity.
Qed.

Lemma numeric_replace old new name df l :
  numeric name df l ->
  numeric name (replace old new df) (map (replace_cell old new) l).
Proof.
  intros (s & C & V & L). exists (replace_series old new s).
  rewrite col_replace, C, values_replace, V, length_map. auto.
Qed.

Lemma has_replace old new name df : has name (replace old new df) = has name df.
Proof. unfold has. rewrite col_replace. destruct (col name df); reflexivity. Qed.

Lemma numericb_replace old new name df :
  numericb name (replace old new df) = numericb name df.
Proof.
  unfold numericb. rewrite col_replace. destruct (col name df) as [s|]; simpl; auto.
  rewrite values_replace. destruct (values s); simpl; auto.
  rewrite length_map. reflexivity.
Qed.

Lemma forallb_pointwise {A : Type} (f g : A -> bool) (l : list A) :
  (forall x, f x = g x) -> forallb f l = forallb g l.
Proof. intros H. induction l as [|x l IH]; simpl; [|rewrite H, IH]; reflexivity. Qed.

Lemma reducer_ready_replace old new df :
  reducer_ready (replace old new df) = reducer_ready df.
Proof.
  unfold reducer_ready. f_equal.
  - apply forallb_pointwise. intros n. apply has_replace.
  - simpl. rewrite !numericb_replace. reflexivity.
Qed.

Lemma normalize_no_sentinel l : no_sentinel l = true -> map normalize l = l.
Proof.
  induction l as [|v l IH]; simpl; [reflexivity|].
  intros H. apply andb_prop in H. destruct H as [Hv Hl].
  rewrite IH by exact Hl. unfold normalize, replace_cell.
  destruct (v =? -1)%float; [discriminate|reflexivity].
Qed.

Lemma no_sentinel_map2 (rule : float -> float -> float) lo hi :
  (forall m M, rule m M = m \/ rule m M = M) ->
  no_sentinel lo = true -> no_sentinel hi = true ->
  no_sentinel (map2 rule lo hi) = true.
Proof.
  intros Hr. revert hi; induction lo as [|m lo IH]; intros [|M hi]; simpl; auto.
  intros H1 H2. apply andb_prop in H1. apply andb_prop in H2.
  destruct H1 as [Hm Hlo], H2 as [HM Hhi].
  rewrite IH by assumption. destruct (Hr m M) as [-> | ->]; rewrite ?Hm, ?HM; reflexivity.
Qed.

End SentinelFacts.

(** ** Row selection and the filter cells *)

Module FilterFacts.

Import Numpy NumpyFacts Pandas PandasFacts Encoding Notebook Spec ReducerFacts.

Lemma compress_map {A B : Type} (f : A -> B) mask (l : list A) :
  compress mask (map f l) = map f (compress mask l).
Proof.
  revert l; induction mask as [|b mask IH]; intros [|x l]; simpl; auto.
  destruct b; simpl; rewrite IH; reflexivity.
Qed.

Lemma compress_map2 {A B C : Type} (f : A -> B -> C) mask (a : list A) (b : list B) :
  compress mask (map2 f a b) = map2 f (compress mask a) (compress mask b).
Proof.
  revert a b; induction mask as [|c mask IH]; intros [|x a] [|y b]; simpl; auto.
  - destruct c; simpl; [|destruct (compress mask a)]; reflexivity.
  - destruct c; simpl; rewrite IH; reflexivity.
Qed.

Lemma compress_self_Forall (m : list bool) : Forall (fun b => b = true) (compress m m).
Proof. induction m as [|[] m IH]; simpl; auto. Qed.

Lemma traverse_compress {A B : Type} (f : A -> option B) mask l r :
  traverse f l = Some r -> traverse f (compress mask l) = Some (compress mask r).
Proof.
  revert l r; induction mask as [|b mask IH]; intros [|x l] r H; simpl in *.
  - injection H as <-. reflexivity.
  - reflexivity.
  - injection H as <-. reflexivity.
  - inv_bind H. inv_bind H. injection H as <-.
    destruct b; simpl; [rewrite E|]; rewrite (IH _ _ E0); reflexivity.
Qed.

Lemma values_take_rows mask s s' l :
  take_rows mask s = Some s' -> values s = Some l ->
  values s' = Some (compress mask l).
Proof.
  intros T V. apply take_rows_Some in T. destruct T as [_ T].
  destruct s as [l0|l0]; subst s'; simpl in *.
  - congruence.
  - apply traverse_compress. exact V.
Qed.

Lemma isin_take_rows mask s s' ts :
  take_rows mask s = Some s' -> isin s' ts = compress mask (isin s ts).
Proof.
  intros T. apply take_rows_Some in T. destruct T as [_ T].
  destruct s as [l|l]; subst s'; simpl; rewrite compress_map; reflexivity.
Qed.

Lemma stable_ge x : stable (fun s => ge s x).
Proof.
  intros mask s s' m T H. unfold ge in *. inv_bind H. injection H as <-.
  rewrite (values_take_rows _ _ _ _ T E). simpl. rewrite compress_map. reflexivity.
Qed.

Lemma stable_le x : stable (fun s => le s x).
Proof.
  intros mask s s' m T H. unfold le in *. inv_bind H. injection H as <-.
  rewrite (values_take_rows _ _ _ _ T E). simpl. rewrite compress_map. reflexivity.
Qed.

Lemma stable_adult : stable adult.
Proof. apply stable_ge. Qed.

Lemma stable_long_stay : stable long_stay.
Proof. apply stable_ge. Qed.

Lemma stable_not_surgical : stable not_surgical.
Proof.
  intros mask s s' m T H. unfold not_surgical, invert in *. injection H as <-.
  rewrite (isin_take_rows _ _ _ _ T), compress_map. reflexivity.
Qed.

Lemma stable_plausible_weight : stable plausible_weight.
Proof.
  intros mask s s' m T H. unfold plausible_weight, and_mask in *.
  inv_bind H. inv_bind H. injection H as <-.
  rewrite (stable_ge _ _ _ _ _ T E), (stable_le _ _ _ _ _ T E0). simpl.
  rewrite compress_map2. reflexivity.
Qed.

Lemma stable_plausible_height : stable plausible_height.
Proof.
  intros mask s s' m T H. unfold plausible_height, and_mask in *.
  inv_bind H. inv_bind H. injection H as <-.
  rewrite (stable_le _ _ _ _ _ T E), (stable_ge _ _ _ _ _ T E0). simpl.
  rewrite compress_map2. reflexivity.
Qed.

Lemma loc_rows_col mask df df' n s :
  loc_rows mask df = Some df' -> col n df = Some s ->
  exists s', take_rows mask s = Some s' /\ col n df' = Some s'.
Proof.
  unfold loc_rows. intros H. inv_bind H. inv_bind H. injection H as <-.
  unfold col; simpl. clear E.
  revert x0 E0. induction (data df) as [|[m s0] cols IH]; simpl; intros r H C.
  - discriminate.
  - inv_bind H. inv_bind H. inv_bind E. injection E as <-. injection H as <-.
    simpl. destruct (String.eqb n m).
    + injection C as <-. eauto.
    + eauto.
Qed.

Lemma loc_rows_rectangular mask df df' :
  loc_rows mask df = Some df' -> rectangular df'.
Proof.
  unfold loc_rows, rectangular. intros H. inv_bind H. inv_bind H. injection H as <-.
  simpl. apply getitem_mask_Some in E. destruct E as [L ->].
  rewrite (length_compress _ _ L). clear L.
  revert x0 E0. induction (data df) as [|[m s0] cols IH]; simpl; intros r H.
  - injection H as <-. constructor.
  - inv_bind H. inv_bind H. inv_bind E. injection E as <-. injection H as <-.
    constructor; auto. simpl.
    apply take_rows_Some in E1. destruct E1 as [L T].
    destruct s0 as [l|l]; subst x1; simpl in *; apply length_compress; exact L.
Qed.

(** Selecting the rows that pass a test establishes it, and selecting rows
    afterwards keeps it. *)
Lemma satisfied_new t name d d' s m :
  stable t -> col name d = Some s -> t s = Some m -> loc_rows m d = Some d' ->
  satisfied t name d'.
Proof.
  intros St C H L. destruct (loc_rows_col _ _ _ _ _ L C) as (s' & T & C').
  exists s', (compress m m). repeat split; auto.
  - apply (St _ _ _ _ T H).
  - apply compress_self_Forall.
Qed.

Lemma satisfied_keep t name mask d d' :
  stable t -> satisfied t name d -> loc_rows mask d = Some d' -> satisfied t name d'.
Proof.
  intros St (s & m & C & H & F) L.
  destruct (loc_rows_col _ _ _ _ _ L C) as (s' & T & C').
  exists s', (compress mask m). repeat split; auto.
  - apply (St _ _ _ _ T H).
  - apply compress_Forall. exact F.
Qed.

Lemma float_keep mask d d' a :
  col "age" d = Some (FloatCol a) -> loc_rows mask d = Some d' ->
  exists a', col "age" d' = Some (FloatCol a').
Proof.
  intros C L. destruct (loc_rows_col _ _ _ _ _ L C) as (s' & T & C').
  apply take_rows_Some in T. destruct T as [_ ->]. eauto.
Qed.

Lemma astype_float64_float parse s s' :
  astype_float64 parse s = Some s' -> exists l, s' = FloatCol l.
Proof.
  destruct s as [l|l]; simpl.
  - intros H; injection H as <-; eauto.
  - destruct (traverse _ l); simpl; intros H; [injection H as <-; eauto|discriminate].
Qed.

Tactic Notation "open_bind" hyp(H) "as" ident(x) ident(E) :=
  apply bind_Some in H; destruct H as (x & E & H).

(** The frames and masks of one run of the filter cells. *)
Ltac open_filter_stage H :=
  unfold filter_stage in H;
  open_bind H as age0 Hage0; open_bind H as d1 Hd1;
  open_bind H as age1 Hage1; open_bind H as d2 Hd2;
  open_bind H as age2 Hage2; open_bind H as age3 Hage3; open_bind H as d3 Hd3;
  open_bind H as age4 Hage4; open_bind H as m_adult Hadult; open_bind H as d4 Hd4;
  open_bind H as los Hlos; open_bind H as m_los Hmlos; open_bind H as d5 Hd5;
  open_bind H as adx Hadx; open_bind H as d6 Hd6;
  open_bind H as weight Hweight; open_bind H as w_lo Hwlo; open_bind H as w_hi Hwhi;
  open_bind H as d7 Hd7;
  open_bind H as height Hheight; open_bind H as h_hi Hhhi; open_bind H as h_lo Hhlo.

Lemma filter_stage_filtered parse df out :
  filter_stage parse df = Some out -> filtered out.
Proof.
  intros H. open_filter_stage H.
  (* age is a float column from the cast on *)
  destruct (astype_float64_float _ _ _ Hage3) as [a3 ->].
  apply assign_Some in Hd3. destruct Hd3 as (_ & _ & V3).
  rewrite V3 in Hage4. cbv [after_assign String.eqb Ascii.eqb Bool.eqb] in Hage4.
  injection Hage4 as <-.
  assert (A3 : col "age" d3 = Some (FloatCol a3)) by (rewrite V3; reflexivity).
  pose proof (satisfied_new adult _ _ _ _ _ stable_adult A3 Hadult Hd4) as S4.
  destruct (float_keep _ _ _ _ A3 Hd4) as [a4 A4].
  pose proof (satisfied_keep _ _ _ _ _ stable_adult S4 Hd5) as S5.
  destruct (float_keep _ _ _ _ A4 Hd5) as [a5 A5].
  pose proof (satisfied_new long_stay _ _ _ _ _ stable_long_stay Hlos Hmlos Hd5) as L5.
  pose proof (satisfied_keep _ _ _ _ _ stable_adult S5 Hd6) as S6.
  destruct (float_keep _ _ _ _ A5 Hd6) as [a6 A6].
  pose proof (satisfied_keep _ _ _ _ _ stable_long_stay L5 Hd6) as L6.
  pose proof (satisfied_new not_surgical _ _ _ _ _ stable_not_surgical Hadx eq_refl Hd6)
    as N6.
  pose proof (satisfied_keep _ _ _ _ _ stable_adult S6 Hd7) as S7.
  destruct (float_keep _ _ _ _ A6 Hd7) as [a7 A7].
  pose proof (satisfied_keep _ _ _ _ _ stable_long_stay L6 Hd7) as L7.
  pose proof (satisfied_keep _ _ _ _ _ stable_not_surgical N6 Hd7) as N7.
  assert (W : plausible_weight weight = Some (and_mask w_lo w_hi))
    by (unfold plausible_weight; rewrite Hwlo, Hwhi; reflexivity).
  pose proof (satisfied_new plausible_weight _ _ _ _ _ stable_plausible_weight
                Hweight W Hd7) as W7.
  assert (Hh : plausible_height height = Some (and_mask h_hi h_lo))
    by (unfold plausible_height; rewrite Hhhi, Hhlo; reflexivity).
  repeat split.
  - apply (loc_rows_rectangular _ _ _ H).
  - apply (float_keep _ _ _ _ A7 H).
  - apply (satisfied_keep _ _ _ _ _ stable_adult S7 H).
  - apply (satisfied_keep _ _ _ _ _ stable_long_stay L7 H).
  - apply (satisfied_keep _ _ _ _ _ stable_not_surgical N7 H).
  - apply (satisfied_keep _ _ _ _ _ stable_plausible_weight W7 H).
  - apply (satisfied_new plausible_height _ _ _ _ _ stable_plausible_height
             Hheight Hh H).
Qed.

Lemma lookup_In n cols s : lookup n cols = Some s -> In (n, s) cols.
Proof.
  induction cols as [|[m s0] cols IH]; simpl; [discriminate|].
  destruct (String.eqb_spec n m) as [->|].
  - intros H; injection H as <-; auto.
  - auto.
Qed.

Lemma rectangular_col df n s :
  rectangular df -> col n df = Some s -> size s = length (index df).
Proof.
  intros R C. apply lookup_In in C. unfold rectangular in R.
  rewrite Forall_forall in R. apply (R _ C).
Qed.

Lemma set_column_same n s cols : lookup n cols = Some s -> set_column n s cols = cols.
Proof.
  induction cols as [|[m s0] cols IH]; simpl; [discriminate|].
  destruct (String.eqb_spec n m) as [->|].
  - intros H; injection H as <-; reflexivity.
  - intros H. rewrite IH by exact H. reflexivity.
Qed.

Lemma assign_same n s df :
  rectangular df -> col n df = Some s -> assign n s df = Some df.
Proof.
  intros R C. unfold assign. rewrite (rectangular_col _ _ _ R C), Nat.eqb_refl.
  unfold col in C. rewrite (set_column_same _ _ _ C). destruct df; reflexivity.
Qed.

Lemma take_rows_all mask s :
  length mask = size s -> Forall (fun b => b = true) mask -> take_rows mask s = Some s.
Proof.
  intros L F. destruct s as [l|l]; simpl in *;
    rewrite (getitem_mask_ok _ _ L); simpl; rewrite (compress_all _ _ L F); reflexivity.
Qed.

Lemma loc_rows_all mask df :
  rectangular df -> length mask = length (index df) ->
  Forall (fun b => b = true) mask -> loc_rows mask df = Some df.
Proof.
  intros R L F. unfold loc_rows.
  rewrite (getitem_mask_ok _ _ L); simpl. rewrite (compress_all _ _ L F).
  assert (T : traverse (fun c => s <- take_rows mask (snd c) ;; Some (fst c, s)) (data df)
              = Some (data df)).
  { unfold rectangular in R. induction R as [|[n s] cols Hs R IH]; simpl; [reflexivity|].
    simpl in Hs. rewrite take_rows_all by (auto; congruence). simpl.
    rewrite IH. reflexivity. }
  rewrite T. simpl. destruct df; reflexivity.
Qed.

Lemma ge_length s x m : ge s x = Some m -> length m = size s.
Proof.
  unfold ge. intros H. inv_bind H. injection H as <-.
  rewrite length_map. apply values_length. exact E.
Qed.

Lemma le_length s x m : le s x = Some m -> length m = size s.
Proof.
  unfold le. intros H. inv_bind H. injection H as <-.
  rewrite length_map. apply values_length. exact E.
Qed.

Lemma isin_length s ts : length (isin s ts) = size s.
Proof. destruct s; simpl; apply length_map. Qed.

Lemma putmask_none x a :
  putmask (map (fun _ : float => false) a) x (FloatCol a) = FloatCol a.
Proof. simpl. f_equal. induction a as [|v a IH]; simpl; [|rewrite IH]; reflexivity. Qed.

Lemma Forall_true_negb_false {A : Type} (a : list A) :
  Forall (fun b => b = true) (map negb (map (fun _ : A => false) a)).
Proof. induction a; simpl; auto. Qed.

Lemma filtered_fixpoint parse df : filtered df -> filter_stage parse df = Some df.
Proof.
  intros (R & [a A] & Sa & Sl & Sn & Sw & Sh). unfold filter_stage.
  pose proof (rectangular_col _ _ _ R A) as La. simpl in La.
  (* the age cells *)
  rewrite A; cbn [bind]. unfold loc_setitem. rewrite A; cbn [bind].
  cbn [eq_str size]. rewrite length_map, Nat.eqb_refl, putmask_none.
  rewrite (assign_same _ _ _ R A); cbn [bind].
  rewrite A; cbn [bind]. unfold ne_str; cbn [eq_str].
  rewrite loc_rows_all;
    [cbn [bind] | exact R | rewrite !length_map; exact La | apply Forall_true_negb_false].
  rewrite A; cbn [bind astype_float64].
  rewrite (assign_same _ _ _ R A); cbn [bind].
  destruct Sa as (s & m & C & T & F). rewrite C; cbn [bind].
  unfold adult in T. rewrite T; cbn [bind].
  rewrite loc_rows_all;
    [cbn [bind] | exact R
    | rewrite (ge_length _ _ _ T); apply (rectangular_col _ _ _ R C) | exact F].
  (* length of stay *)
  clear s m C T F. destruct Sl as (s & m & C & T & F). rewrite C; cbn [bind].
  unfold long_stay in T. rewrite T; cbn [bind].
  rewrite loc_rows_all;
    [cbn [bind] | exact R
    | rewrite (ge_length _ _ _ T); apply (rectangular_col _ _ _ R C) | exact F].
  (* surgical bleeds *)
  clear s m C T F. destruct Sn as (s & m & C & T & F). rewrite C; cbn [bind].
  unfold not_surgical in T. injection T as <-.
  rewrite loc_rows_all;
    [cbn [bind] | exact R
    | unfold invert; rewrite length_map, isin_length; apply (rectangular_col _ _ _ R C)
    | exact F].
  (* weight *)
  clear s C F. destruct Sw as (s & m & C & T & F). rewrite C; cbn [bind].
  unfold plausible_weight in T. open_bind T as w_lo Hlo. open_bind T as w_hi Hhi.
  injection T as <-. rewrite Hlo, Hhi; cbn [bind].
  rewrite loc_rows_all;
    [cbn [bind] | exact R
    | unfold and_mask; rewrite length_map2;
      [ rewrite (ge_length _ _ _ Hlo); apply (rectangular_col _ _ _ R C)
      | rewrite (ge_length _ _ _ Hlo), (le_length _ _ _ Hhi); reflexivity ]
    | exact F].
  (* height *)
  clear s C F w_lo w_hi Hlo Hhi. destruct Sh as (s & m & C & T & F).
  rewrite C; cbn [bind].
  unfold plausible_height in T. open_bind T as h_hi Hhi. open_bind T as h_lo Hlo.
  injection T as <-. rewrite Hhi, Hlo; cbn [bind].
  apply loc_rows_all;
    [ exact R
    | unfold and_mask; rewrite length_map2;
      [ rewrite (le_length _ _ _ Hhi); apply (rectangular_col _ _ _ R C)
      | rewrite (ge_length _ _ _ Hlo), (le_length _ _ _ Hhi); reflexivity ]
    | exact F].
Qed.

End FilterFacts.

(** ** The curation cells and the whole notebook *)

Module CuratorFacts.

Import Numpy NumpyFacts Pandas PandasFacts Encoding Notebook Spec ReducerFacts FilterFacts.

Lemma add_series_float a b s : add_series a b = Some s -> is_float s.
Proof.
  unfold add_series. intros H. inv_binds.
  destruct (Datatypes.length x =? Datatypes.length x0); [|discriminate].
  injection H as <-. eexists; reflexivity.
Qed.

Lemma curated_Some cohort curated sep :
  feature_curator cohort = Some curated -> separate_label curated = Some sep ->
  exists adx adx_dummies gcs,
    col "admit_diagnosis" cohort = Some adx
    /\ get_dummies_drop_first (replace_series (-1)%float nan adx) "adx" = Some adx_dummies
    /\ is_float gcs
    /\ index (features sep) = index cohort
    /\ forall n, col n (features sep)
         = curated_view (fun m => col m cohort) adx_dummies gcs n.
Proof.
  unfold feature_curator, relabel_and_prune, drop_features, encode_admit_diagnosis,
    combine_gcs, separate_label.
  intros H S. inv_binds. injection S as <-. cbn [features].
  open_frames.
  repeat match goal with
         | E : col _ ?d = Some _, Hd : forall n, col n ?d = _ |- _ =>
             rewrite Hd in E; eval_names_in E
         end.
  match goal with
  | E : col "admit_diagnosis" (replace _ _ _) = Some _ |- _ =>
      rewrite col_replace in E;
      destruct (col "admit_diagnosis" cohort) as [adx|] eqn:A; [|discriminate E];
      injection E as <-
  end.
  match goal with
  | E : add_series _ _ = Some ?g, H : forall n, col n _ = after_assign "gcs" ?g _ n |- _ =>
      pose proof (add_series_float _ _ _ E) as G
  end.
  do 3 eexists. split; [reflexivity|]. split; [eassumption|]. split; [exact G|].
  split; [simpl in *; congruence|].
  intros n. unfold curated_view, after_drop, after_assign, after_concat, after_replace in *.
  repeat match goal with
         | Hd : forall n, col n ?d = _ |- context [col ?m ?d] => rewrite (Hd m)
         end.
  rewrite col_concat.
  repeat match goal with
         | Hd : forall n, col n ?d = _ |- context [col ?m ?d] => rewrite (Hd m)
         end.
  rewrite col_replace. reflexivity.
Qed.

Lemma loc_setitem_Some mask name x df df' :
  loc_setitem mask name x df = Some df' ->
  exists s, col name df = Some s
    /\ forall n, col n df' = after_assign name (putmask mask x s) (fun m => col m df) n.
Proof.
  unfold loc_setitem. intros H. inv_bind H.
  destruct (Datatypes.length mask =? size x0); [|discriminate].
  apply assign_Some in H. destruct H as (_ & _ & V). eauto.
Qed.

Lemma take_rows_kind mask s s' : take_rows mask s = Some s' -> same_kind s s'.
Proof.
  intros T. apply take_rows_Some in T. destruct T as [_ T].
  destruct s; subst s'; exact I.
Qed.

Lemma select_kind masks s s' : select masks s = Some s' -> same_kind s s'.
Proof.
  revert s; induction masks as [|m masks IH]; simpl; intros s H.
  - injection H as <-. destruct s; exact I.
  - inv_bind H. apply take_rows_kind in E. apply IH in H.
    destruct s, x, s'; simpl in *; auto.
Qed.

(** Every column but age leaves the filter cells as a selection of its rows,
    the same selection for every column. *)
Lemma filter_stage_select parse df out :
  filter_stage parse df = Some out ->
  exists masks,
    forall n, n <> "age" ->
      col n out = (s <- col n df ;; select masks s)
      /\ (has n df = true -> has n out = true).
Proof.
  intros H. open_filter_stage H.
  apply loc_setitem_Some in Hd1. destruct Hd1 as (s1 & _ & V1).
  apply assign_Some in Hd3. destruct Hd3 as (_ & _ & V3).
  exists [ ne_str age1 ""; m_adult; m_los;
           invert (isin adx ["S-UGIBLEED"; "S-LGIBLEED"]);
           and_mask w_lo w_hi; and_mask h_hi h_lo ].
  intros n Hn. apply String.eqb_neq in Hn. split.
  - apply loc_rows_Some in Hd2, Hd4, Hd5, Hd6, Hd7, H.
    destruct Hd2 as (_ & _ & V2), Hd4 as (_ & _ & V4), Hd5 as (_ & _ & V5),
      Hd6 as (_ & _ & V6), Hd7 as (_ & _ & V7), H as (_ & _ & V8).
    rewrite V8, V7, V6, V5, V4, V3. unfold after_assign.
    rewrite Hn, V2, V1. unfold after_assign. rewrite Hn.
    destruct (col n df) as [s|]; simpl; [|reflexivity].
    repeat match goal with
           | |- context [take_rows ?m ?c] => destruct (take_rows m c); simpl; auto
           end.
  - unfold has. destruct (col n df) as [s|] eqn:C0; [intros _|discriminate].
    assert (C1 : col n d1 = Some s)
      by (rewrite V1; unfold after_assign; rewrite Hn; exact C0).
    destruct (loc_rows_col _ _ _ _ _ Hd2 C1) as (s2 & _ & C2).
    assert (C3 : col n d3 = Some s2)
      by (rewrite V3; unfold after_assign; rewrite Hn; exact C2).
    destruct (loc_rows_col _ _ _ _ _ Hd4 C3) as (s4 & _ & C4).
    destruct (loc_rows_col _ _ _ _ _ Hd5 C4) as (s5 & _ & C5).
    destruct (loc_rows_col _ _ _ _ _ Hd6 C5) as (s6 & _ & C6).
    destruct (loc_rows_col _ _ _ _ _ Hd7 C6) as (s7 & _ & C7).
    destruct (loc_rows_col _ _ _ _ _ H C7) as (s8 & _ & C8).
    rewrite C8. reflexivity.
Qed.

Lemma pre_split_Some parse junk df sep :
  pre_split parse junk df = Some sep ->
  exists filtered_cohort reduced curated,
    filter_stage parse df = Some filtered_cohort
    /\ abnormal_value_reducer junk filtered_cohort = Some reduced
    /\ feature_curator reduced = Some curated
    /\ separate_label curated = Some sep.
Proof.
  unfold pre_split. intros H. inv_binds. eauto 8.
Qed.

Lemma get_dummies_Some s prefix dummies :
  get_dummies_drop_first s prefix = Some dummies ->
  exists l, s = ObjCol l /\ forallb is_text l = true
    /\ dummies = map (dummy_column prefix l) (tl (levels l)).
Proof.
  destruct s as [l|l]; simpl; [discriminate|].
  destruct (forallb is_text l) eqn:T; [|discriminate].
  intros H; injection H as <-. eauto.
Qed.

Lemma lookup_dummies prefix l lv n s :
  lookup n (map (dummy_column prefix l) lv) = Some s ->
  exists level, In level lv /\ n = (prefix ++ "_" ++ level)%string
    /\ s = FloatCol (map (indicator level) l).
Proof.
  induction lv as [|v lv IH]; simpl; [discriminate|].
  destruct (String.eqb_spec n (prefix ++ String "_" v)) as [->|].
  - intros H; injection H as <-. eauto.
  - intros H. destruct (IH H) as (level & Hin & Hn & Hs). eauto.
Qed.

Lemma drop_requires labels df df' l :
  drop labels df = Some df' -> In l labels -> has l df = true.
Proof.
  unfold drop. destruct (forallb _ labels) eqn:F; [|discriminate]. intros _ Hin.
  rewrite forallb_forall in F. specialize (F l Hin). rewrite mem_columns in F. exact F.
Qed.

Lemma curator_stages cohort curated :
  feature_curator cohort = Some curated ->
  exists pruned selected encoded,
    relabel_and_prune cohort = Some pruned
    /\ drop_features pruned = Some selected
    /\ encode_admit_diagnosis selected = Some encoded
    /\ combine_gcs encoded = Some curated.
Proof. unfold feature_curator. intros H. inv_binds. eauto 8. Qed.

(** The indicator columns are all named [adx_...]. *)
Lemma lookup_adx_dummies s dummies n :
  get_dummies_drop_first s "adx" = Some dummies ->
  named_adx n = false -> lookup n dummies = None.
Proof.
  intros D P. destruct (get_dummies_Some _ _ _ D) as (l & _ & _ & ->).
  destruct (lookup n _) eqn:L; [|reflexivity].
  apply lookup_dummies in L. destruct L as (level & _ & -> & _).
  discriminate P.
Qed.

(** Numeric columns through the column operations. *)
Lemma mem_app n a b : mem n (a ++ b) = mem n a || mem n b.
Proof. unfold mem. apply existsb_app. Qed.

Lemma numeric_after_drop labels except v :
  numeric_except (labels ++ except) v -> numeric_except except (after_drop labels v).
Proof.
  intros K n s H E. unfold after_drop in H.
  destruct (mem n labels) eqn:M; [discriminate|].
  apply (K n s H). rewrite mem_app, M, E. reflexivity.
Qed.

Lemma numeric_after_assign name s0 except v :
  is_float s0 -> numeric_except except v -> numeric_except except (after_assign name s0 v).
Proof.
  intros F K n s H E. unfold after_assign in H.
  destruct (String.eqb n name); [injection H as <-; exact F|]. apply (K n s H E).
Qed.

Lemma numeric_after_concat b except v :
  (forall n s, lookup n b = Some s -> is_float s) ->
  numeric_except except v -> numeric_except except (after_concat b v).
Proof.
  intros B K n s H E. unfold after_concat in H.
  destruct (v n) as [s0|] eqn:V.
  - injection H as <-. apply (K n s0 V E).
  - apply (B n s H).
Qed.

Lemma replace_series_float old new s : is_float s -> is_float (replace_series old new s).
Proof. intros [l ->]. simpl. eexists; reflexivity. Qed.

Lemma numeric_after_replace old new except v :
  numeric_except except v -> numeric_except except (after_replace old new v).
Proof.
  intros K n s H E. unfold after_replace in H.
  destruct (v n) as [s0|] eqn:V; [|discriminate]. injection H as <-.
  apply replace_series_float. apply (K n s0 V E).
Qed.

Lemma numeric_ext except (v v' : view) :
  (forall n, v n = v' n) -> numeric_except except v' -> numeric_except except v.
Proof. intros X K n s H E. rewrite X in H. apply (K n s H E). Qed.

Lemma same_kind_float s s' : same_kind s s' -> is_float s -> is_float s'.
Proof. intros K [l ->]. destruct s'; [eexists; reflexivity|contradiction]. Qed.

Lemma dummies_float s prefix dummies n c :
  get_dummies_drop_first s prefix = Some dummies -> lookup n dummies = Some c -> is_float c.
Proof.
  intros D L. destruct (get_dummies_Some _ _ _ D) as (l & _ & _ & ->).
  apply lookup_dummies in L. destruct L as (level & _ & _ & ->). eexists; reflexivity.
Qed.


Lemma typed_as_queried_col df n s :
  typed_as_queried df = true -> col n df = Some s -> mem n text_columns = false ->
  is_float s.
Proof.
  unfold typed_as_queried. intros T C M. apply lookup_In in C.
  rewrite forallb_forall in T. specialize (T _ C). cbn [fst snd] in T. rewrite M in T.
  destruct s as [l|l]; [eexists; reflexivity|discriminate T].
Qed.

End CuratorFacts.

(** ** Categories and indicator columns *)

Module EncodingFacts.

Import Numpy NumpyFacts Pandas PandasFacts Encoding Notebook Spec ReducerFacts FilterFacts
  CuratorFacts.

(** The order on strings. *)
Lemma ascii_compare_refl a : Ascii.compare a a = Eq.
Proof. apply N.compare_refl. Qed.

Lemma ascii_compare_lt_trans a b c :
  Ascii.compare a b = Lt -> Ascii.compare b c = Lt -> Ascii.compare a c = Lt.
Proof.
  unfold Ascii.compare. rewrite !N.compare_lt_iff. apply N.lt_trans.
Qed.

Lemma string_compare_refl s : String.compare s s = Eq.
Proof. induction s as [|a s IH]; simpl; [|rewrite ascii_compare_refl]; auto. Qed.

Lemma string_compare_lt_trans s t u :
  String.compare s t = Lt -> String.compare t u = Lt -> String.compare s u = Lt.
Proof.
  revert t u; induction s as [|a s IH]; intros [|b t] [|c u]; simpl;
    try discriminate; auto.
  destruct (Ascii.compare a b) eqn:E1; try discriminate;
    destruct (Ascii.compare b c) eqn:E2; try discriminate; intros H1 H2.
  - apply Ascii.compare_eq_iff in E1, E2. subst. rewrite ascii_compare_refl. eauto.
  - apply Ascii.compare_eq_iff in E1. subst. rewrite E2. reflexivity.
  - apply Ascii.compare_eq_iff in E2. subst. rewrite E1. reflexivity.
  - rewrite (ascii_compare_lt_trans _ _ _ E1 E2). reflexivity.
Qed.

Lemma ltb_lt s t : String.ltb s t = true <-> String.compare s t = Lt.
Proof. unfold String.ltb. destruct (String.compare s t); split; congruence. Qed.

Lemma ltb_trans s t u :
  String.ltb s t = true -> String.ltb t u = true -> String.ltb s u = true.
Proof. rewrite !ltb_lt. apply string_compare_lt_trans. Qed.

Lemma ltb_irrefl s : String.ltb s s = false.
Proof. unfold String.ltb. rewrite string_compare_refl. reflexivity. Qed.

Lemma ltb_total s t : s <> t -> String.ltb s t = false -> String.ltb t s = true.
Proof.
  unfold String.ltb. rewrite (String.compare_antisym t s).
  destruct (String.compare s t) eqn:E; simpl; try congruence.
  intros N _. apply String.compare_eq_iff in E. contradiction.
Qed.

(** The categories of a column. *)
Lemma In_insert_level x s l : In x (insert_level s l) <-> x = s \/ In x l.
Proof.
  induction l as [|t l IH]; simpl.
  - intuition.
  - destruct (String.eqb_spec s t) as [->|]; [simpl; intuition|].
    destruct (String.ltb s t); simpl; [intuition|].
    rewrite IH. intuition.
Qed.

Lemma ascending_insert_level s l : ascending l -> ascending (insert_level s l).
Proof.
  unfold ascending. induction 1 as [|t l S IH F]; simpl.
  - repeat constructor.
  - destruct (String.eqb_spec s t) as [->|N]; [constructor; assumption|].
    destruct (String.ltb s t) eqn:L.
    + constructor; [constructor; assumption|]. constructor; [exact L|].
      rewrite Forall_forall in *. intros x Hx. apply (ltb_trans _ _ _ L (F x Hx)).
    + constructor; [exact IH|].
      rewrite Forall_forall in *. intros x Hx. apply In_insert_level in Hx.
      destruct Hx as [->|Hx]; [apply (ltb_total _ _ N L)|apply (F x Hx)].
Qed.

Lemma ascending_levels l : ascending (levels l).
Proof.
  induction l as [|[s|x|] l IH]; simpl; auto.
  - constructor.
  - apply ascending_insert_level. exact IH.
Qed.

Lemma In_levels c l : In c (levels l) <-> In (OStr c) l.
Proof.
  induction l as [|[s|x|] l IH]; simpl.
  - tauto.
  - rewrite In_insert_level, IH. split; intros [H|H]; auto; [subst; auto|].
    injection H as ->. auto.
  - rewrite IH. split; [auto|]. intros [H|H]; [discriminate|exact H].
  - rewrite IH. split; [auto|]. intros [H|H]; [discriminate|exact H].
Qed.

Lemma ascending_NoDup l : ascending l -> NoDup l.
Proof.
  unfold ascending. induction 1 as [|t l S IH F]; constructor; auto.
  intros Hin. rewrite Forall_forall in F. specialize (F t Hin).
  rewrite ltb_irrefl in F. discriminate.
Qed.

Lemma NoDup_tl {A : Type} (l : list A) : NoDup l -> NoDup (tl l).
Proof. destruct 1; simpl; [constructor|assumption]. Qed.

(** The indicators of one row. *)
Lemma cell_dummy prefix l level i o :
  nth_error l i = Some o -> cell (dummy_column prefix l level) i = indicator level o.
Proof.
  intros H. unfold cell, dummy_column; simpl.
  rewrite (nth_error_nth (map (indicator level) l) i 0%float
             (map_nth_error (indicator level) i l H)). reflexivity.
Qed.

Lemma row_sum_dummies prefix l lv i o :
  nth_error l i = Some o -> NoDup lv ->
  row_sum (map (dummy_column prefix l) lv) i
  = match o with
    | OStr c => if mem c lv then 1%float else 0%float
    | _ => 0%float
    end.
Proof.
  intros H N. unfold row_sum. induction N as [|v lv Hv N IH]; simpl.
  - destruct o; reflexivity.
  - rewrite (cell_dummy _ _ _ _ _ H), IH. clear IH.
    destruct o as [c| |]; simpl; try reflexivity.
    destruct (String.eqb_spec c v) as [->|Hc].
    + replace (mem v lv) with false; [reflexivity|].
      symmetry. apply not_true_is_false. intros M. apply Hv.
      unfold mem in M. apply existsb_exists in M. destruct M as (x & Hx & E).
      apply String.eqb_eq in E. subst. exact Hx.
    + destruct (mem c lv); reflexivity.
Qed.

Lemma compress_In {A : Type} mask (l : list A) x : In x (compress mask l) -> In x l.
Proof.
  revert l; induction mask as [|b mask IH]; intros [|y l]; simpl;
    try contradiction.
  destruct b; simpl; intuition.
Qed.

Lemma select_ObjCol masks l s :
  select masks (ObjCol l) = Some s ->
  exists l', s = ObjCol l' /\ forall o, In o l' -> In o l.
Proof.
  revert l; induction masks as [|m masks IH]; intros l H; cbn [select] in H.
  - injection H as <-. eauto.
  - inv_bind H. apply take_rows_Some in E. destruct E as [_ ->].
    destruct (IH _ H) as (l' & -> & Hin). exists l'. split; [reflexivity|].
    intros o Ho. apply (compress_In m). auto.
Qed.

Lemma replace_series_text old new l :
  Forall (fun o => exists c, o = OStr c) l ->
  replace_series old new (ObjCol l) = ObjCol l.
Proof.
  intros F. simpl. f_equal. induction F as [|o l [c ->] F IH]; simpl; [|rewrite IH];
    reflexivity.
Qed.

(** After the filter cells no cell of the diagnosis column is a surgical
    bleed. *)
Lemma not_surgical_cells df l :
  satisfied not_surgical "admit_diagnosis" df ->
  col "admit_diagnosis" df = Some (ObjCol l) ->
  forall c, In (OStr c) l -> mem c ["S-UGIBLEED"; "S-LGIBLEED"] = false.
Proof.
  intros (s & m & C & T & F) C' c Hin. rewrite C' in C. injection C as <-.
  unfold not_surgical, invert in T. injection T as <-. simpl in F.
  rewrite map_map, Forall_map, Forall_forall in F. specialize (F _ Hin). simpl in F.
  apply negb_true_iff in F. exact F.
Qed.

Lemma named_adx_true n : named_adx n = true -> exists rest, n = ("adx_" ++ rest)%string.
Proof.
  unfold named_adx. intros H.
  destruct n as [|a n]; [discriminate H|].
  destruct a as [[] [] [] [] [] [] [] []]; try discriminate H.
  destruct n as [|b n]; [discriminate H|].
  destruct b as [[] [] [] [] [] [] [] []]; try discriminate H.
  destruct n as [|c n]; [discriminate H|].
  destruct c as [[] [] [] [] [] [] [] []]; try discriminate H.
  destruct n as [|d n]; [discriminate H|].
  destruct d as [[] [] [] [] [] [] [] []]; try discriminate H.
  exists n. reflexivity.
Qed.


End EncodingFacts.

(** ** The notebook runs to the split on every well-formed joined table *)

Module TotalityFacts.

Import Numpy NumpyFacts Pandas PandasFacts Encoding Notebook Spec ReducerFacts FilterFacts
  CuratorFacts SentinelFacts EncodingFacts.

Lemma add_series_ok a b x y :
  values a = Some x -> values b = Some y -> length x = length y ->
  add_series a b = Some (FloatCol (map2 PrimFloat.add x y)).
Proof.
  intros A B L. unfold add_series. rewrite A, B; cbn [bind]. rewrite L, Nat.eqb_refl.
  reflexivity.
Qed.

Lemma replace_series_is_text old new l :
  forallb is_text l = true ->
  replace_series old new (ObjCol l) = ObjCol l.
Proof.
  intros T. simpl. f_equal. induction l as [|o l IH]; simpl in *; [reflexivity|].
  apply andb_prop in T. destruct T as [To Tl]. rewrite (IH Tl).
  destruct o; try reflexivity. discriminate To.
Qed.

Lemma bind_assoc {A B C : Type} (m : option A) (f : A -> option B) (g : B -> option C) :
  bind (bind m f) g = bind m (fun x => bind (f x) g).
Proof. destruct m; reflexivity. Qed.

Lemma get_dummies_ok l prefix :
  forallb is_text l = true ->
  get_dummies_drop_first (ObjCol l) prefix
  = Some (map (dummy_column prefix l) (tl (levels l))).
Proof. intros T. simpl. rewrite T. reflexivity. Qed.

Ltac chase' :=
  repeat (first
            [ match goal with
              | Hd : forall n, col n ?d = _ |- context [col ?m ?d] => rewrite (Hd m)
              end
            | rewrite col_replace
            | rewrite col_concat ];
          eval_names).

Ltac has_all' := cbn [forallb]; unfold has; chase'; known_cols; reflexivity.

Ltac step' :=
  rewrite ?bind_assoc;
  lazymatch goal with
  | |- exists out, bind (col _ _) _ = Some out =>
      chase'; known_cols; cbn [bind option_map]
  | |- exists out, bind (drop ?L ?d) _ = Some out =>
      let d' := fresh "d" in
      let D := fresh "D" in
      destruct (drop_ok L d) as [d' D];
      [ has_all'
      | rewrite D; cbn [bind]; apply drop_Some in D; destruct D as [? ?] ]
  | |- exists out, bind (assign ?n ?s ?d) _ = Some out =>
      let d' := fresh "d" in
      let D := fresh "D" in
      destruct (assign_ok n s d) as [d' D];
      [ | rewrite D; cbn [bind]; apply assign_Some in D; destruct D as (_ & ? & ?) ]
  end.

Lemma curator_total cohort :
  curation_ready cohort = true ->
  exists curated sep,
    feature_curator cohort = Some curated /\ separate_label curated = Some sep.
Proof.
  unfold curation_ready. intros H.
  apply andb_prop in H. destruct H as [H Ht].
  apply andb_prop in H. destruct H as [Hh Hn].
  cbn [forallb] in Hh, Hn.
  repeat match goal with
         | H : (_ && _) = true |- _ => apply andb_prop in H; destruct H as [? ?]
         | H : numericb _ _ = true |- _ =>
             apply numericb_numeric in H; destruct H as (? & ? & ? & ? & ?)
         | H : true = true |- _ => clear H
         | H : has ?n ?d = true |- _ =>
             unfold has in H; destruct (col n d) eqn:?; [clear H|discriminate H]
         end.
  unfold textb in Ht.
  destruct (col "admit_diagnosis" cohort) as [[|adx]|] eqn:A; try discriminate Ht.
  cut (exists sep, (c <- feature_curator cohort ;; separate_label c) = Some sep).
  { intros [sep S]. apply bind_Some in S. destruct S as (c & S1 & S2). eauto. }
  unfold feature_curator, relabel_and_prune, drop_features, encode_admit_diagnosis,
    combine_gcs, separate_label.
  do 7 step'.
  rewrite !bind_assoc.
  rewrite (replace_series_is_text _ _ _ Ht), (get_dummies_ok _ _ Ht); cbn [bind].
  repeat step'.
  rewrite !bind_assoc.
  repeat match goal with
         | V : values ?s = Some ?l |- context [add_series (replace_series ?o ?w ?s) _] =>
             erewrite (add_series_ok (replace_series o w s));
             [ cbn [bind]
             | rewrite values_replace, V; reflexivity
             | rewrite values_replace; match goal with
                                       | V' : values _ = Some _ |- _ =>
                                           rewrite V'; reflexivity
                                       end
             | rewrite !length_map; congruence ]
         end.
  rewrite !bind_assoc.
  match goal with
  | V : values ?s = Some ?l |- context [add_series (FloatCol ?a) (replace_series ?o ?w ?s)] =>
      rewrite (add_series_ok (FloatCol a) (replace_series o w s) a
                 (map (replace_cell o w) l));
      [ cbn [bind]
      | reflexivity
      | rewrite values_replace, V; reflexivity
      | rewrite length_map2; rewrite !length_map; congruence ]
  end.
  step'.
  { cbn [size]. rewrite !length_map2; rewrite ?length_map2, ?length_map;
      rewrite ?length_map; cbn [concat_columns replace index] in *; congruence. }
  repeat step'.
  eexists. reflexivity.
Qed.

Lemma rectangularb_spec df : rectangularb df = true <-> rectangular df.
Proof.
  unfold rectangularb, rectangular. rewrite forallb_forall, Forall_forall.
  split; intros H c Hc; specialize (H c Hc); apply Nat.eqb_eq; exact H.
Qed.

Lemma set_column_rectangular n s cols k :
  size s = k -> Forall (fun c => size (snd c) = k) cols ->
  Forall (fun c => size (snd c) = k) (set_column n s cols).
Proof.
  intros Hs F. induction F as [|[m s0] cols H0 F IH]; simpl.
  - constructor; auto.
  - destruct (String.eqb n m); constructor; auto.
Qed.

Lemma assign_rectangular n s df df' :
  rectangular df -> assign n s df = Some df' -> rectangular df'.
Proof.
  unfold assign, rectangular. intros R H.
  destruct (Nat.eqb_spec (size s) (length (index df))) as [E|]; [|discriminate].
  injection H as <-. simpl. apply set_column_rectangular; auto.
Qed.

Lemma loc_rows_ok mask df :
  rectangular df -> length mask = length (index df) ->
  exists df', loc_rows mask df = Some df'.
Proof.
  intros R L. unfold loc_rows. rewrite (getitem_mask_ok _ _ L); cbn [bind].
  assert (T : exists cols,
             traverse (fun c => s <- take_rows mask (snd c) ;; Some (fst c, s)) (data df)
             = Some cols).
  { unfold rectangular in R. induction R as [|[n s] cols Hs R IH]; simpl; [eauto|].
    simpl in Hs. destruct IH as [cols' ->].
    destruct s as [l|l]; simpl in *;
      rewrite getitem_mask_ok by congruence; simpl; eauto. }
  destruct T as [cols ->]. cbn [bind]. eauto.
Qed.

Lemma eq_str_length s t : length (eq_str s t) = size s.
Proof. destruct s; simpl; apply length_map. Qed.

Lemma size_putmask mask x s : length mask = size s -> size (putmask mask x s) = size s.
Proof.
  destruct s as [l|l]; simpl; intros H; rewrite length_map2 by exact H; exact H.
Qed.

Lemma astype_float64_ok parse s :
  match s with
  | FloatCol _ => True
  | ObjCol l => Forall (convertible parse) l
  end ->
  exists v, astype_float64 parse s = Some (FloatCol v) /\ length v = size s.
Proof.
  destruct s as [l|l]; simpl; [eauto|]. intros F.
  assert (T : exists v, traverse (fun o => match o with
                                       | OStr t => parse t
                                       | OFloat x => Some x
                                       | ONone => Some nan
                                       end) l = Some v /\ length v = length l).
  { induction F as [|o l Ho F IH]; simpl; [eauto|].
    destruct IH as (v & -> & L).
    destruct o as [t|x|]; simpl in *.
    - destruct (parse t); [|contradiction]. simpl. eexists; split; [reflexivity|].
      simpl; congruence.
    - eexists; split; [reflexivity|]. simpl; congruence.
    - eexists; split; [reflexivity|]. simpl; congruence. }
  destruct T as (v & -> & L). simpl. eauto.
Qed.

(** The age cells left after the substitution of "> 89" and the removal of
    the empty strings can all be cast. *)
Lemma age_cells_convertible parse l :
  forallb (parses parse) l = true ->
  let l' := map2 (fun (b : bool) o => if b then OFloat 93 else o)
                 (eq_str (ObjCol l) "> 89") l in
  Forall (convertible parse) (compress (ne_str (ObjCol l') "") l').
Proof.
  intros P. unfold ne_str. simpl.
  induction l as [|o l IH]; simpl in *; [constructor|].
  apply andb_prop in P. destruct P as [Po Pl]. specialize (IH Pl).
  destruct o as [t|x|]; simpl in *.
  - destruct (String.eqb_spec t "> 89") as [->|N1]; simpl.
    + constructor; [exact I|exact IH].
    + destruct (String.eqb_spec t "") as [->|N2]; simpl; [exact IH|].
      constructor; [|exact IH]. simpl.
      destruct (parse t); [discriminate|discriminate Po].
  - constructor; [exact I|exact IH].
  - constructor; [exact I|exact IH].
Qed.

Lemma valcol_loc_rows mask n d d' :
  loc_rows mask d = Some d' -> valcol n d -> valcol n d'.
Proof.
  intros L (s & l & C & V). destruct (loc_rows_col _ _ _ _ _ L C) as (s' & T & C').
  exists s', (compress mask l). split; [exact C'|]. apply (values_take_rows _ _ _ _ T V).
Qed.

Lemma has_loc_rows mask n d d' :
  loc_rows mask d = Some d' -> has n d = true -> has n d' = true.
Proof.
  unfold has. intros L H. destruct (col n d) as [s|] eqn:C; [|discriminate].
  destruct (loc_rows_col _ _ _ _ _ L C) as (s' & _ & ->). reflexivity.
Qed.

Lemma filterable_loc_rows mask d d' :
  loc_rows mask d = Some d' -> filterable d -> filterable d'.
Proof.
  intros L (R & V1 & V2 & V3 & H).
  repeat split; eauto using loc_rows_rectangular, valcol_loc_rows, has_loc_rows.
Qed.

Lemma filterable_assign_age s d d' :
  assign "age" s d = Some d' -> filterable d -> filterable d'.
Proof.
  intros A (R & V1 & V2 & V3 & H).
  pose proof (assign_rectangular _ _ _ _ R A) as R'.
  apply assign_Some in A. destruct A as (_ & _ & V).
  unfold filterable, valcol, has. rewrite !V. eval_names. repeat split; assumption.
Qed.

Lemma valuesb_valcol n df : valuesb n df = true -> valcol n df.
Proof.
  unfold valuesb, valcol. destruct (col n df) as [s|]; [|discriminate].
  destruct (values s) as [l|] eqn:V; [|discriminate]. eauto.
Qed.

Lemma filter_ready_filterable parse df : filter_ready parse df = true -> filterable df.
Proof.
  unfold filter_ready. intros H.
  repeat match goal with
         | H : (_ && _) = true |- _ => apply andb_prop in H; destruct H as [? ?]
         end.
  cbn [forallb] in *.
  repeat match goal with
         | H : (_ && _) = true |- _ => apply andb_prop in H; destruct H as [? ?]
         end.
  repeat split; auto using valuesb_valcol. apply rectangularb_spec. assumption.
Qed.

(** One numeric filter cell. *)
Lemma mask_filter_ok (t : row_test) name d :
  filterable d ->
  (forall s l, values s = Some l -> exists m, t s = Some m /\ length m = size s) ->
  valcol name d ->
  exists s m d', col name d = Some s /\ t s = Some m /\ loc_rows m d = Some d'
                 /\ filterable d'.
Proof.
  intros F T (s & l & C & V). destruct (T s l V) as (m & Tm & Lm).
  destruct F as (R & F').
  destruct (loc_rows_ok m d R) as [d' D].
  - rewrite Lm. apply (rectangular_col _ _ _ R C).
  - exists s, m, d'. repeat split; auto.
    + apply (loc_rows_rectangular _ _ _ D).
    + apply (valcol_loc_rows _ _ _ _ D); tauto.
    + apply (valcol_loc_rows _ _ _ _ D); tauto.
    + apply (valcol_loc_rows _ _ _ _ D); tauto.
    + apply (has_loc_rows _ _ _ _ D); tauto.
Qed.

Lemma ge_ok s x l : values s = Some l -> exists m, ge s x = Some m /\ length m = size s.
Proof.
  intros V. unfold ge. rewrite V. cbn [bind]. eexists; split; [reflexivity|].
  rewrite length_map. apply (values_length _ _ V).
Qed.

Lemma le_ok s x l : values s = Some l -> exists m, le s x = Some m /\ length m = size s.
Proof.
  intros V. unfold le. rewrite V. cbn [bind]. eexists; split; [reflexivity|].
  rewrite length_map. apply (values_length _ _ V).
Qed.

Lemma plausible_weight_ok s l :
  values s = Some l -> exists m, plausible_weight s = Some m /\ length m = size s.
Proof.
  intros V. unfold plausible_weight.
  destruct (ge_ok s 50 l V) as (a & -> & La). destruct (le_ok s 300 l V) as (b & -> & Lb).
  cbn [bind]. eexists; split; [reflexivity|].
  unfold and_mask. rewrite length_map2; congruence.
Qed.

Lemma plausible_height_ok s l :
  values s = Some l -> exists m, plausible_height s = Some m /\ length m = size s.
Proof.
  intros V. unfold plausible_height.
  destruct (le_ok s 250 l V) as (a & -> & La). destruct (ge_ok s 50 l V) as (b & -> & Lb).
  cbn [bind]. eexists; split; [reflexivity|].
  unfold and_mask. rewrite length_map2; congruence.
Qed.

Lemma filter_stage_total parse df :
  filter_ready parse df = true -> exists out, filter_stage parse df = Some out.
Proof.
  intros Rdy. pose proof (filter_ready_filterable _ _ Rdy) as F0.
  assert (A : age_ready parse df = true).
  { unfold filter_ready in Rdy.
    repeat match goal with
           | H : (_ && _) = true |- _ => apply andb_prop in H; destruct H as [? ?]
           end.
    assumption. }
  clear Rdy. unfold age_ready in A.
  destruct (col "age" df) as [age0|] eqn:C0; [|discriminate A].
  pose proof F0 as (R0 & _).
  pose proof (rectangular_col _ _ _ R0 C0) as S0.
  unfold filter_stage. rewrite C0; cbn [bind].
  (* the substitution of "> 89" *)
  unfold loc_setitem. rewrite C0; cbn [bind]. rewrite eq_str_length, Nat.eqb_refl.
  destruct (assign_ok "age" (putmask (eq_str age0 "> 89") 93 age0) df) as [d1 D1];
    [rewrite size_putmask by apply eq_str_length; exact S0|].
  rewrite D1; cbn [bind].
  pose proof (filterable_assign_age _ _ _ D1 F0) as F1. pose proof F1 as (R1 & _).
  apply assign_Some in D1. destruct D1 as (Z1 & I1 & V1).
  assert (C1 : col "age" d1 = Some (putmask (eq_str age0 "> 89") 93 age0))
    by (rewrite V1; reflexivity).
  rewrite C1; cbn [bind].
  (* the removal of the empty ages *)
  destruct (loc_rows_ok (ne_str (putmask (eq_str age0 "> 89") 93 age0) "") d1 R1)
    as [d2 D2].
  { unfold ne_str. rewrite length_map, eq_str_length. congruence. }
  rewrite D2; cbn [bind].
  pose proof (filterable_loc_rows _ _ _ D2 F1) as F2. pose proof F2 as (R2 & _).
  destruct (loc_rows_col _ _ _ _ _ D2 C1) as (age2 & T2 & C2).
  rewrite C2; cbn [bind].
  (* the cast *)
  destruct (astype_float64_ok parse age2) as (v & Cast & Lv).
  { apply take_rows_Some in T2. destruct T2 as [_ T2].
    destruct age0 as [l|l]; simpl in T2; subst age2; [exact I|].
    apply (age_cells_convertible parse l A). }
  rewrite Cast; cbn [bind].
  destruct (assign_ok "age" (FloatCol v) d2) as [d3 D3];
    [simpl; rewrite Lv; apply (rectangular_col _ _ _ R2 C2)|].
  rewrite D3; cbn [bind].
  pose proof (filterable_assign_age _ _ _ D3 F2) as F3. pose proof F3 as (R3 & _).
  apply assign_Some in D3. destruct D3 as (Z3 & I3 & V3).
  rewrite V3. cbv [after_assign String.eqb Ascii.eqb Bool.eqb]. cbn [bind ge values].
  (* adults *)
  destruct (loc_rows_ok (map (fun x => PrimFloat.leb 18 x) v) d3 R3) as [d4 D4];
    [rewrite length_map; simpl in Z3; congruence|].
  rewrite D4; cbn [bind].
  pose proof (filterable_loc_rows _ _ _ D4 F3) as F4.
  (* length of stay *)
  destruct (mask_filter_ok long_stay "unit_los" d4 F4) as (s5 & m5 & d5 & C5 & M5 & D5 & F5);
    [intros s l V; apply (ge_ok s _ l V) | apply F4 |].
  unfold long_stay in M5. rewrite C5; cbn [bind]. rewrite M5; cbn [bind].
  rewrite D5; cbn [bind].
  (* surgical bleeds *)
  pose proof F5 as (R5 & _ & _ & _ & H5). unfold has in H5.
  destruct (col "admit_diagnosis" d5) as [adx|] eqn:C6; [|discriminate H5].
  cbn [bind].
  destruct (loc_rows_ok (invert (isin adx ["S-UGIBLEED"; "S-LGIBLEED"])) d5 R5)
    as [d6 D6].
  { unfold invert. rewrite length_map, isin_length. apply (rectangular_col _ _ _ R5 C6). }
  rewrite D6; cbn [bind].
  pose proof (filterable_loc_rows _ _ _ D6 F5) as F6.
  (* weight *)
  destruct (mask_filter_ok plausible_weight "weight" d6 F6)
    as (s7 & m7 & d7 & C7 & M7 & D7 & F7); [apply plausible_weight_ok | apply F6 |].
  rewrite C7; cbn [bind]. unfold plausible_weight in M7.
  destruct (ge s7 50); [cbn [bind] in *|discriminate M7].
  destruct (le s7 300); [cbn [bind] in *|discriminate M7].
  injection M7 as <-. rewrite D7; cbn [bind].
  (* height *)
  destruct (mask_filter_ok plausible_height "height" d7 F7)
    as (s8 & m8 & d8 & C8 & M8 & D8 & F8); [apply plausible_height_ok | apply F7 |].
  rewrite C8; cbn [bind]. unfold plausible_height in M8.
  destruct (le s8 250); [cbn [bind] in *|discriminate M8].
  destruct (ge s8 50); [cbn [bind] in *|discriminate M8].
  injection M8 as <-. eauto.
Qed.

Lemma mem_In n l : mem n l = true -> In n l.
Proof.
  unfold mem. intros H. apply existsb_exists in H. destruct H as (x & Hx & E).
  apply String.eqb_eq in E. subst. exact Hx.
Qed.

Lemma forallb_mem (f : string -> bool) l n :
  forallb f l = true -> mem n l = true -> f n = true.
Proof. intros F M. rewrite forallb_forall in F. apply F, mem_In, M. Qed.

Lemma typed_float df n :
  typed_as_queried df = true -> has n df = true -> mem n text_columns = false ->
  exists l, col n df = Some (FloatCol l).
Proof.
  intros T H M. unfold has in H. destruct (col n df) as [s|] eqn:C; [|discriminate].
  destruct (typed_as_queried_col _ _ _ T C M) as [l ->]. eauto.
Qed.

Lemma select_FloatCol masks l s :
  select masks (FloatCol l) = Some s -> exists l', s = FloatCol l'.
Proof.
  intros H. apply select_kind in H. destruct s; [eauto|contradiction].
Qed.

Lemma numericb_filtered parse df out n :
  filter_stage parse df = Some out ->
  typed_as_queried df = true -> has n df = true ->
  String.eqb n "age" = false -> mem n text_columns = false ->
  numericb n out = true.
Proof.
  intros F T H N M. apply String.eqb_neq in N.
  destruct (filter_stage_select _ _ _ F) as (masks & V).
  destruct (V n N) as [Q K]. specialize (K H).
  destruct (filter_stage_filtered _ _ _ F) as (R & _).
  destruct (typed_float _ _ T H M) as [l C].
  unfold numericb, has in *. rewrite C in Q. cbn [bind] in Q.
  destruct (col n out) as [s|] eqn:Cs; [|discriminate K].
  symmetry in Q. destruct (select_FloatCol _ _ _ Q) as [l' ->].
  simpl. apply Nat.eqb_eq. apply (rectangular_col _ _ _ R Cs).
Qed.

Lemma has_filtered parse df out n :
  filter_stage parse df = Some out ->
  has n df = true -> String.eqb n "age" = false -> has n out = true.
Proof.
  intros F H N. apply String.eqb_neq in N.
  destruct (filter_stage_select _ _ _ F) as (masks & V).
  destruct (V n N) as [_ K]. exact (K H).
Qed.

Lemma textb_filtered parse df out :
  filter_stage parse df = Some out ->
  textb "admit_diagnosis" df = true -> textb "admit_diagnosis" out = true.
Proof.
  intros F T. destruct (filter_stage_select _ _ _ F) as (masks & V).
  destruct (V "admit_diagnosis") as [Q K]; [discriminate|].
  unfold textb, has in *.
  destruct (col "admit_diagnosis" df) as [[|l]|]; try discriminate T.
  specialize (K eq_refl). cbn [bind] in Q.
  destruct (col "admit_diagnosis" out) as [s|]; [|discriminate K].
  symmetry in Q. destruct (select_ObjCol _ _ _ Q) as (l' & -> & Hin).
  rewrite forallb_forall in *. intros o Ho. apply T, Hin, Ho.
Qed.

Lemma pre_split_total parse junk df :
  joined_ready parse df = true -> exists sep, pre_split parse junk df = Some sep.
Proof.
  unfold joined_ready. intros H.
  repeat match goal with
         | H : (_ && _) = true |- _ => apply andb_prop in H; destruct H as [? ?]
         end.
  match goal with
  | Hr : rectangularb df = true, Ha : age_ready parse df = true,
    Hh : forallb _ cohort_columns = true, Ht : typed_as_queried df = true,
    Hx : textb _ df = true |- _ =>
      rename Hr into Rect; rename Ha into Age; rename Hh into Has;
      rename Ht into Typed; rename Hx into Text
  end.
  assert (HasC : forall n, mem n cohort_columns = true -> has n df = true)
    by (intros n; apply (forallb_mem _ _ _ Has)).
  assert (Val : forall n, mem n cohort_columns = true -> mem n text_columns = false ->
                          valuesb n df = true).
  { intros n M1 M2. destruct (typed_float _ _ Typed (HasC n M1) M2) as [l C].
    unfold valuesb. rewrite C. reflexivity. }
  (* the filter cells *)
  destruct (filter_stage_total parse df) as [cohort EF].
  { unfold filter_ready. rewrite Rect, Age. cbn [forallb andb].
    rewrite !Val by reflexivity. apply HasC. reflexivity. }
  assert (HasF : forall n, String.eqb n "age" = false -> mem n cohort_columns = true ->
                           has n cohort = true).
  { intros n N M. apply (has_filtered _ _ _ _ EF (HasC n M) N). }
  assert (NumF : forall n, String.eqb n "age" = false -> mem n cohort_columns = true ->
                           mem n text_columns = false -> numericb n cohort = true).
  { intros n N M1 M2. apply (numericb_filtered _ _ _ _ EF Typed (HasC n M1) N M2). }
  (* the reducer *)
  destruct (reducer_total junk cohort) as [reduced ER].
  { unfold reducer_ready. apply andb_true_intro. split.
    - apply forallb_forall. intros n Hn. apply HasF.
      + revert n Hn. apply Forall_forall. unfold lab_drop.
        repeat constructor.
      + revert n Hn. apply Forall_forall. unfold lab_drop.
        repeat constructor.
    - cbn [forallb]. rewrite !NumF by reflexivity. reflexivity. }
  destruct (reducer_Some _ _ _ ER)
    as (? & ? & ? & ? & ? & ? & ? & ? & ? & ?
        & _ & _ & _ & _ & _ & _ & _ & _ & _ & _ & Ir & Vr).
  (* the curation cells and the separation *)
  destruct (curator_total reduced) as (curated & sep & EC & ES).
  { unfold curation_ready.
    apply andb_true_intro; split; [apply andb_true_intro; split|].
    - cbn [forallb]. unfold has. rewrite !Vr. unfold reduced_view. eval_names.
      repeat match goal with
             | |- context [col ?n cohort] =>
                 let Hn := fresh in
                 assert (Hn : has n cohort = true) by (apply HasF; reflexivity);
                 unfold has in Hn; destruct (col n cohort); [clear Hn|discriminate Hn]
             end.
      reflexivity.
    - cbn [forallb]. unfold numericb. rewrite !Vr, Ir. unfold reduced_view. eval_names.
      repeat match goal with
             | |- context [col ?n cohort] =>
                 let Hn := fresh in
                 assert (Hn : numericb n cohort = true) by (apply NumF; reflexivity);
                 unfold numericb in Hn;
                 destruct (col n cohort) as [?c|]; [|discriminate Hn];
                 match type of Hn with
                 | match values ?c with _ => _ end = true =>
                     destruct (values c); [rewrite Hn; clear Hn|discriminate Hn]
                 end
             end.
      reflexivity.
    - pose proof (textb_filtered _ _ _ EF Text) as Tf.
      unfold textb in *. rewrite Vr. unfold reduced_view. eval_names. exact Tf. }
  exists sep. unfold pre_split. rewrite EF; cbn [bind]. rewrite ER; cbn [bind].
  rewrite EC; cbn [bind]. exact ES.
Qed.

End TotalityFacts.

(** ** Columns followed through the whole notebook *)

Module NotebookFacts.

Import Numpy NumpyFacts Pandas PandasFacts Encoding Notebook Spec ReducerFacts FilterFacts
  CuratorFacts SentinelFacts EncodingFacts.

(** Glucose: no reduction rule, the minimum pruned in cell 25, the maximum
    changed by the sentinel pass only. *)
Lemma glucose_through_notebook
  (float_of_string : string -> option float) (junk : nat -> float)
  (df : DataFrame) (sep : Separated) :
  pre_split float_of_string junk df = Some sep ->
  exists cohort reduced pruned selected,
    filter_stage float_of_string df = Some cohort
    /\ abnormal_value_reducer junk cohort = Some reduced
    /\ relabel_and_prune reduced = Some pruned
    /\ drop_features pruned = Some selected
    /\ col "glucose_min" reduced = col "glucose_min" cohort
    /\ col "glucose_max" reduced = col "glucose_max" cohort
    /\ has "glucose_min" pruned = true
    /\ has "glucose_min" selected = false
    /\ col "glucose_min" (features sep) = None
    /\ col "glucose_max" (features sep)
       = option_map (replace_series (-1)%float nan) (col "glucose_max" cohort)
    /\ (forall l, col "glucose_max" cohort = Some (FloatCol l) ->
                  no_sentinel l = true ->
                  col "glucose_max" (features sep) = Some (FloatCol l)).
Proof.
  intros H.
  destruct (pre_split_Some _ _ _ _ H) as (cohort & reduced & curated & EF & ER & EC & ES).
  destruct (curator_stages _ _ EC) as (pruned & selected & encoded & E1 & E2 & _ & _).
  destruct (reducer_Some _ _ _ ER)
    as (? & ? & ? & ? & ? & ? & ? & ? & ? & ?
        & _ & _ & _ & _ & _ & _ & _ & _ & _ & _ & _ & Vr).
  destruct (curated_Some _ _ _ EC ES) as (adx & dummies & gcs & _ & D & _ & _ & Vc).
  assert (Gmax : col "glucose_max" (features sep)
                 = option_map (replace_series (-1)%float nan) (col "glucose_max" cohort)).
  { rewrite Vc. unfold curated_view. eval_names.
    rewrite Vr. unfold reduced_view. eval_names.
    destruct (col "glucose_max" cohort) as [s|]; simpl; [reflexivity|].
    apply (lookup_adx_dummies _ _ _ D). reflexivity. }
  exists cohort, reduced, pruned, selected.
  split; [exact EF|]. split; [exact ER|]. split; [exact E1|]. split; [exact E2|].
  split; [|split; [|split; [|split; [|split; [|split]]]]].
  - rewrite Vr. reflexivity.
  - rewrite Vr. reflexivity.
  - unfold drop_features in E2. inv_binds.
    match goal with
    | D1 : drop ["apache_score"; "unit_los"] pruned = Some ?d,
      D2 : drop _ ?d = Some _ |- _ =>
        pose proof (drop_requires _ _ _ "glucose_min" D2) as P;
        apply drop_Some in D1; destruct D1 as [_ V1]
    end.
    unfold has in *. rewrite V1 in P. eval_names_in P. apply P. simpl. tauto.
  - unfold drop_features in E2. inv_binds. open_frames.
    unfold has.
    repeat match goal with
           | Hd : forall n, col n ?d = _ |- context [col ?m ?d] =>
               rewrite (Hd m); eval_names
           end.
    reflexivity.
  - rewrite Vc. unfold curated_view. eval_names.
    apply (lookup_adx_dummies _ _ _ D). reflexivity.
  - exact Gmax.
  - intros l C S. rewrite Gmax, C. simpl. f_equal. f_equal.
    apply (normalize_no_sentinel l S).
Qed.



(** The feature matrix is numeric, the text columns are gone, the stay
    identifier is still there. *)
Lemma identifier_through_notebook
  (float_of_string : string -> option float) (junk : nat -> float)
  (df : DataFrame) (sep : Separated) :
  pre_split float_of_string junk df = Some sep ->
  typed_as_queried df = true ->
  (has "patientunitstayid" df = true -> has "patientunitstayid" (features sep) = true)
  /\ (forall n s, col n (features sep) = Some s -> is_float s)
  /\ (forall n,
        In n [ "gender"; "ethnicity"; "unit_type"; "unitadmitsource";
               "admit_diagnosis"; "hospital_expiration"; "apache_prediction" ] ->
        has n (features sep) = false).
Proof.
  intros H T0.
  pose proof (typed_as_queried_col df) as T. specialize (fun n s => T n s T0).
  destruct (pre_split_Some _ _ _ _ H) as (cohort & reduced & curated & EF & ER & EC & ES).
  destruct (reducer_Some _ _ _ ER)
    as (? & ? & ? & ? & ? & ? & ? & ? & ? & ?
        & _ & _ & _ & _ & _ & _ & _ & _ & _ & _ & _ & Vr).
  destruct (curated_Some _ _ _ EC ES) as (adx & dummies & gcs & _ & D & G & _ & Vc).
  destruct (filter_stage_select _ _ _ EF) as (masks & Vf).
  destruct (filter_stage_filtered _ _ _ EF) as (_ & [a A] & _).
  split; [|split].
  - intros P. destruct (Vf "patientunitstayid") as [_ Q]; [discriminate|].
    specialize (Q P). unfold has in *. rewrite Vc. unfold curated_view. eval_names.
    rewrite Vr. unfold reduced_view. eval_names.
    destruct (col "patientunitstayid" cohort); [reflexivity|discriminate Q].
  - intros n s C.
    cut (numeric_except [] (fun n => col n (features sep)));
      [intros K; exact (K n s C eq_refl)|].
    clear n s C.
    apply (numeric_ext _ _ _ Vc). unfold curated_view.
    repeat first
      [ apply numeric_after_drop
      | apply numeric_after_assign; [exact G|]
      | apply numeric_after_concat; [intros m c; apply (dummies_float _ _ _ _ _ D)|]
      | apply numeric_after_replace ].
    apply (numeric_ext _ _ _ Vr). unfold reduced_view.
    repeat first
      [ apply numeric_after_drop
      | apply numeric_after_assign; [eexists; reflexivity|] ].
    intros m c Cm E.
    destruct (String.eqb_spec m "age") as [->|Hm].
    + rewrite A in Cm. injection Cm as <-. eexists; reflexivity.
    + destruct (Vf m Hm) as [Q _]. rewrite Q in Cm.
      destruct (col m df) as [c0|] eqn:C0; [|discriminate]. simpl in Cm.
      apply (same_kind_float c0 c (select_kind _ _ _ Cm)).
      apply (T m c0 C0).
      unfold text_columns, mem, existsb.
      apply String.eqb_neq in Hm. rewrite Hm. simpl.
      repeat match goal with
             | |- context [String.eqb m ?t] =>
                 destruct (String.eqb_spec m t) as [->|];
                 [vm_compute in E; discriminate E|]
             end.
      reflexivity.
  - intros n Hn. unfold has. rewrite Vc. unfold curated_view. simpl in Hn.
    repeat (destruct Hn as [<-|Hn];
            [eval_names; try reflexivity;
             rewrite (lookup_adx_dummies _ _ _ D) by reflexivity; reflexivity|]).
    contradiction.
Qed.



(** The indicator columns of the admission diagnosis. *)
Lemma indicators_through_notebook
  (float_of_string : string -> option float) (junk : nat -> float)
  (df : DataFrame) (sep : Separated) :
  pre_split float_of_string junk df = Some sep ->
  exists cohort l adx_dummies,
    filter_stage float_of_string df = Some cohort
    /\ option_map (replace_series (-1)%float nan) (col "admit_diagnosis" cohort)
       = Some (ObjCol l)
    /\ get_dummies_drop_first (ObjCol l) "adx" = Some adx_dummies
    /\ adx_dummies = map (dummy_column "adx" l) (tl (levels l))
    /\ NoDup (levels l)
    /\ (forall c, In c (levels l) <-> In (OStr c) l)
    /\ length adx_dummies = pred (length (levels l))
    /\ (forall i o, nth_error l i = Some o ->
          row_sum adx_dummies i
          = match o with
            | OStr c => if mem c (tl (levels l)) then 1%float else 0%float
            | _ => 0%float
            end)
    /\ (forall n, named_adx n = true -> has n df = false ->
          col n (features sep) = lookup n adx_dummies)
    /\ has "admit_diagnosis" (features sep) = false
    /\ (known_vocabulary df = true ->
        incl (levels l) ["LOWGIBLEED"; "UGIBLEED"; "UNKGIBLEED"]
        /\ length adx_dummies <= 2).
Proof.
  intros H.
  destruct (pre_split_Some _ _ _ _ H) as (cohort & reduced & curated & EF & ER & EC & ES).
  destruct (reducer_Some _ _ _ ER)
    as (? & ? & ? & ? & ? & ? & ? & ? & ? & ?
        & _ & _ & _ & _ & _ & _ & _ & _ & _ & _ & _ & Vr).
  destruct (curated_Some _ _ _ EC ES) as (adx & dummies & gcs & A & D & _ & _ & Vc).
  destruct (filter_stage_select _ _ _ EF) as (masks & Vf).
  destruct (filter_stage_filtered _ _ _ EF) as (_ & _ & _ & _ & NS & _).
  destruct (get_dummies_Some _ _ _ D) as (l & R & _ & ->).
  pose proof (ascending_NoDup _ (ascending_levels l)) as N.
  assert (C : col "admit_diagnosis" cohort = Some adx).
  { pose proof A as A'. rewrite Vr in A'. unfold reduced_view in A'. eval_names_in A'.
    rewrite <- A'. reflexivity. }
  exists cohort, l, (map (dummy_column "adx" l) (tl (levels l))).
  split; [exact EF|].
  split; [rewrite C; cbn [option_map]; f_equal; exact R|].
  split; [rewrite <- R; exact D|]. split; [reflexivity|]. split; [exact N|].
  split; [intros c; apply In_levels|].
  assert (Len : length (map (dummy_column "adx" l) (tl (levels l)))
                = pred (length (levels l)))
    by (rewrite length_map; destruct (levels l); reflexivity).
  split; [exact Len|].
  split; [intros i o Hi; apply row_sum_dummies; [exact Hi|apply NoDup_tl; exact N]|].
  split; [|split].
  - intros n Hn Hd.
    destruct (named_adx_true n Hn) as [rest ->]. cbn [append] in *.
    rewrite Vc. unfold curated_view. eval_names.
    rewrite Vr. unfold reduced_view. eval_names.
    match goal with
    | |- context [col ?m cohort] =>
        destruct (Vf m) as [Q _]; [discriminate|]; rewrite Q;
        unfold has in Hd; destruct (col m df); [discriminate Hd|]
    end.
    reflexivity.
  - unfold has. rewrite Vc. reflexivity.
  - intros K. unfold known_vocabulary in K.
    destruct (col "admit_diagnosis" df) as [[|l0]|] eqn:C0; try discriminate K.
    rewrite forallb_forall in K.
    rewrite Vr in A. unfold reduced_view in A. eval_names_in A.
    destruct (Vf "admit_diagnosis") as [Q _]; [discriminate|].
    assert (C1 : col "admit_diagnosis" cohort = Some adx)
      by (rewrite <- A; reflexivity).
    rewrite Q, C0 in A. cbn [bind] in A.
    destruct (select_ObjCol _ _ _ A) as (l1 & -> & Hin).
    assert (T : Forall (fun o => exists c, o = OStr c) l1).
    { rewrite Forall_forall. intros o Ho. specialize (K o (Hin o Ho)).
      destruct o; try discriminate K. eauto. }
    rewrite (replace_series_text _ _ _ T) in R. injection R as <-.
    assert (I : incl (levels l1) ["LOWGIBLEED"; "UGIBLEED"; "UNKGIBLEED"]).
    { intros c Hc. apply In_levels in Hc.
      pose proof (not_surgical_cells _ _ NS C1 c Hc) as S.
      specialize (K _ (Hin _ Hc)). cbn beta iota in K.
      unfold mem in K. apply existsb_exists in K. destruct K as (k & Hk & E).
      apply String.eqb_eq in E. subst k. simpl in Hk.
      repeat (destruct Hk as [<-|Hk];
              [first [vm_compute in S; discriminate S | simpl; tauto]|]).
      contradiction. }
    split; [exact I|]. rewrite Len.
    pose proof (NoDup_incl_length N I) as B. simpl in B. lia.
Qed.


End NotebookFacts.

(** * The reduction rules *)
Import Numpy NumpyFacts Pandas PandasFacts Notebook Spec ReducerFacts RuleFacts.

(** C4.  On every table the reducer accepts, the reduced sodium of a row is
    the minimum [m] when [|m - 135| >= |M - 145|] and the maximum [M]
    otherwise (a tie keeps the minimum); the reduced potassium follows the
    same rule with the bounds 3.5 and 5.0. *)
Theorem bidirectional_deviation_rule (junk : nat -> float) (df : DataFrame) :
  reducer_ready df = true ->
  exists out na_lo na_hi k_lo k_hi,
    abnormal_value_reducer junk df = Some out
    /\ numeric "sodium_min" df na_lo /\ numeric "sodium_max" df na_hi
    /\ numeric "potassium_min" df k_lo /\ numeric "potassium_max" df k_hi
    /\ col "sodium" out = Some (FloatCol (map2 (deviation_rule 135 145) na_lo na_hi))
    /\ col "potassium" out = Some (FloatCol (map2 (deviation_rule 3.5 5) k_lo k_hi)).
Proof.
  intros R. destruct (reducer_total junk df R) as [out Hout].
  destruct (reducer_Some junk df out Hout)
    as (na_lo & na_hi & k_lo & k_hi & w_lo & w_hi & p_lo & p_hi & l_lo & l_hi
        & N1 & N2 & N3 & N4 & _ & _ & _ & _ & _ & _ & _ & Hv).
  exists out, na_lo, na_hi, k_lo, k_hi. repeat split; auto.
  - rewrite Hv, <- choose_deviation. reflexivity.
  - rewrite Hv, <- choose_deviation. reflexivity.
Qed.

Lemma bidirectional_deviation_rule_witness :
  reducer_ready Examples.joined = true
  /\ exists out na_lo na_hi k_lo k_hi,
      abnormal_value_reducer Examples.zeros Examples.joined = Some out
      /\ numeric "sodium_min" Examples.joined na_lo
      /\ numeric "sodium_max" Examples.joined na_hi
      /\ numeric "potassium_min" Examples.joined k_lo
      /\ numeric "potassium_max" Examples.joined k_hi
      /\ col "sodium" out = Some (FloatCol (map2 (deviation_rule 135 145) na_lo na_hi))
      /\ col "potassium" out = Some (FloatCol (map2 (deviation_rule 3.5 5) k_lo k_hi)).
Proof.
  split.
  - vm_compute. reflexivity.
  - apply (bidirectional_deviation_rule Examples.zeros Examples.joined).
    vm_compute. reflexivity.
Defined.

(** The example of the specification, [m = 128] and [M = 150], and a tie. *)
Example sodium_128_150 : deviation_rule 135 145 128 150 = 128%float.
Proof. reflexivity. Qed.

Example sodium_tie : deviation_rule 135 145 130 150 = 130%float.
Proof. reflexivity. Qed.

(** C5.  On every table the reducer accepts, the reduced white cell count of
    a row is the minimum when the minimum is below 2 and the maximum
    otherwise; neutrophils and lymphocytes follow the same rule with the
    thresholds 45 and 20.  The raw minimum is compared, not a deviation. *)
Theorem threshold_selected_rule (junk : nat -> float) (df : DataFrame) :
  reducer_ready df = true ->
  exists out w_lo w_hi p_lo p_hi l_lo l_hi,
    abnormal_value_reducer junk df = Some out
    /\ numeric "wbc_min" df w_lo /\ numeric "wbc_max" df w_hi
    /\ numeric "pmn_min" df p_lo /\ numeric "pmn_max" df p_hi
    /\ numeric "lymphs_min" df l_lo /\ numeric "lymphs_max" df l_hi
    /\ col "wbc" out = Some (FloatCol (map2 (threshold_rule 2) w_lo w_hi))
    /\ col "pmn" out = Some (FloatCol (map2 (threshold_rule 45) p_lo p_hi))
    /\ col "lym" out = Some (FloatCol (map2 (threshold_rule 20) l_lo l_hi)).
Proof.
  intros R. destruct (reducer_total junk df R) as [out Hout].
  destruct (reducer_Some junk df out Hout)
    as (na_lo & na_hi & k_lo & k_hi & w_lo & w_hi & p_lo & p_hi & l_lo & l_hi
        & _ & _ & _ & _ & N1 & N2 & N3 & N4 & N5 & N6 & _ & Hv).
  exists out, w_lo, w_hi, p_lo, p_hi, l_lo, l_hi. repeat split; auto.
  - rewrite Hv, <- choose_threshold; [reflexivity|].
    rewrite (numeric_length _ _ _ N1), (numeric_length _ _ _ N2). reflexivity.
  - rewrite Hv, <- choose_threshold; [reflexivity|].
    rewrite (numeric_length _ _ _ N3), (numeric_length _ _ _ N4). reflexivity.
  - rewrite Hv, <- choose_threshold; [reflexivity|].
    rewrite (numeric_length _ _ _ N5), (numeric_length _ _ _ N6). reflexivity.
Qed.

Lemma threshold_selected_rule_witness :
  reducer_ready Examples.joined = true
  /\ exists out w_lo w_hi p_lo p_hi l_lo l_hi,
      abnormal_value_reducer Examples.zeros Examples.joined = Some out
      /\ numeric "wbc_min" Examples.joined w_lo /\ numeric "wbc_max" Examples.joined w_hi
      /\ numeric "pmn_min" Examples.joined p_lo /\ numeric "pmn_max" Examples.joined p_hi
      /\ numeric "lymphs_min" Examples.joined l_lo
      /\ numeric "lymphs_max" Examples.joined l_hi
      /\ col "wbc" out = Some (FloatCol (map2 (threshold_rule 2) w_lo w_hi))
      /\ col "pmn" out = Some (FloatCol (map2 (threshold_rule 45) p_lo p_hi))
      /\ col "lym" out = Some (FloatCol (map2 (threshold_rule 20) l_lo l_hi)).
Proof.
  split.
  - vm_compute. reflexivity.
  - apply (threshold_selected_rule Examples.zeros Examples.joined).
    vm_compute. reflexivity.
Defined.

(** The examples of the specification. *)
Example wbc_low : threshold_rule 2 1.5 14 = 1.5%float.
Proof. reflexivity. Qed.

Example wbc_not_low : threshold_rule 2 5 14 = 14%float.
Proof. reflexivity. Qed.

(** C6.  On every table the reducer accepts, each one-directional analyte
    keeps its retained bound unchanged (the minimum for the seven analytes
    of [retain_minimum], the maximum for the fourteen of [retain_maximum]),
    and the column of the other bound, present before, is not a column of
    the reducer's output. *)
Theorem unidirectional_bounds (junk : nat -> float) (df : DataFrame) :
  reducer_ready df = true ->
  exists out,
    abnormal_value_reducer junk df = Some out
    /\ (forall a, In a retain_minimum ->
          col (min_of a) out = col (min_of a) df
          /\ mem (max_of a) (columns df) = true
          /\ mem (max_of a) (columns out) = false)
    /\ (forall a, In a retain_maximum ->
          col (max_of a) out = col (max_of a) df
          /\ mem (min_of a) (columns df) = true
          /\ mem (min_of a) (columns out) = false).
Proof.
  intros R. destruct (reducer_total junk df R) as [out Hout].
  destruct (reducer_Some junk df out Hout)
    as (na_lo & na_hi & k_lo & k_hi & w_lo & w_hi & p_lo & p_hi & l_lo & l_hi
        & _ & _ & _ & _ & _ & _ & _ & _ & _ & _ & _ & Hv).
  exists out. split; [exact Hout|].
  unfold reducer_ready in R. apply andb_prop in R. destruct R as [R _].
  rewrite forallb_forall in R.
  split; intros a Ha; simpl in Ha;
    repeat (destruct Ha as [<-|Ha]; [|]); try contradiction;
    (split; [rewrite Hv; reflexivity|]);
    (split; [rewrite mem_columns; apply (R _); simpl; tauto
            | rewrite mem_columns, Hv; reflexivity]).
Qed.

Lemma unidirectional_bounds_witness :
  reducer_ready Examples.joined = true
  /\ exists out,
      abnormal_value_reducer Examples.zeros Examples.joined = Some out
      /\ (forall a, In a retain_minimum ->
            col (min_of a) out = col (min_of a) Examples.joined
            /\ mem (max_of a) (columns Examples.joined) = true
            /\ mem (max_of a) (columns out) = false)
      /\ (forall a, In a retain_maximum ->
            col (max_of a) out = col (max_of a) Examples.joined
            /\ mem (min_of a) (columns Examples.joined) = true
            /\ mem (min_of a) (columns out) = false).
Proof.
  split.
  - vm_compute. reflexivity.
  - apply (unidirectional_bounds Examples.zeros Examples.joined).
    vm_compute. reflexivity.
Defined.

(** * Missing values and the sentinel *)


Import SentinelFacts FloatFacts.

(** C3, as stated, fails: in the second stay of the sample table the
    potassium minimum is missing and the maximum is 4; the reduced potassium
    is 4, not missing. *)
Lemma missing_minimum_yields_maximum :
  ~ missingness_propagates Examples.zeros Examples.joined.
Proof.
  intros H.
  destruct (abnormal_value_reducer Examples.zeros Examples.joined) as [out|] eqn:E;
    [|vm_compute in E; discriminate E].
  assert (C : col "potassium" out = Some (FloatCol [-1; 4; 4; 4; nan; 4]%float)).
  { vm_compute in E. injection E as <-. reflexivity. }
  assert (V : missing 4%float = true).
  { apply (H out "potassium_min" "potassium_max" "potassium" (deviation_rule 3.5 5)
             [-1; nan; 3; 3; 3; 3]%float [4; 4; 4; 4; nan; 4]%float
             [-1; 4; 4; 4; nan; 4]%float 1 nan 4%float 4%float);
      [ exact E
      | simpl; tauto
      | eexists; repeat split; reflexivity
      | eexists; repeat split; reflexivity
      | exact C
      | reflexivity
      | reflexivity
      | reflexivity
      | left; reflexivity ]. }
  vm_compute in V. discriminate V.
Qed.

(** C3, amended.  On every table the reducer accepts and for every row:
    the reduced sodium or potassium is the bound the deviation test picks;
    the test is false as soon as a bound is missing, so the reduced value is
    then the maximum: a missing maximum propagates, a missing minimum alone
    is replaced by the maximum, and the reduced value is missing exactly
    when the maximum is.  The reduced cell count is the minimum when the
    minimum is below the threshold and the maximum otherwise: a missing
    minimum is replaced by the maximum, a missing maximum propagates unless
    the minimum is below the threshold, and the reduced value is missing
    exactly when the maximum is missing and the minimum is not below the
    threshold.  In both cases two missing bounds give a missing value.  A
    one-directional analyte keeps its retained bound as it is, missing or
    not. *)
Theorem missing_bounds_rule (junk : nat -> float) (df : DataFrame) :
  reducer_ready df = true ->
  exists out,
    abnormal_value_reducer junk df = Some out
    /\ (forall x_min x_max x lower upper,
          In (x_min, x_max, x, lower, upper) Properties.bidirectional ->
          exists lo hi r,
            numeric x_min df lo /\ numeric x_max df hi
            /\ col x out = Some (FloatCol r)
            /\ length r = length (index df)
            /\ forall i m M,
                 nth_error lo i = Some m -> nth_error hi i = Some M ->
                 exists v,
                   nth_error r i = Some v
                   /\ v = deviation_rule lower upper m M
                   /\ (missing m = true \/ missing M = true -> v = M)
                   /\ missing v = missing M)
    /\ (forall x_min x_max x t,
          In (x_min, x_max, x, t) Properties.thresholded ->
          exists lo hi r,
            numeric x_min df lo /\ numeric x_max df hi
            /\ col x out = Some (FloatCol r)
            /\ length r = length (index df)
            /\ forall i m M,
                 nth_error lo i = Some m -> nth_error hi i = Some M ->
                 exists v,
                   nth_error r i = Some v
                   /\ v = threshold_rule t m M
                   /\ (missing m = true -> v = M)
                   /\ (missing M = true ->
                       (PrimFloat.ltb m t = true -> v = m /\ missing v = false)
                       /\ (PrimFloat.ltb m t = false -> v = M /\ missing v = true))
                   /\ missing v = missing M && negb (PrimFloat.ltb m t))
    /\ (forall a, In a retain_minimum -> col (min_of a) out = col (min_of a) df)
    /\ (forall a, In a retain_maximum -> col (max_of a) out = col (max_of a) df).
Proof.
  intros R. destruct (reducer_total junk df R) as [out Hout].
  exists out. split; [exact Hout|]. split; [|split; [|split]].
  - intros x_min x_max x lower upper Hin.
    assert (T : In (x_min, x_max, x, deviation_rule lower upper) two_sided).
    { simpl in Hin. destruct Hin as [Hin|[Hin|[]]];
        injection Hin as <- <- <- <- <-; simpl; tauto. }
    destruct (reducer_rules junk df out Hout _ _ _ _ T) as (lo & hi & N1 & N2 & C).
    exists lo, hi, (map2 (deviation_rule lower upper) lo hi).
    repeat split; auto.
    + rewrite length_map2.
      * apply (numeric_length _ _ _ N1).
      * rewrite (numeric_length _ _ _ N1), (numeric_length _ _ _ N2). reflexivity.
    + intros i m M Hm HM. exists (deviation_rule lower upper m M).
      split; [apply nth_error_map2; assumption|].
      split; [reflexivity|]. split.
      * intros [A|A].
        -- apply deviation_rule_missing_min, A.
        -- apply deviation_rule_missing_max, A.
      * apply deviation_rule_missing.
  - intros x_min x_max x t Hin.
    assert (T : In (x_min, x_max, x, threshold_rule t) two_sided).
    { simpl in Hin. destruct Hin as [Hin|[Hin|[Hin|[]]]];
        injection Hin as <- <- <- <-; simpl; tauto. }
    destruct (reducer_rules junk df out Hout _ _ _ _ T) as (lo & hi & N1 & N2 & C).
    exists lo, hi, (map2 (threshold_rule t) lo hi).
    repeat split; auto.
    + rewrite length_map2.
      * apply (numeric_length _ _ _ N1).
      * rewrite (numeric_length _ _ _ N1), (numeric_length _ _ _ N2). reflexivity.
    + intros i m M Hm HM. exists (threshold_rule t m M).
      split; [apply nth_error_map2; assumption|].
      split; [reflexivity|]. split; [|split].
      * intros A. apply threshold_rule_missing_min, A.
      * intros A. unfold threshold_rule. split; intros B; rewrite B.
        -- split; [reflexivity|]. apply (ltb_true_present m t B).
        -- split; [reflexivity|exact A].
      * apply threshold_rule_missing.
  - destruct (reducer_Some junk df out Hout)
      as (? & ? & ? & ? & ? & ? & ? & ? & ? & ?
          & _ & _ & _ & _ & _ & _ & _ & _ & _ & _ & _ & Hv).
    intros a Ha; simpl in Ha;
      repeat (destruct Ha as [<-|Ha]; [rewrite Hv; reflexivity|]); contradiction.
  - destruct (reducer_Some junk df out Hout)
      as (? & ? & ? & ? & ? & ? & ? & ? & ? & ?
          & _ & _ & _ & _ & _ & _ & _ & _ & _ & _ & _ & Hv).
    intros a Ha; simpl in Ha;
      repeat (destruct Ha as [<-|Ha]; [rewrite Hv; reflexivity|]); contradiction.
Qed.

Lemma missing_bounds_rule_witness :
  reducer_ready Examples.joined = true
  /\ exists out,
      abnormal_value_reducer Examples.zeros Examples.joined = Some out
      /\ (forall x_min x_max x lower upper,
            In (x_min, x_max, x, lower, upper) Properties.bidirectional ->
            exists lo hi r,
              numeric x_min Examples.joined lo /\ numeric x_max Examples.joined hi
              /\ col x out = Some (FloatCol r)
              /\ length r = length (index Examples.joined)
              /\ forall i m M,
                   nth_error lo i = Some m -> nth_error hi i = Some M ->
                   exists v,
                     nth_error r i = Some v
                     /\ v = deviation_rule lower upper m M
                     /\ (missing m = true \/ missing M = true -> v = M)
                     /\ missing v = missing M)
      /\ (forall x_min x_max x t,
            In (x_min, x_max, x, t) Properties.thresholded ->
            exists lo hi r,
              numeric x_min Examples.joined lo /\ numeric x_max Examples.joined hi
              /\ col x out = Some (FloatCol r)
              /\ length r = length (index Examples.joined)
              /\ forall i m M,
                   nth_error lo i = Some m -> nth_error hi i = Some M ->
                   exists v,
                     nth_error r i = Some v
                     /\ v = threshold_rule t m M
                     /\ (missing m = true -> v = M)
                     /\ (missing M = true ->
                         (PrimFloat.ltb m t = true -> v = m /\ missing v = false)
                         /\ (PrimFloat.ltb m t = false -> v = M /\ missing v = true))
                     /\ missing v = missing M && negb (PrimFloat.ltb m t))
      /\ (forall a, In a retain_minimum ->
            col (min_of a) out = col (min_of a) Examples.joined)
      /\ (forall a, In a retain_maximum ->
            col (max_of a) out = col (max_of a) Examples.joined).
Proof.
  split.
  - vm_compute. reflexivity.
  - apply (missing_bounds_rule Examples.zeros Examples.joined).
    vm_compute. reflexivity.
Defined.

(** C1, as stated, fails: the first stay of the sample table has the
    potassium minimum -1 and the maximum 4.  The notebook reduces first, picks
    -1 (deviation 4.5 against 1) and then turns it into NaN; normalizing
    first would make the minimum missing and the reduced value 4. *)
Lemma sentinel_compared_as_number :
  ~ sentinel_normalized_first Examples.zeros Examples.joined.
Proof.
  intros H.
  destruct (abnormal_value_reducer Examples.zeros Examples.joined) as [red|] eqn:E;
    [|vm_compute in E; discriminate E].
  destruct (abnormal_value_reducer Examples.zeros
              (replace (-1)%float nan Examples.joined)) as [red'|] eqn:E';
    [|vm_compute in E'; discriminate E'].
  specialize (H red red' "potassium_min" "potassium_max" "potassium"
                (deviation_rule 3.5 5)).
  vm_compute in E. injection E as <-.
  vm_compute in E'. injection E' as <-.
  assert (F : In ("potassium_min", "potassium_max", "potassium", deviation_rule 3.5 5)
                 two_sided) by (simpl; tauto).
  specialize (H F eq_refl eq_refl).
  vm_compute in H. discriminate H.
Qed.

(** C1, amended.  The sentinel pass is one pass over the whole table that
    runs after the reducer (it opens the next cell): the reducer compares the
    raw bounds, a -1 included, and the pass then turns a reduced value equal
    to -1 into NaN.  Reducing the normalized table instead applies the rule
    to the normalized bounds; the two agree for an analyte whose bounds
    contain no -1. *)
Theorem sentinel_pass_after_reduction (junk : nat -> float) (df : DataFrame) :
  reducer_ready df = true ->
  exists red red',
    abnormal_value_reducer junk df = Some red
    /\ relabel_and_prune red
       = drop [ "sbp_periodic_mean"; "dbp_periodic_mean"; "map_periodic_mean";
                "tempc_mean"; "apache_pao2"; "apache_fio2"; "apache_o2ratio";
                "hospital_los"; "unitadmitsource" ]
              (replace (-1)%float nan red)
    /\ abnormal_value_reducer junk (replace (-1)%float nan df) = Some red'
    /\ forall x_min x_max x rule,
         In (x_min, x_max, x, rule) two_sided ->
         exists lo hi,
           numeric x_min df lo /\ numeric x_max df hi
           /\ col x (replace (-1)%float nan red)
              = Some (FloatCol (map normalize (map2 rule lo hi)))
           /\ col x red'
              = Some (FloatCol (map2 rule (map normalize lo) (map normalize hi)))
           /\ (no_sentinel lo = true -> no_sentinel hi = true ->
               col x (replace (-1)%float nan red) = col x red').
Proof.
  intros R. destruct (reducer_total junk df R) as [red Hred].
  assert (R' : reducer_ready (replace (-1)%float nan df) = true)
    by (rewrite reducer_ready_replace; exact R).
  destruct (reducer_total junk _ R') as [red' Hred'].
  exists red, red'. repeat split; auto.
  intros x_min x_max x rule Hin.
  destruct (reducer_rules junk df red Hred _ _ _ _ Hin) as (lo & hi & N1 & N2 & C).
  destruct (reducer_rules junk _ red' Hred' _ _ _ _ Hin) as (lo' & hi' & N1' & N2' & C').
  pose proof (numeric_unique _ _ _ _ N1' (numeric_replace (-1)%float nan _ _ _ N1)) as ->.
  pose proof (numeric_unique _ _ _ _ N2' (numeric_replace (-1)%float nan _ _ _ N2)) as ->.
  exists lo, hi.
  assert (P : col x (replace (-1)%float nan red)
              = Some (FloatCol (map normalize (map2 rule lo hi))))
    by (rewrite col_replace, C; reflexivity).
  repeat split; auto.
  intros Slo Shi. rewrite P, C'.
  change (replace_cell (-1)%float nan) with normalize.
  rewrite (normalize_no_sentinel lo Slo), (normalize_no_sentinel hi Shi).
  rewrite normalize_no_sentinel; [reflexivity|].
  apply no_sentinel_map2; auto.
  intros m M. apply (two_sided_rule _ _ _ _ Hin m M).
Qed.

Lemma sentinel_pass_after_reduction_witness :
  reducer_ready Examples.joined = true
  /\ exists red red',
      abnormal_value_reducer Examples.zeros Examples.joined = Some red
      /\ relabel_and_prune red
         = drop [ "sbp_periodic_mean"; "dbp_periodic_mean"; "map_periodic_mean";
                  "tempc_mean"; "apache_pao2"; "apache_fio2"; "apache_o2ratio";
                  "hospital_los"; "unitadmitsource" ]
                (replace (-1)%float nan red)
      /\ abnormal_value_reducer Examples.zeros (replace (-1)%float nan Examples.joined)
         = Some red'
      /\ forall x_min x_max x rule,
           In (x_min, x_max, x, rule) two_sided ->
           exists lo hi,
             numeric x_min Examples.joined lo /\ numeric x_max Examples.joined hi
             /\ col x (replace (-1)%float nan red)
                = Some (FloatCol (map normalize (map2 rule lo hi)))
             /\ col x red'
                = Some (FloatCol (map2 rule (map normalize lo) (map normalize hi)))
             /\ (no_sentinel lo = true -> no_sentinel hi = true ->
                 col x (replace (-1)%float nan red) = col x red').
Proof.
  split.
  - vm_compute. reflexivity.
  - apply (sentinel_pass_after_reduction Examples.zeros Examples.joined).
    vm_compute. reflexivity.
Defined.

(** * The filter stage *)

Import FilterFacts TotalityFacts.

(** C9.  On every table the filter cells accept, they return a table that
    meets every criterion (age is a number at least 18, the unit stay lasts
    at least 240 minutes, the admission diagnosis is not a surgical bleed,
    weight lies in [50, 300] and height in [50, 250]), and running the filter
    cells on that table again returns the same table: no row is removed and
    no cell changes. *)
Theorem filter_stage_idempotent
  (float_of_string : string -> option float) (df : DataFrame) :
  filter_ready float_of_string df = true ->
  exists out,
    filter_stage float_of_string df = Some out
    /\ filtered out
    /\ filter_stage float_of_string out = Some out.
Proof.
  intros Rdy. destruct (filter_stage_total float_of_string df Rdy) as [out H].
  pose proof (filter_stage_filtered _ _ _ H) as F.
  exists out. split; [exact H|]. split; [exact F|]. apply filtered_fixpoint. exact F.
Qed.

Lemma filter_stage_idempotent_witness :
  filter_ready Examples.float_of_digits Examples.joined = true
  /\ exists out,
      filter_stage Examples.float_of_digits Examples.joined = Some out
      /\ filtered out
      /\ filter_stage Examples.float_of_digits out = Some out.
Proof.
  split.
  - vm_compute. reflexivity.
  - apply (filter_stage_idempotent Examples.float_of_digits Examples.joined).
    vm_compute. reflexivity.
Defined.

(** The sample table keeps the stays 0, 1 and 4. *)
Example sample_filtered_index : index Examples.filtered_cohort = [0; 1; 4]%Z.
Proof. reflexivity. Qed.

(** * The curated feature matrix *)

Import Encoding CuratorFacts TotalityFacts NotebookFacts.

(** C10, as stated, fails: the first stay of the sample table has the
    glucose maximum -1; it survives the filters, and the sentinel pass turns
    it into NaN on its way to the feature matrix. *)
Lemma glucose_sentinel_becomes_missing :
  ~ glucose_max_unchanged Examples.float_of_digits Examples.zeros Examples.joined.
Proof.
  intros H.
  destruct (pre_split Examples.float_of_digits Examples.zeros Examples.joined)
    as [sep|] eqn:E; [|vm_compute in E; discriminate E].
  destruct (pre_split_Some _ _ _ _ E) as (cohort & reduced & curated & EF & ER & EC & ES).
  specialize (H cohort reduced curated sep EF ER EC ES). clear ER EC ES.
  vm_compute in E. injection E as <-.
  vm_compute in EF. injection EF as <-.
  vm_compute in H. discriminate H.
Qed.



(** C10, amended.  On every well-formed joined table the notebook reaches the
    split, and glucose has no reduction rule: the reducer leaves glucose_min
    and glucose_max as they are.  glucose_min outlives the redundancy pruning
    of cell 22 and is removed by the relevance pruning of cell 25.
    glucose_max reaches the feature matrix handed to the split with the rows
    and values it had after filtering, except that the whole-table sentinel
    pass turns a cell equal to -1 into NaN. *)
Theorem glucose_not_reduced
  (float_of_string : string -> option float) (junk : nat -> float) (df : DataFrame) :
  joined_ready float_of_string df = true ->
  exists sep cohort reduced pruned selected,
    pre_split float_of_string junk df = Some sep
    /\ filter_stage float_of_string df = Some cohort
    /\ abnormal_value_reducer junk cohort = Some reduced
    /\ relabel_and_prune reduced = Some pruned
    /\ drop_features pruned = Some selected
    /\ col "glucose_min" reduced = col "glucose_min" cohort
    /\ col "glucose_max" reduced = col "glucose_max" cohort
    /\ has "glucose_min" pruned = true
    /\ has "glucose_min" selected = false
    /\ col "glucose_min" (features sep) = None
    /\ col "glucose_max" (features sep)
       = option_map (replace_series (-1)%float nan) (col "glucose_max" cohort)
    /\ (forall l, col "glucose_max" cohort = Some (FloatCol l) ->
                  no_sentinel l = true ->
                  col "glucose_max" (features sep) = Some (FloatCol l)).
Proof.
  intros Rdy. destruct (pre_split_total float_of_string junk df Rdy) as [sep H].
  destruct (glucose_through_notebook _ _ _ _ H)
    as (cohort & reduced & pruned & selected & P).
  exists sep, cohort, reduced, pruned, selected. split; [exact H|exact P].
Qed.

Lemma glucose_not_reduced_witness :
  joined_ready Examples.float_of_digits Examples.joined = true
  /\ (
  exists sep cohort reduced pruned selected,
    pre_split Examples.float_of_digits Examples.zeros Examples.joined = Some sep
    /\ filter_stage Examples.float_of_digits Examples.joined = Some cohort
    /\ abnormal_value_reducer Examples.zeros cohort = Some reduced
    /\ relabel_and_prune reduced = Some pruned
    /\ drop_features pruned = Some selected
    /\ col "glucose_min" reduced = col "glucose_min" cohort
    /\ col "glucose_max" reduced = col "glucose_max" cohort
    /\ has "glucose_min" pruned = true
    /\ has "glucose_min" selected = false
    /\ col "glucose_min" (features sep) = None
    /\ col "glucose_max" (features sep)
       = option_map (replace_series (-1)%float nan) (col "glucose_max" cohort)
    /\ (forall l, col "glucose_max" cohort = Some (FloatCol l) ->
                  no_sentinel l = true ->
                  col "glucose_max" (features sep) = Some (FloatCol l))).
Proof.
  split.
  - vm_compute. reflexivity.
  - apply (glucose_not_reduced Examples.float_of_digits Examples.zeros Examples.joined).
    vm_compute. reflexivity.
Defined.

(** C2, as stated, fails: the feature matrix computed from the sample table
    still has the column patientunitstayid. *)
Lemma identifier_in_feature_matrix :
  ~ no_identifier_column Examples.float_of_digits Examples.zeros Examples.joined.
Proof.
  intros H.
  destruct (pre_split Examples.float_of_digits Examples.zeros Examples.joined)
    as [sep|] eqn:E; [|vm_compute in E; discriminate E].
  specialize (H sep E).
  vm_compute in E. injection E as <-.
  vm_compute in H. discriminate H.
Qed.


(** C2, amended.  On every well-formed joined table the notebook reaches the
    split with a feature matrix that is fully numeric (numbers and 0/1
    indicators): no text column, and neither the outcome label nor the
    benchmark prediction, is left in it.  The stay identifier
    patientunitstayid is never dropped: it is a column of the feature
    matrix. *)
Theorem identifier_remains
  (float_of_string : string -> option float) (junk : nat -> float) (df : DataFrame) :
  joined_ready float_of_string df = true ->
  exists sep,
    pre_split float_of_string junk df = Some sep
    /\ has "patientunitstayid" (features sep) = true
    /\ (forall n s, col n (features sep) = Some s -> is_float s)
    /\ (forall n,
          In n [ "gender"; "ethnicity"; "unit_type"; "unitadmitsource";
                 "admit_diagnosis"; "hospital_expiration"; "apache_prediction" ] ->
          has n (features sep) = false).
Proof.
  intros Rdy. destruct (pre_split_total float_of_string junk df Rdy) as [sep H].
  assert (T : typed_as_queried df = true /\ has "patientunitstayid" df = true).
  { unfold joined_ready in Rdy.
    repeat match goal with
           | H : (_ && _) = true |- _ => apply andb_prop in H; destruct H as [? ?]
           end.
    split; [assumption|].
    match goal with
    | F : forallb _ cohort_columns = true |- _ =>
        apply (forallb_mem _ _ _ F); reflexivity
    end. }
  destruct T as [T P].
  destruct (identifier_through_notebook _ _ _ _ H T) as (I & K & A).
  exists sep. split; [exact H|]. split; [exact (I P)|]. split; [exact K|exact A].
Qed.

Lemma identifier_remains_witness :
  joined_ready Examples.float_of_digits Examples.joined = true
  /\ (
  exists sep,
    pre_split Examples.float_of_digits Examples.zeros Examples.joined = Some sep
    /\ has "patientunitstayid" (features sep) = true
    /\ (forall n s, col n (features sep) = Some s -> is_float s)
    /\ (forall n,
          In n [ "gender"; "ethnicity"; "unit_type"; "unitadmitsource";
                 "admit_diagnosis"; "hospital_expiration"; "apache_prediction" ] ->
          has n (features sep) = false)).
Proof.
  split.
  - vm_compute. reflexivity.
  - apply (identifier_remains Examples.float_of_digits Examples.zeros Examples.joined).
    vm_compute. reflexivity.
Defined.

(** * One-hot encoding of the admission diagnosis *)

Import Encoding EncodingFacts TotalityFacts NotebookFacts.

(** C8, as stated, fails: the sample table holds all five known categories,
    the two surgical ones are filtered out before the encoder, and the
    feature matrix has two indicator columns, adx_UGIBLEED and
    adx_UNKGIBLEED, not four. *)
Lemma two_indicator_columns :
  ~ four_indicator_columns Examples.float_of_digits Examples.zeros Examples.joined.
Proof.
  intros H.
  assert (K : known_vocabulary Examples.joined = true) by (vm_compute; reflexivity).
  destruct (H K Examples.separated) as [L _]; [vm_compute; reflexivity|].
  vm_compute in L. discriminate L.
Qed.

Example sample_indicator_columns :
  filter named_adx (columns (features Examples.separated))
  = ["adx_UGIBLEED"; "adx_UNKGIBLEED"].
Proof. vm_compute. reflexivity. Qed.


(** C8, amended.  On every well-formed joined table the notebook reaches the
    split, and the encoder makes one 0/1 indicator column per category
    present in the diagnosis column as it reaches it, the first category in
    increasing order left out as reference: one column less than the number
    of distinct categories.  In every row the indicators sum to 1 when the
    row holds a non-reference category and to 0 otherwise.  The indicator
    columns are the adx_ columns of the feature matrix and the diagnosis
    column itself is absent from it.  With the five known categories in the
    joined table, at most LOWGIBLEED, UGIBLEED and UNKGIBLEED reach the
    encoder, so there are at most two indicator columns. *)
Theorem admit_diagnosis_indicators
  (float_of_string : string -> option float) (junk : nat -> float) (df : DataFrame) :
  joined_ready float_of_string df = true ->
  exists sep cohort l adx_dummies,
    pre_split float_of_string junk df = Some sep
    /\ filter_stage float_of_string df = Some cohort
    /\ col "admit_diagnosis" cohort = Some (ObjCol l)
    /\ get_dummies_drop_first (ObjCol l) "adx" = Some adx_dummies
    /\ adx_dummies = map (dummy_column "adx" l) (tl (levels l))
    /\ NoDup (levels l)
    /\ (forall c, In c (levels l) <-> In (OStr c) l)
    /\ length adx_dummies = pred (length (levels l))
    /\ (forall i o, nth_error l i = Some o ->
          row_sum adx_dummies i
          = match o with
            | OStr c => if mem c (tl (levels l)) then 1%float else 0%float
            | _ => 0%float
            end)
    /\ (forall n, named_adx n = true -> has n df = false ->
          col n (features sep) = lookup n adx_dummies)
    /\ has "admit_diagnosis" (features sep) = false
    /\ (known_vocabulary df = true ->
        incl (levels l) ["LOWGIBLEED"; "UGIBLEED"; "UNKGIBLEED"]
        /\ length adx_dummies <= 2).
Proof.
  intros Rdy. destruct (pre_split_total float_of_string junk df Rdy) as [sep H].
  destruct (indicators_through_notebook _ _ _ _ H)
    as (cohort & l & adx_dummies & F & C & P).
  assert (T : textb "admit_diagnosis" cohort = true).
  { apply (textb_filtered _ _ _ F). unfold joined_ready in Rdy.
    apply andb_prop in Rdy. apply Rdy. }
  unfold textb in T.
  destruct (col "admit_diagnosis" cohort) as [[|l0]|] eqn:A; try discriminate T.
  cbn [option_map] in C. rewrite (replace_series_is_text _ _ _ T) in C.
  injection C as <-.
  exists sep, cohort, l0, adx_dummies.
  split; [exact H|]. split; [exact F|]. split; [exact A|exact P].
Qed.

Lemma admit_diagnosis_indicators_witness :
  joined_ready Examples.float_of_digits Examples.joined = true
  /\ (
  exists sep cohort l adx_dummies,
    pre_split Examples.float_of_digits Examples.zeros Examples.joined = Some sep
    /\ filter_stage Examples.float_of_digits Examples.joined = Some cohort
    /\ col "admit_diagnosis" cohort = Some (ObjCol l)
    /\ get_dummies_drop_first (ObjCol l) "adx" = Some adx_dummies
    /\ adx_dummies = map (dummy_column "adx" l) (tl (levels l))
    /\ NoDup (levels l)
    /\ (forall c, In c (levels l) <-> In (OStr c) l)
    /\ length adx_dummies = pred (length (levels l))
    /\ (forall i o, nth_error l i = Some o ->
          row_sum adx_dummies i
          = match o with
            | OStr c => if mem c (tl (levels l)) then 1%float else 0%float
            | _ => 0%float
            end)
    /\ (forall n, named_adx n = true -> has n Examples.joined = false ->
          col n (features sep) = lookup n adx_dummies)
    /\ has "admit_diagnosis" (features sep) = false
    /\ (known_vocabulary Examples.joined = true ->
        incl (levels l) ["LOWGIBLEED"; "UGIBLEED"; "UNKGIBLEED"]
        /\ length adx_dummies <= 2)).
Proof.
  split.
  - vm_compute. reflexivity.
  - apply (admit_diagnosis_indicators Examples.float_of_digits Examples.zeros
             Examples.joined).
    vm_compute. reflexivity.
Defined.

(** * Further properties of the notebook *)

(** ** The reducer and the content of fresh arrays *)

Module JunkFacts.

Import Numpy NumpyFacts Pandas PandasFacts Notebook Spec ReducerFacts.

(** Both masked assignments together overwrite every cell of the fresh
    array. *)
Lemma most_abnormal_junk junk junk' check x_min x_max n :
  most_abnormal junk check x_min x_max n = most_abnormal junk' check x_min x_max n.
Proof.
  destruct (most_abnormal junk check x_min x_max n) as [s|] eqn:E.
  - destruct (most_abnormal_Some _ _ _ _ _ _ E) as (lo & hi & V1 & V2 & L1 & L2 & L3 & ->).
    symmetry. apply most_abnormal_ok; assumption.
  - destruct (most_abnormal junk' check x_min x_max n) as [s|] eqn:E'; [|reflexivity].
    destruct (most_abnormal_Some _ _ _ _ _ _ E') as (lo & hi & V1 & V2 & L1 & L2 & L3 & ->).
    rewrite (most_abnormal_ok junk _ _ _ _ _ _ V1 V2 L1 L2 L3) in E. discriminate E.
Qed.

Ltac same_head :=
  match goal with
  | |- bind (most_abnormal ?j ?c ?a ?b ?n) _ = bind (most_abnormal ?j' ?c ?a ?b ?n) _ =>
      rewrite (most_abnormal_junk j j' c a b n)
  | |- bind ?m _ = bind ?m _ => destruct m; cbn [bind]; [|reflexivity]
  end.

End JunkFacts.

(** ** The connection and the query files *)

Module DatabaseFacts.

Import Database Properties.

Lemma append_assoc (a b c : string) : ((a ++ b) ++ c = a ++ b ++ c)%string.
Proof. induction a as [|x a IH]; cbn [append]; [reflexivity|]. rewrite IH. reflexivity. Qed.

Lemma readlines_nil text : readlines text = [] -> text = EmptyString.
Proof.
  destruct text as [|c rest]; [reflexivity|]. cbn [readlines].
  destruct (Ascii.eqb c "010"); [discriminate|].
  destruct (readlines rest); discriminate.
Qed.

Lemma concat_cons c line lines :
  String.concat "" (String c line :: lines) = String c (String.concat "" (line :: lines)).
Proof. destruct lines; reflexivity. Qed.

(** Joining the lines of a text gives the text back. *)
Lemma concat_readlines text : String.concat "" (readlines text) = text.
Proof.
  induction text as [|c rest IH]; [reflexivity|]. cbn [readlines].
  destruct (Ascii.eqb c "010").
  - destruct (readlines rest) as [|line lines] eqn:E.
    + rewrite (readlines_nil _ E). reflexivity.
    + change (String.concat "" (String c "" :: line :: lines))
        with (String c (String.concat "" (line :: lines))).
      rewrite IH. reflexivity.
  - destruct (readlines rest) as [|line lines] eqn:E.
    + rewrite (readlines_nil _ E). reflexivity.
    + rewrite concat_cons, IH. reflexivity.
Qed.

(** One call of [execute_query_safely], run to its end. *)
Lemma execute_query_safely_run server sql w :
  execute_query_safely server sql w
  = match server (sent w) sql with
    | None =>
        (inl tt, mkWorld (files w) (sent w ++ [sql]) (cursors w) (stdout w))
    | Some message =>
        (inr (DatabaseError
                match server (sent w ++ [sql]) "rollback;" with
                | None => message
                | Some message' => message'
                end),
         mkWorld (files w) ((sent w ++ [sql]) ++ ["rollback;"]) (cursors w) (stdout w))
    end.
Proof.
  unfold execute_query_safely, bindM, try_finally, try_except, cursor, execute, close,
    raise, ret.
  cbn [files sent cursors stdout].
  destruct (server (sent w) sql) as [message|]; cbn [files sent cursors stdout pred].
  - destruct (server (sent w ++ [sql]) "rollback;"); reflexivity.
  - reflexivity.
Qed.

(** The translation leaves no carriage return, and leaves a text without
    carriage return as it is. *)
Lemma universal_newlines_no_cr text : has_cr (universal_newlines text) = false.
Proof.
  assert (G : forall n text, String.length text <= n ->
                has_cr (universal_newlines text) = false).
  { induction n as [|n IH]; intros [|c rest] L; cbn [String.length] in L;
      try reflexivity; try (exfalso; lia).
    cbn [universal_newlines]. destruct (Ascii.eqb c "013") eqn:E.
    - destruct rest as [|c' rest']; [reflexivity|].
      destruct (Ascii.eqb c' "010"); cbn [has_cr]; cbn [String.length] in L.
      + apply IH. lia.
      + apply (IH (String c' rest')). cbn [String.length]. lia.
    - cbn [has_cr]. rewrite E. apply IH. lia. }
  apply (G (String.length text)). lia.
Qed.

Lemma universal_newlines_plain text :
  has_cr text = false -> universal_newlines text = text.
Proof.
  induction text as [|c rest IH]; [reflexivity|]. cbn [has_cr universal_newlines].
  intros H. apply orb_false_elim in H. destruct H as [H1 H2].
  rewrite H1, (IH H2). reflexivity.
Qed.

(** One call of [generate_materialized_view], run to its end. *)
Lemma generate_materialized_view_run server path schema w :
  generate_materialized_view server path schema w
  = match files w path with
    | None => (inr (OSError path), w)
    | Some stored =>
        let text := universal_newlines stored in
        let announced :=
          (stdout w ++ ("Generating materialized view using " ++ path ++ " ...") ++ " ")%string in
        match server (sent w) (schema ++ text)%string with
        | None =>
            (inl tt,
             mkWorld (files w) (sent w ++ [(schema ++ text)%string]) (cursors w)
               (announced ++ "done." ++ newline)%string)
        | Some message =>
            (inr (DatabaseError
                    match server (sent w ++ [(schema ++ text)%string]) "rollback;" with
                    | None => message
                    | Some message' => message'
                    end),
             mkWorld (files w) ((sent w ++ [(schema ++ text)%string]) ++ ["rollback;"])
               (cursors w) announced)
        end
    end.
Proof.
  unfold generate_materialized_view, bindM at 1, open_readlines.
  destruct (files w path) as [stored|] eqn:F; [|reflexivity].
  rewrite concat_readlines. unfold bindM, print.
  rewrite execute_query_safely_run. cbn [files sent cursors stdout]. cbn zeta.
  destruct (server (sent w) (schema ++ universal_newlines stored)%string); reflexivity.
Qed.

End DatabaseFacts.

(** ** The sentinel pass *)

Module PassFacts.

Import Numpy NumpyFacts Pandas PandasFacts Encoding Notebook Spec Properties ReducerFacts
  FloatFacts SentinelFacts CuratorFacts.

Lemma normalize_free (x : float) : PrimFloat.eqb (normalize x) (-1)%float = false.
Proof.
  unfold normalize, replace_cell.
  destruct (PrimFloat.eqb x (-1)%float) eqn:E; [|exact E].
  apply eqb_missing_l. reflexivity.
Qed.

Lemma normalize_twice (x : float) : normalize (normalize x) = normalize x.
Proof.
  unfold normalize at 1. unfold replace_cell. rewrite normalize_free. reflexivity.
Qed.

Lemma replace_series_free s : sentinel_free (replace_series (-1)%float nan s) = true.
Proof.
  destruct s as [l|l]; simpl.
  - unfold no_sentinel. rewrite forallb_forall. intros x Hx.
    apply in_map_iff in Hx. destruct Hx as (y & <- & _).
    change (replace_cell (-1)%float nan y) with (normalize y).
    rewrite normalize_free. reflexivity.
  - rewrite forallb_forall. intros x Hx.
    apply in_map_iff in Hx. destruct Hx as (y & <- & _).
    destruct y; try reflexivity.
    change (replace_cell (-1)%float nan x) with (normalize x).
    rewrite normalize_free. reflexivity.
Qed.

Lemma replace_series_twice s :
  replace_series (-1)%float nan (replace_series (-1)%float nan s)
  = replace_series (-1)%float nan s.
Proof.
  destruct s as [l|l]; simpl; f_equal; rewrite map_map; apply map_ext; intros x.
  - apply normalize_twice.
  - destruct x; try reflexivity. f_equal. apply normalize_twice.
Qed.

(** A column without the sentinel is left as it is. *)
Lemma replace_series_id s :
  sentinel_free s = true -> replace_series (-1)%float nan s = s.
Proof.
  destruct s as [l|l]; simpl; intros F; f_equal.
  - apply normalize_no_sentinel. exact F.
  - rewrite <- (map_id l) at 2. apply map_ext_in. intros o Ho.
    rewrite forallb_forall in F. specialize (F o Ho).
    destruct o; try reflexivity. unfold replace_cell.
    destruct (PrimFloat.eqb x (-1)%float); [discriminate F|reflexivity].
Qed.

End PassFacts.

(** ** The join *)

Module MergeFacts.

Import Numpy NumpyFacts Pandas PandasFacts Notebook Spec Properties Merge ReducerFacts
  FilterFacts CuratorFacts.

(** *** Sorted lists *)

Lemma sorted_app {B : Type} (S : B -> B -> Prop) u v :
  StronglySorted S u -> StronglySorted S v ->
  (forall p q, In p u -> In q v -> S p q) -> StronglySorted S (u ++ v).
Proof.
  induction 1 as [|p u Hu IH Hp]; intros Hv Hc; cbn [app]; [exact Hv|].
  constructor.
  - apply IH; [exact Hv|]. intros p' q Hp' Hq. apply Hc; [right; exact Hp'|exact Hq].
  - apply Forall_app. split; [exact Hp|]. apply Forall_forall. intros q Hq.
    apply Hc; [left; reflexivity|exact Hq].
Qed.

Lemma sorted_flat_map {A B : Type} (R : A -> A -> Prop) (S : B -> B -> Prop)
  (f : A -> list B) l :
  StronglySorted R l ->
  (forall a, In a l -> StronglySorted S (f a)) ->
  (forall a b p q, In a l -> In b l -> R a b -> In p (f a) -> In q (f b) -> S p q) ->
  StronglySorted S (flat_map f l).
Proof.
  induction 1 as [|a l Hl IH Ha]; intros Hf Hc; cbn [flat_map]; [constructor|].
  rewrite Forall_forall in Ha. apply sorted_app.
  - apply Hf. left. reflexivity.
  - apply IH.
    + intros b Hb. apply Hf. right. exact Hb.
    + intros b b' p q Hb Hb'. apply Hc; right; assumption.
  - intros p q Hp Hq. apply in_flat_map in Hq. destruct Hq as (b & Hb & Hq).
    apply (Hc a b); [left; reflexivity|right; exact Hb|apply Ha, Hb|exact Hp|exact Hq].
Qed.

Lemma sorted_map {A B : Type} (R : A -> A -> Prop) (S : B -> B -> Prop) (f : A -> B) l :
  StronglySorted R l ->
  (forall a b, In a l -> In b l -> R a b -> S (f a) (f b)) ->
  StronglySorted S (map f l).
Proof.
  induction 1 as [|a l Hl IH Ha]; intros Hc; cbn [map]; [constructor|].
  rewrite Forall_forall in Ha. constructor.
  - apply IH. intros b b' Hb Hb'. apply Hc; right; assumption.
  - apply Forall_forall. intros q Hq. apply in_map_iff in Hq. destruct Hq as (b & <- & Hb).
    apply Hc; [left; reflexivity|right; exact Hb|apply Ha, Hb].
Qed.

Lemma sorted_weaken {A : Type} (R S : A -> A -> Prop) l :
  StronglySorted R l ->
  (forall a b, In a l -> In b l -> R a b -> S a b) ->
  StronglySorted S l.
Proof.
  intros H Hc. rewrite <- (map_id l). apply (sorted_map R S (fun a => a) l H Hc).
Qed.

Lemma sorted_filter {A : Type} (R : A -> A -> Prop) (t : A -> bool) l :
  StronglySorted R l -> StronglySorted R (filter t l).
Proof.
  induction 1 as [|a l Hl IH Ha]; cbn [filter]; [constructor|].
  destruct (t a); [|exact IH]. constructor; [exact IH|].
  rewrite Forall_forall in *. intros b Hb. apply filter_In in Hb. apply Ha, Hb.
Qed.

Lemma sorted_nth {A : Type} (R : A -> A -> Prop) l r r' p p' :
  StronglySorted R l -> r < r' ->
  nth_error l r = Some p -> nth_error l r' = Some p' -> R p p'.
Proof.
  intros H. revert r r'. induction H as [|a l Hl IH Ha]; intros r r' L N N'.
  - destruct r; discriminate N.
  - destruct r' as [|r']; [lia|]. cbn [nth_error] in N'. destruct r as [|r].
    + cbn [nth_error] in N. injection N as <-. rewrite Forall_forall in Ha.
      apply Ha, (nth_error_In _ _ N').
    + cbn [nth_error] in N. apply (IH r r'); [lia|exact N|exact N'].
Qed.

(** *** The pairs of matching rows *)

Lemma In_matches x ks j0 j :
  In j (matches x ks j0) <-> j0 <= j /\ nth_error ks (j - j0) = Some x.
Proof.
  revert j0; induction ks as [|y ks IH]; intros j0; cbn [matches].
  - split; [contradiction|]. intros (_ & H). destruct (j - j0); discriminate H.
  - destruct (Z.eqb_spec x y) as [<-|D]; [cbn [In]|]; rewrite IH; split.
    + intros [<-|(L & N)].
      * rewrite Nat.sub_diag. split; [lia|reflexivity].
      * split; [lia|]. replace (j - j0) with (S (j - S j0)) by lia. exact N.
    + intros (L & N). destruct (Nat.eq_dec j0 j) as [E|E]; [left; exact E|right].
      split; [lia|]. replace (j - j0) with (S (j - S j0)) in N by lia. exact N.
    + intros (L & N). split; [lia|].
      replace (j - j0) with (S (j - S j0)) by lia. exact N.
    + intros (L & N). destruct (Nat.eq_dec j0 j) as [E|E].
      * subst j. rewrite Nat.sub_diag in N. injection N as N. congruence.
      * split; [lia|]. replace (j - j0) with (S (j - S j0)) in N by lia. exact N.
Qed.

Lemma matches_sorted x ks j0 : StronglySorted Nat.lt (matches x ks j0).
Proof.
  revert j0; induction ks as [|y ks IH]; intros j0; cbn [matches]; [constructor|].
  destruct (Z.eqb x y); [|apply IH].
  constructor; [apply IH|]. apply Forall_forall. intros j Hj. apply In_matches in Hj. lia.
Qed.

Lemma In_first_seen x ks : In x (first_seen ks) <-> In x ks.
Proof.
  induction ks as [|y ks IH]; cbn [first_seen In]; [tauto|].
  rewrite filter_In, IH. split.
  - intros [E|[I _]]; auto.
  - intros [E|I]; [left; exact E|].
    destruct (Z.eq_dec y x) as [E|E]; [left; exact E|right].
    split; [exact I|]. apply negb_true_iff, Z.eqb_neq. congruence.
Qed.

(** The distinct keys come in the order of their first rows. *)
Lemma first_seen_sorted ks :
  StronglySorted (fun x y => first_index x ks < first_index y ks) (first_seen ks).
Proof.
  induction ks as [|a ks IH]; cbn [first_seen]; [constructor|].
  assert (K : forall y, In y (filter (fun y => negb (Z.eqb y a)) (first_seen ks)) ->
                        first_index y (a :: ks) = S (first_index y ks)).
  { intros y Hy. apply filter_In in Hy. destruct Hy as [_ Hy]. cbn [first_index].
    apply negb_true_iff in Hy. rewrite Hy. reflexivity. }
  constructor.
  - apply (sorted_weaken (fun x y => first_index x ks < first_index y ks)).
    + apply sorted_filter, IH.
    + intros x y Hx Hy L. rewrite (K x Hx), (K y Hy). lia.
  - apply Forall_forall. intros y Hy. rewrite (K y Hy). cbn [first_index].
    rewrite Z.eqb_refl. lia.
Qed.

(** The first row of the key of a row is the row itself when no key is
    repeated. *)
Lemma first_index_nth ks i x :
  NoDup ks -> nth_error ks i = Some x -> first_index x ks = i.
Proof.
  intros D. revert i. induction D as [|y ks Hy D IH]; intros i N.
  - destruct i; discriminate N.
  - cbn [first_index]. destruct i as [|i]; cbn [nth_error] in N.
    + injection N as ->. rewrite Z.eqb_refl. reflexivity.
    + destruct (Z.eqb_spec x y) as [->|E].
      * contradiction Hy. apply (nth_error_In _ _ N).
      * rewrite (IH i N). reflexivity.
Qed.

(** The pairs of one key. *)
Lemma In_block x lk rk p :
  In p (flat_map (fun i => map (pair i) (matches x rk 0)) (matches x lk 0))
  <-> nth_error lk (fst p) = Some x /\ nth_error rk (snd p) = Some x.
Proof.
  rewrite in_flat_map. split.
  - intros (i & Hi & Hp). apply in_map_iff in Hp. destruct Hp as (j & <- & Hj).
    apply In_matches in Hi, Hj. rewrite Nat.sub_0_r in Hi, Hj. cbn [fst snd]. tauto.
  - intros [Hl Hr]. exists (fst p). split.
    + apply In_matches. rewrite Nat.sub_0_r. split; [lia|exact Hl].
    + apply in_map_iff. exists (snd p). split; [destruct p; reflexivity|].
      apply In_matches. rewrite Nat.sub_0_r. split; [lia|exact Hr].
Qed.

Lemma block_sorted x lk rk :
  StronglySorted
    (fun p q : nat * nat => fst p < fst q \/ (fst p = fst q /\ snd p < snd q))
    (flat_map (fun i => map (pair i) (matches x rk 0)) (matches x lk 0)).
Proof.
  apply (sorted_flat_map Nat.lt).
  - apply matches_sorted.
  - intros i _. apply (sorted_map Nat.lt); [apply matches_sorted|].
    intros j j' _ _ L. right. cbn [fst snd]. split; [reflexivity|exact L].
  - intros i i' p q _ _ L Hp Hq.
    apply in_map_iff in Hp, Hq. destruct Hp as (j & <- & _). destruct Hq as (j' & <- & _).
    left. exact L.
Qed.

(** The pairs are exactly the pairs of rows with the same key. *)
Lemma In_join_pairs lk rk i j :
  In (i, j) (join_pairs lk rk)
  <-> exists x, nth_error lk i = Some x /\ nth_error rk j = Some x.
Proof.
  unfold join_pairs. rewrite in_flat_map. split.
  - intros (x & _ & H). apply In_block in H. exists x. exact H.
  - intros (x & Hl & Hr). exists x. split.
    + apply In_first_seen, (nth_error_In _ _ Hl).
    + apply In_block. split; assumption.
Qed.

(** The pairs come grouped by key, the keys in the order of their first
    rows on the left; each pair occurs once. *)
Lemma join_pairs_sorted lk rk : StronglySorted (row_before lk) (join_pairs lk rk).
Proof.
  unfold join_pairs.
  apply (sorted_flat_map (fun x y => first_index x lk < first_index y lk)).
  - apply first_seen_sorted.
  - intros x _. apply (sorted_weaken _ _ _ (block_sorted x lk rk)).
    intros p q Hp Hq L. apply In_block in Hp, Hq.
    exists x, x. split; [apply Hp|]. split; [apply Hq|]. right. split; [reflexivity|exact L].
  - intros x y p q _ _ L Hp Hq. apply In_block in Hp, Hq.
    exists x, y. split; [apply Hp|]. split; [apply Hq|]. left. exact L.
Qed.

Lemma empty_index (l : list Z) : (length l =? 0) = true <-> l = [].
Proof. destruct l; cbn; split; congruence. Qed.

(** Cells taken at given positions. *)
Lemma traverse_nth {A B : Type} (f : A -> option B) ps r k p :
  traverse f ps = Some r -> nth_error ps k = Some p ->
  exists v, f p = Some v /\ nth_error r k = Some v.
Proof.
  revert r k; induction ps as [|q ps IH]; intros r k T N; [destruct k; discriminate N|].
  cbn [traverse] in T. inv_bind T. inv_bind T. injection T as <-.
  destruct k as [|k]; cbn [nth_error] in *.
  - injection N as <-. eauto.
  - apply (IH _ _ E0 N).
Qed.

Lemma take_cells ps s s' k p :
  take ps s = Some s' -> nth_error ps k = Some p ->
  nth_error (cells s') k = nth_error (cells s) p.
Proof.
  intros T N. destruct s as [l|l]; cbn [take] in T;
    destruct (traverse (nth_error l) ps) as [r|] eqn:E; try discriminate T;
    cbn [option_map] in T; injection T as <-;
    destruct (traverse_nth _ _ _ _ _ E N) as (v & V & R); cbn [cells].
  - rewrite !nth_error_map, V, R. reflexivity.
  - congruence.
Qed.

(** A column of a frame whose columns were all taken at the same positions,
    the names being kept. *)
Lemma lookup_taken (g : string -> string) ps cols cols' n :
  traverse (fun c => s <- take ps (snd c) ;; Some (g (fst c), s)) cols = Some cols' ->
  (forall c, In c cols -> g (fst c) = fst c) ->
  lookup n cols' = (s <- lookup n cols ;; take ps s).
Proof.
  revert cols'; induction cols as [|[m s] cols IH]; intros cols' T G; cbn [traverse] in T.
  - injection T as <-. reflexivity.
  - inv_bind T. inv_bind T. inv_bind E. injection E as <-. injection T as <-.
    pose proof (G (m, s) (or_introl eq_refl)) as Gm. cbn [fst snd] in *.
    rewrite Gm. cbn [lookup].
    destruct (String.eqb n m); [cbn [bind]; congruence|].
    apply IH; [exact E0|]. intros c I. apply G. right. exact I.
Qed.

Lemma names_taken (g : string -> string) ps cols cols' :
  traverse (fun c => s <- take ps (snd c) ;; Some (g (fst c), s)) cols = Some cols' ->
  map fst cols' = map g (map fst cols).
Proof.
  revert cols'; induction cols as [|[m s] cols IH]; intros cols' T; cbn [traverse] in T.
  - injection T as <-. reflexivity.
  - inv_bind T. inv_bind T. inv_bind E. injection E as <-. injection T as <-.
    cbn [map fst]. rewrite (IH _ E0). reflexivity.
Qed.

Lemma lookup_app n (a b : list (string * Series)) :
  lookup n (a ++ b) = match lookup n a with Some s => Some s | None => lookup n b end.
Proof.
  induction a as [|[m s] a IH]; cbn [app lookup]; [reflexivity|].
  destruct (String.eqb n m); auto.
Qed.

Lemma lookup_filter_key key n cols :
  n <> key ->
  lookup n (filter (fun c : string * Series => negb (String.eqb (fst c) key)) cols)
  = lookup n cols.
Proof.
  intros N. induction cols as [|[m s] cols IH]; cbn [filter lookup fst]; [reflexivity|].
  destruct (String.eqb_spec m key) as [->|D]; cbn [negb lookup].
  - apply String.eqb_neq in N. rewrite N. exact IH.
  - destruct (String.eqb n m); auto.
Qed.

Lemma lookup_mem n cols s : lookup n cols = Some s -> mem n (map fst cols) = true.
Proof.
  intros L. change (map fst cols) with (columns {| index := []; data := cols |}).
  rewrite mem_columns. unfold col. cbn [data]. rewrite L. reflexivity.
Qed.

Lemma mem_lookup n cols : mem n (map fst cols) = false -> lookup n cols = None.
Proof.
  intros M. destruct (lookup n cols) eqn:L; [|reflexivity].
  rewrite (lookup_mem _ _ _ L) in M. discriminate M.
Qed.

Lemma names_without_key key (cols : list (string * Series)) :
  map fst (filter (fun c => negb (String.eqb (fst c) key)) cols)
  = filter (fun n => negb (String.eqb n key)) (map fst cols).
Proof.
  induction cols as [|[m s] cols IH]; cbn [filter map fst]; [reflexivity|].
  destruct (negb (String.eqb m key)); cbn [map fst]; rewrite IH; reflexivity.
Qed.

(** The header of a merged frame. *)
Lemma merge_inner_columns key left right out :
  merge_inner key left right = Some out ->
  let shared (n : string) :=
    negb (String.eqb n key) && mem n (columns left) && mem n (columns right) in
  let other (n : string) := negb (String.eqb n key) in
  columns out
  = if length (index left) =? 0
    then map (fun n => if shared n then (n ++ "_x")%string else n)
           (filter other (columns left))
         ++ map (fun n => if shared n then (n ++ "_y")%string else n) (columns right)
    else map (fun n => if shared n then (n ++ "_x")%string else n) (columns left)
         ++ map (fun n => if shared n then (n ++ "_y")%string else n)
              (filter other (columns right)).
Proof.
  unfold merge_inner. intros H.
  do 4 (apply bind_Some in H; destruct H as (? & _ & H)). cbn zeta in H.
  apply bind_Some in H. destruct H as (lcols & L & H).
  apply bind_Some in H. destruct H as (rcols & R & H).
  injection H as <-. cbn zeta.
  unfold columns at 1. cbn [data]. rewrite map_app.
  rewrite (names_taken
             (fun m => if negb (String.eqb m key) && mem m (columns left)
                          && mem m (columns right)
                       then (m ++ "_x")%string else m) _ _ _ L).
  rewrite (names_taken
             (fun m => if negb (String.eqb m key) && mem m (columns left)
                          && mem m (columns right)
                       then (m ++ "_y")%string else m) _ _ _ R).
  destruct (length (index left) =? 0); rewrite names_without_key; reflexivity.
Qed.

Lemma lookup_key_filtered key (cols : list (string * Series)) :
  lookup key (filter (fun c => negb (String.eqb (fst c) key)) cols) = None.
Proof.
  induction cols as [|[m s] cols IH]; cbn [filter lookup fst]; [reflexivity|].
  destruct (String.eqb_spec m key) as [->|D]; cbn [negb lookup]; [exact IH|].
  destruct (String.eqb_spec key m) as [->|_]; [contradiction D; reflexivity|exact IH].
Qed.

(** Without a shared name no column is renamed. *)
Lemma share_only_left key left right c :
  share_only key left right = true -> In c (data left) ->
  negb (String.eqb (fst c) key) && mem (fst c) (columns left) && mem (fst c) (columns right)
  = false.
Proof.
  unfold share_only. intros S I. rewrite forallb_forall in S.
  specialize (S (fst c) (in_map fst _ _ I)).
  destruct (String.eqb (fst c) key); [reflexivity|]. cbn [orb negb andb] in *.
  destruct (mem (fst c) (columns right)); [discriminate S|].
  apply andb_false_r.
Qed.

Lemma share_only_right key left right n :
  share_only key left right = true -> n <> key ->
  mem n (columns right) = true -> mem n (columns left) = false.
Proof.
  unfold share_only. intros S N M. rewrite forallb_forall in S.
  apply not_true_is_false. intros L. unfold mem in L.
  apply existsb_exists in L. destruct L as (m & I & E). apply String.eqb_eq in E. subst m.
  specialize (S n I). apply String.eqb_neq in N. rewrite N, M in S. discriminate S.
Qed.

Lemma In_mem (c : string * Series) cols : In c cols -> mem (fst c) (map fst cols) = true.
Proof.
  intros I. unfold mem. apply existsb_exists. exists (fst c).
  split; [apply in_map; exact I|apply String.eqb_refl].
Qed.

Lemma taken_defined (g : string -> string) ps cols cols' c :
  traverse (fun c => s <- take ps (snd c) ;; Some (g (fst c), s)) cols = Some cols' ->
  In c cols -> take ps (snd c) <> None.
Proof.
  revert cols'; induction cols as [|d cols IH]; intros cols' T I; [contradiction|].
  cbn [traverse] in T. inv_bind T. inv_bind T. inv_bind E.
  destruct I as [->|I]; [congruence|]. apply (IH _ E0 I).
Qed.

(** A merged frame, taken apart: the key column of the left frame and the
    other columns of the right frame when the left frame has rows, the other
    columns of the left frame and every column of the right frame when it
    has none. *)
Lemma merge_inner_Some key left right out :
  merge_inner key left right = Some out ->
  share_only key left right = true ->
  exists lkey lk rkey rk,
    col key left = Some lkey /\ keys lkey = Some lk
    /\ col key right = Some rkey /\ keys rkey = Some rk
    /\ index out = map Z.of_nat (seq 0 (length (join_pairs lk rk)))
    /\ (forall n s, n <> key \/ index left <> [] -> col n left = Some s ->
          col n out = take (map fst (join_pairs lk rk)) s
          /\ take (map fst (join_pairs lk rk)) s <> None)
    /\ (forall n s, n <> key \/ index left = [] -> col n right = Some s ->
          col n out = take (map snd (join_pairs lk rk)) s
          /\ take (map snd (join_pairs lk rk)) s <> None).
Proof.
  unfold merge_inner. intros H S.
  apply bind_Some in H. destruct H as (lkey & Cl & H).
  apply bind_Some in H. destruct H as (lk & Vl & H).
  apply bind_Some in H. destruct H as (rkey & Cr & H).
  apply bind_Some in H. destruct H as (rk & Vr & H).
  cbn zeta in H.
  apply bind_Some in H. destruct H as (lcols & L & H).
  apply bind_Some in H. destruct H as (rcols & R & H).
  injection H as <-.
  exists lkey, lk, rkey, rk.
  split; [exact Cl|]. split; [exact Vl|]. split; [exact Cr|]. split; [exact Vr|].
  split; [reflexivity|].
  set (ps := join_pairs lk rk) in *.
  set (other := fun c : string * Series => negb (String.eqb (fst c) key)) in *.
  set (gl := fun m : string =>
               if negb (String.eqb m key) && mem m (columns left) && mem m (columns right)
               then (m ++ "_x")%string else m) in *.
  set (gr := fun m : string =>
               if negb (String.eqb m key) && mem m (columns left) && mem m (columns right)
               then (m ++ "_y")%string else m) in *.
  set (lsrc := if length (index left) =? 0 then filter other (data left) else data left)
    in *.
  set (rsrc := if length (index left) =? 0 then data right else filter other (data right))
    in *.
  assert (Il : forall c, In c lsrc -> In c (data left)).
  { intros c. unfold lsrc. destruct (length (index left) =? 0); [|trivial].
    intros I. apply filter_In in I. apply I. }
  assert (Ir : forall c, In c rsrc -> In c (data right)).
  { intros c. unfold rsrc. destruct (length (index left) =? 0); [trivial|].
    intros I. apply filter_In in I. apply I. }
  assert (Gl : forall c, In c (data left) -> gl (fst c) = fst c).
  { intros c I. unfold gl. rewrite (share_only_left _ _ _ _ S I). reflexivity. }
  assert (Gr : forall c, In c (data right) -> gr (fst c) = fst c).
  { intros c I. unfold gr. destruct (String.eqb_spec (fst c) key) as [E|N];
      [reflexivity|]. cbn [negb andb].
    rewrite (share_only_right key left right (fst c) S N (In_mem _ _ I)). reflexivity. }
  assert (HL : forall n, lookup n lcols = (s <- lookup n lsrc ;; take (map fst ps) s)).
  { intros n. apply (lookup_taken gl _ _ _ _ L). intros c I. apply Gl, Il, I. }
  assert (HR : forall n, lookup n rcols = (s <- lookup n rsrc ;; take (map snd ps) s)).
  { intros n. apply (lookup_taken gr _ _ _ _ R). intros c I. apply Gr, Ir, I. }
  assert (Sl : forall n, n <> key \/ index left <> [] ->
                         lookup n lsrc = lookup n (data left)).
  { intros n Hn. unfold lsrc. destruct (length (index left) =? 0) eqn:Z; [|reflexivity].
    apply empty_index in Z. destruct Hn as [Hn|Hn]; [|contradiction].
    apply lookup_filter_key, Hn. }
  assert (Sr : forall n, n <> key \/ index left = [] ->
                         lookup n rsrc = lookup n (data right)).
  { intros n Hn. unfold rsrc. destruct (length (index left) =? 0) eqn:Z; [reflexivity|].
    destruct Hn as [Hn|Hn]; [apply lookup_filter_key, Hn|].
    apply empty_index in Hn. congruence. }
  split.
  - intros n s Hn C. unfold col in *. cbn [data]. rewrite lookup_app, HL, (Sl n Hn), C.
    cbn [bind].
    assert (D : take (map fst ps) s <> None).
    { apply (taken_defined gl _ _ _ (n, s) L). apply lookup_In. rewrite (Sl n Hn). exact C. }
    split; [|exact D]. destruct (take (map fst ps) s); [reflexivity|contradiction].
  - intros n s Hn C. unfold col in *. cbn [data]. rewrite lookup_app, HL.
    assert (N : lookup n lsrc = None).
    { destruct (String.eqb_spec n key) as [->|Nk].
      - destruct Hn as [Hn|Hn]; [contradiction Hn; reflexivity|].
        unfold lsrc. apply empty_index in Hn. rewrite Hn. apply lookup_key_filtered.
      - rewrite (Sl n (or_introl Nk)). apply mem_lookup.
        apply (share_only_right key left right); [exact S|exact Nk|].
        apply (lookup_mem _ _ _ C). }
    rewrite N. cbn [bind]. rewrite HR, (Sr n Hn), C. cbn [bind].
    split; [reflexivity|].
    apply (taken_defined gr _ _ _ (n, s) R). apply lookup_In. rewrite (Sr n Hn). exact C.
Qed.

End MergeFacts.

(** ** The outputs of the curation and separation cells *)

Module SeparationFacts.

Import Numpy NumpyFacts Pandas PandasFacts Encoding Notebook Spec Properties ReducerFacts
  FloatFacts SentinelFacts FilterFacts CuratorFacts EncodingFacts PassFacts.

(** Comparing with a string does not see the sentinel pass. *)
Lemma eq_str_replace old new s t : eq_str (replace_series old new s) t = eq_str s t.
Proof.
  destruct s as [l|l]; simpl; rewrite map_map; apply map_ext; intros x;
    [reflexivity|destruct x; reflexivity].
Qed.

Lemma size_replace_series old new s : size (replace_series old new s) = size s.
Proof. destruct s; simpl; apply length_map. Qed.

(** A column found after the indicator columns were appended, under a name
    that is not theirs, is a column of the frame they were appended to. *)
Lemma concat_named s dummies (o : option Series) n c :
  get_dummies_drop_first s "adx" = Some dummies ->
  named_adx n = false ->
  match o with Some s0 => Some s0 | None => lookup n dummies end = Some c ->
  o = Some c.
Proof.
  intros D N H. destruct o; [exact H|].
  rewrite (lookup_adx_dummies _ _ _ D N) in H. discriminate H.
Qed.

Lemma separated_Some cohort curated sep :
  feature_curator cohort = Some curated -> separate_label curated = Some sep ->
  exists adx adx_dummies eyes motor verbal eyes_motor gcs outcome pred,
    col "admit_diagnosis" cohort = Some adx
    /\ get_dummies_drop_first (replace_series (-1)%float nan adx) "adx" = Some adx_dummies
    /\ col "gcs_eyes" cohort = Some eyes
    /\ col "gcs_motor" cohort = Some motor
    /\ col "gcs_verbal" cohort = Some verbal
    /\ add_series (replace_series (-1)%float nan eyes) (replace_series (-1)%float nan motor)
       = Some eyes_motor
    /\ add_series eyes_motor (replace_series (-1)%float nan verbal) = Some gcs
    /\ size gcs = length (index cohort)
    /\ col "hospital_expiration" cohort = Some outcome
    /\ label sep = astype_int (eq_str outcome "EXPIRED")
    /\ col "apache_prediction" cohort = Some pred
    /\ apache_pred sep = replace_series (-1)%float nan pred
    /\ index (features sep) = index cohort
    /\ forall n, col n (features sep)
         = curated_view (fun m => col m cohort) adx_dummies gcs n.
Proof.
  unfold feature_curator, relabel_and_prune, drop_features, encode_admit_diagnosis,
    combine_gcs, separate_label.
  intros H S. inv_binds. injection S as <-. cbn [features label apache_pred].
  match goal with
  | H : assign "gcs" ?g ?d = Some _ |- _ =>
      assert (Sz : size g = length (index d))
        by (unfold assign in H; destruct (size g =? length (index d)) eqn:Q;
            [apply Nat.eqb_eq in Q; exact Q|discriminate H])
  end.
  open_frames.
  repeat match goal with
         | E : col _ (concat_columns _ _) = Some _ |- _ => rewrite col_concat in E
         | E : ?lhs = Some _, Hd : forall n, col n ?d = _ |- _ =>
             match lhs with
             | context [col ?m d] => rewrite (Hd m) in E; eval_names_in E
             end
         end.
  match goal with
  | E : col "admit_diagnosis" (replace _ _ _) = Some _ |- _ =>
      rewrite col_replace in E;
      destruct (col "admit_diagnosis" cohort) as [adx|] eqn:A; [|discriminate E];
      injection E as <-
  end.
  repeat match goal with
         | D : get_dummies_drop_first _ "adx" = Some ?dm,
           E : match ?o with Some s0 => Some s0 | None => lookup ?n ?dm end = Some _ |- _ =>
             apply (concat_named _ dm o n _ D eq_refl) in E
         | E : col _ (replace _ _ _) = Some _ |- _ => rewrite col_replace in E
         end.
  repeat match goal with
         | E : option_map _ (col ?n cohort) = Some _ |- _ =>
             let c := fresh "c" in
             destruct (col n cohort) as [c|]; [|discriminate E];
             cbn [option_map] in E; injection E as <-
         end.
  do 9 eexists.
  split; [reflexivity|]. split; [eassumption|].
  split; [reflexivity|]. split; [reflexivity|]. split; [reflexivity|].
  split; [eassumption|]. split; [eassumption|].
  split; [simpl in *; congruence|].
  split; [reflexivity|]. split; [rewrite eq_str_replace; reflexivity|].
  split; [reflexivity|]. split; [reflexivity|].
  split; [simpl in *; congruence|].
  intros n. unfold curated_view, after_drop, after_assign, after_concat, after_replace in *.
  repeat match goal with
         | Hd : forall n, col n ?d = _ |- context [col ?m ?d] => rewrite (Hd m)
         end.
  rewrite col_concat.
  repeat match goal with
         | Hd : forall n, col n ?d = _ |- context [col ?m ?d] => rewrite (Hd m)
         end.
  rewrite col_replace. reflexivity.
Qed.

End SeparationFacts.

(** ** Column names through the cells *)

Module SchemaFacts.

Import Numpy NumpyFacts Pandas PandasFacts Encoding Notebook Spec Properties ReducerFacts
  FilterFacts CuratorFacts EncodingFacts TotalityFacts.

Lemma drop_columns labels df df' :
  drop labels df = Some df' ->
  columns df' = filter (fun n => negb (mem n labels)) (columns df).
Proof.
  unfold drop. destruct (forallb _ labels); [|discriminate].
  intros H; injection H as <-. unfold columns. cbn [data].
  induction (data df) as [|[n s] cols IH]; cbn [filter map fst]; [reflexivity|].
  destruct (negb (mem n labels)); cbn [map fst]; rewrite IH; reflexivity.
Qed.

Lemma set_column_names name s cols :
  map fst (set_column name s cols)
  = if mem name (map fst cols) then map fst cols else map fst cols ++ [name].
Proof.
  unfold mem. induction cols as [|[n s0] cols IH]; cbn [set_column map fst existsb app];
    [reflexivity|].
  destruct (String.eqb name n); cbn [map fst orb]; [reflexivity|].
  rewrite IH. destruct (existsb _ _); reflexivity.
Qed.

Lemma assign_columns name s df df' :
  assign name s df = Some df' ->
  columns df' = if mem name (columns df) then columns df else columns df ++ [name].
Proof.
  unfold assign. destruct (size s =? length (index df)); [|discriminate].
  intros H; injection H as <-. unfold columns. cbn [data]. apply set_column_names.
Qed.

Lemma loc_rows_columns mask df df' : loc_rows mask df = Some df' -> columns df' = columns df.
Proof.
  unfold loc_rows. intros H. inv_bind H. inv_bind H. injection H as <-.
  unfold columns. cbn [data]. clear E.
  revert x0 E0. induction (data df) as [|[n s] cols IH]; intros r E; cbn [traverse] in E.
  - injection E as <-. reflexivity.
  - inv_bind E. inv_bind E. inv_bind E0. injection E0 as <-. injection E as <-.
    cbn [map fst]. rewrite (IH _ E1). reflexivity.
Qed.

Lemma loc_setitem_columns mask name x df df' :
  loc_setitem mask name x df = Some df' -> columns df' = columns df.
Proof.
  unfold loc_setitem. intros H. inv_bind H.
  destruct (length mask =? size x0); [|discriminate].
  apply assign_columns in H. rewrite H, mem_columns, E. reflexivity.
Qed.

Lemma replace_columns old new df : columns (replace old new df) = columns df.
Proof. unfold columns, replace. cbn [data]. rewrite map_map. reflexivity. Qed.

Lemma concat_columns_names a b : columns (concat_columns a b) = columns a ++ map fst b.
Proof. unfold columns, concat_columns. cbn [data]. apply map_app. Qed.

(** The filter cells keep the header. *)
Lemma filter_stage_columns parse df out :
  filter_stage parse df = Some out -> columns out = columns df.
Proof.
  intros H. open_filter_stage H.
  apply loc_setitem_columns in Hd1. apply loc_rows_columns in Hd2, Hd4, Hd5, Hd6, Hd7, H.
  apply assign_columns in Hd3. rewrite mem_columns, Hage2 in Hd3.
  congruence.
Qed.

(** The names of the indicator columns. *)
Lemma dummies_names s dummies :
  get_dummies_drop_first s "adx" = Some dummies ->
  exists l, s = ObjCol l /\ map fst dummies = indicator_names l.
Proof.
  intros D. destruct (get_dummies_Some _ _ _ D) as (l & -> & _ & ->).
  exists l. split; [reflexivity|]. unfold indicator_names. rewrite map_map. reflexivity.
Qed.

Lemma filter_indicator_names labels l :
  forallb (fun n => negb (named_adx n)) labels = true ->
  filter (fun n => negb (mem n labels)) (indicator_names l) = indicator_names l.
Proof.
  intros F. unfold indicator_names.
  induction (tl (levels l)) as [|c cs IH]; cbn [map filter]; [reflexivity|].
  rewrite IH.
  assert (M : mem ("adx_" ++ c) labels = false).
  { unfold mem. apply not_true_is_false. intros E.
    apply existsb_exists in E. destruct E as (n & Hn & E).
    apply String.eqb_eq in E. subst n.
    rewrite forallb_forall in F. specialize (F _ Hn). discriminate F. }
  rewrite M. reflexivity.
Qed.

Lemma mem_indicator_names n l :
  named_adx n = false -> mem n (indicator_names l) = false.
Proof.
  intros N. unfold mem, indicator_names. apply not_true_is_false. intros E.
  apply existsb_exists in E. destruct E as (m & Hm & E).
  apply String.eqb_eq in E. subst m.
  apply in_map_iff in Hm. destruct Hm as (c & <- & _). discriminate N.
Qed.

(** The header after one more [drop] or [assign], computed from the header
    before it. *)
Ltac header_step :=
  match goal with
  | Hc : columns ?d = _, H : drop _ ?d = Some _ |- _ =>
      apply drop_columns in H; rewrite Hc in H;
      match type of H with
      | ?lhs = ?r => let r' := eval vm_compute in r in change (lhs = r') in H
      end
  | Hc : columns ?d = _, H : assign _ _ ?d = Some _ |- _ =>
      apply assign_columns in H; rewrite Hc in H;
      match type of H with
      | ?lhs = ?r => let r' := eval vm_compute in r in change (lhs = r') in H
      end
  end.

(** The header of the reducer's output on the joined table. *)
Lemma reducer_columns junk cohort reduced :
  columns cohort = cohort_columns ->
  abnormal_value_reducer junk cohort = Some reduced ->
  columns reduced
  = filter (fun n => negb (mem n (lab_drop ++
                                   [ "sodium_min"; "sodium_max";
                                     "potassium_min"; "potassium_max";
                                     "wbc_min"; "wbc_max"; "pmn_min"; "pmn_max";
                                     "lymphs_min"; "lymphs_max" ])))
      cohort_columns
    ++ ["sodium"; "potassium"; "wbc"; "pmn"; "lym"].
Proof.
  intros C H. unfold abnormal_value_reducer in H. inv_binds.
  repeat header_step. rewrite H. vm_compute. reflexivity.
Qed.

Lemma filter_app_names (f : string -> bool) (a b : list string) :
  filter f (a ++ b) = filter f a ++ filter f b.
Proof. apply filter_app. Qed.

(** A text column read after the sentinel pass is the column before it. *)
Lemma text_after_pass s l :
  replace_series (-1)%float nan s = ObjCol l -> forallb is_text l = true -> s = ObjCol l.
Proof.
  destruct s as [v|v]; cbn [replace_series]; [discriminate|].
  intros E T. injection E as <-. f_equal.
  rewrite <- (map_id v) at 1. apply map_ext_in. intros o Ho.
  rewrite forallb_forall in T.
  specialize (T _ (in_map _ _ _ Ho)). destruct o; try reflexivity. discriminate T.
Qed.

(** The column the encoder reads. *)
Lemma encoder_input reduced curated :
  feature_curator reduced = Some curated ->
  exists pruned selected l adx_dummies encoded,
    relabel_and_prune reduced = Some pruned
    /\ drop_features pruned = Some selected
    /\ col "admit_diagnosis" reduced = Some (ObjCol l)
    /\ get_dummies_drop_first (ObjCol l) "adx" = Some adx_dummies
    /\ drop ["admit_diagnosis"] (concat_columns selected adx_dummies) = Some encoded
    /\ combine_gcs encoded = Some curated.
Proof.
  intros H. destruct (curator_stages _ _ H) as (pruned & selected & encoded & P & S & E & G).
  pose proof P as P'. pose proof S as S'.
  unfold relabel_and_prune in P'. unfold drop_features in S'.
  unfold encode_admit_diagnosis in E.
  apply bind_Some in E. destruct E as (adx' & Cadx & E).
  apply bind_Some in E. destruct E as (dummies & D & E).
  revert E P S. inv_binds. open_frames. intros E P S.
  repeat match goal with
         | Hd : forall n, col n ?d = _ |- _ =>
             match type of Cadx with
             | col _ d = _ => rewrite Hd in Cadx; eval_names_in Cadx
             end
         end.
  rewrite col_replace in Cadx.
  destruct (col "admit_diagnosis" reduced) as [adx|] eqn:A; [|discriminate Cadx].
  injection Cadx as <-.
  destruct (get_dummies_Some _ _ _ D) as (l & R & T & _).
  pose proof (text_after_pass _ _ R T) as ->. rewrite R in D.
  exists pruned, selected, l, dummies, encoded.
  split; [exact P|]. split; [exact S|]. split; [reflexivity|].
  split; [exact D|]. split; [exact E|exact G].
Qed.

(** The header of the feature matrix on the joined table. *)
Lemma curator_columns junk cohort reduced curated sep :
  columns cohort = cohort_columns ->
  abnormal_value_reducer junk cohort = Some reduced ->
  feature_curator reduced = Some curated -> separate_label curated = Some sep ->
  exists l,
    col "admit_diagnosis" reduced = Some (ObjCol l)
    /\ columns (features sep) = feature_names ++ indicator_names l ++ ["gcs"].
Proof.
  intros C R H S. pose proof (reducer_columns _ _ _ C R) as Hr.
  match type of Hr with
  | ?lhs = ?r => let r' := eval vm_compute in r in change (lhs = r') in Hr
  end.
  destruct (encoder_input _ _ H)
    as (pruned & selected & l & dummies & encoded & P & F & A & D & E & G).
  exists l. split; [exact A|].
  unfold relabel_and_prune in P. unfold drop_features in F.
  unfold combine_gcs in G. unfold separate_label in S. inv_binds.
  injection S as <-. cbn [features].
  rewrite <- (replace_columns (-1)%float nan) in Hr.
  repeat header_step.
  destruct (dummies_names _ _ D) as (l' & El & N). injection El as <-.
  apply drop_columns in E. rewrite concat_columns_names, N in E.
  match goal with Hc : columns selected = _ |- _ => rewrite Hc in E end.
  rewrite filter_app_names, filter_indicator_names in E by reflexivity.
  match type of E with
  | _ = filter ?f ?L ++ _ =>
      let r := eval vm_compute in (filter f L) in change (filter f L) with r in E
  end.
  match goal with
  | Hg : assign "gcs" _ encoded = Some ?d |- _ =>
      apply assign_columns in Hg; rewrite E in Hg;
      rewrite mem_app, mem_indicator_names in Hg by reflexivity;
      cbn [orb] in Hg;
      match type of Hg with
      | _ = (if ?c then _ else _) =>
          let r := eval vm_compute in c in change c with r in Hg
      end;
      cbn iota in Hg
  end.
  repeat match goal with
         | Hc : columns ?d = (_ ++ indicator_names _) ++ _, Hd : drop _ ?d = Some _ |- _ =>
             apply drop_columns in Hd; rewrite Hc in Hd;
             rewrite !filter_app_names, filter_indicator_names in Hd by reflexivity;
             repeat match type of Hd with
                    | context [filter ?f (?x :: ?L)] =>
                        let r := eval vm_compute in (filter f (x :: L)) in
                        change (filter f (x :: L)) with r in Hd
                    end
         end.
  match goal with Hc : columns ?d = _ |- columns ?d = _ => rewrite Hc end.
  rewrite <- app_assoc. reflexivity.
Qed.

Lemma distinct_NoDup l : distinct l = true -> NoDup l.
Proof.
  induction l as [|n l IH]; cbn [distinct]; intros H; constructor.
  - apply andb_prop in H. destruct H as [H _]. intros I.
    assert (M : mem n l = true)
      by (unfold mem; apply existsb_exists; exists n; split;
          [exact I|apply String.eqb_refl]).
    rewrite M in H. discriminate H.
  - apply andb_prop in H. apply IH, H.
Qed.

Lemma In_named l n : forallb (fun m => negb (named_adx m)) l = true -> In n l ->
  named_adx n = false.
Proof.
  intros F I. rewrite forallb_forall in F. specialize (F _ I).
  destruct (named_adx n); [discriminate F|reflexivity].
Qed.

Lemma In_indicator_names n l : In n (indicator_names l) -> named_adx n = true.
Proof.
  unfold indicator_names. intros I. apply in_map_iff in I.
  destruct I as (c & <- & _). reflexivity.
Qed.

Lemma NoDup_indicator_names l : NoDup (indicator_names l).
Proof.
  unfold indicator_names. apply NoDup_map_NoDup_ForallPairs.
  - intros a b _ _ E. injection E as E. exact E.
  - apply NoDup_tl, ascending_NoDup, ascending_levels.
Qed.

Lemma NoDup_header l : NoDup (feature_names ++ indicator_names l ++ ["gcs"]).
Proof.
  apply NoDup_app.
  - apply distinct_NoDup. reflexivity.
  - apply NoDup_app.
    + apply NoDup_indicator_names.
    + constructor; [intros []|constructor].
    + intros n I [<-|[]]. apply In_indicator_names in I. discriminate I.
  - intros n I J. assert (N : named_adx n = false) by (apply (In_named feature_names); auto).
    apply in_app_or in J. destruct J as [J|[<-|[]]].
    + apply In_indicator_names in J. congruence.
    + revert I. apply (proj1 (NoDup_cons_iff "gcs" feature_names)).
      apply distinct_NoDup. reflexivity.
Qed.

End SchemaFacts.

(** ** The composite score *)

Module ScoreFacts.

Import Numpy NumpyFacts Pandas PandasFacts Encoding Notebook Spec Properties ReducerFacts
  FloatFacts SentinelFacts FilterFacts CuratorFacts PassFacts SeparationFacts.

Lemma add_missing_l (m x : float) : missing m = true -> missing (m + x)%float = true.
Proof.
  rewrite !missing_spec. intros H. rewrite add_spec, H. reflexivity.
Qed.

Lemma add_missing_r (x m : float) : missing m = true -> missing (x + m)%float = true.
Proof.
  rewrite !missing_spec. intros H. rewrite add_spec, H.
  destruct (Prim2SF x); reflexivity.
Qed.

Lemma normalize_unrecorded (x : float) :
  unrecorded x = true -> missing (normalize x) = true.
Proof.
  unfold unrecorded, normalize, replace_cell. intros H.
  destruct (PrimFloat.eqb x (-1)%float); [reflexivity|].
  rewrite orb_false_r in H. exact H.
Qed.

Lemma gcs_rule_unrecorded a b c :
  unrecorded a || unrecorded b || unrecorded c = true -> missing (gcs_rule a b c) = true.
Proof.
  unfold gcs_rule. intros H.
  apply orb_prop in H. destruct H as [H|H]; [apply orb_prop in H; destruct H as [H|H]|].
  - apply add_missing_l, add_missing_l, normalize_unrecorded, H.
  - apply add_missing_l, add_missing_r, normalize_unrecorded, H.
  - apply add_missing_r, normalize_unrecorded, H.
Qed.

Lemma add_series_Some a b s :
  add_series a b = Some s ->
  exists x y, values a = Some x /\ values b = Some y /\ length x = length y
              /\ s = FloatCol (map2 PrimFloat.add x y).
Proof.
  unfold add_series. intros H. inv_binds.
  match type of H with
  | (if ?c then _ else _) = _ => destruct c eqn:L; [|discriminate H]
  end.
  injection H as <-. apply Nat.eqb_eq in L. eauto 6.
Qed.

Lemma values_normalized s x :
  values (replace_series (-1)%float nan s) = Some x ->
  exists l, values s = Some l /\ x = map normalize l.
Proof.
  rewrite values_replace. destruct (values s) as [l|]; [|discriminate].
  cbn [option_map]. intros H; injection H as <-. eauto.
Qed.

End ScoreFacts.

(** ** The filter cells as one selection *)

Module SelectionFacts.

Import Numpy NumpyFacts Pandas PandasFacts Encoding Notebook Spec Properties ReducerFacts
  FilterFacts CuratorFacts TotalityFacts.

Lemma compress_nil {A : Type} (mask : list bool) : compress mask (@nil A) = [].
Proof. destruct mask as [|[] mask]; reflexivity. Qed.

Lemma compress_compress {A : Type} (M m : list bool) (l : list A) :
  length m = length M ->
  compress (compress M m) (compress M l) = compress (and_mask M m) l.
Proof.
  unfold and_mask. revert m l; induction M as [|b M IH]; intros [|c m] [|x l] L;
    simpl in *; try discriminate; try reflexivity.
  - rewrite compress_nil. reflexivity.
  - injection L as L. destruct b; simpl; [destruct c|]; simpl; rewrite IH; auto.
Qed.

Lemma length_and_mask (M m : list bool) :
  length m = length M -> length (and_mask M m) = length M.
Proof. intros L. unfold and_mask. apply length_map2. congruence. Qed.

Lemma take_rows_ok mask s :
  length mask = size s ->
  take_rows mask s
  = Some match s with
         | FloatCol l => FloatCol (compress mask l)
         | ObjCol l => ObjCol (compress mask l)
         end.
Proof.
  intros L. destruct s as [l|l]; simpl in *; rewrite (getitem_mask_ok _ _ L); reflexivity.
Qed.

Lemma take_rows_length mask s : length mask <> size s -> take_rows mask s = None.
Proof.
  intros L. destruct (take_rows mask s) as [s'|] eqn:E; [|reflexivity].
  apply take_rows_Some in E. destruct E as [E _]. contradiction.
Qed.

Lemma take_rows_compose (M m : list bool) (s : Series) :
  length m = length M ->
  (s' <- take_rows M s ;; take_rows (compress M m) s') = take_rows (and_mask M m) s.
Proof.
  intros L. destruct (Nat.eq_dec (length M) (size s)) as [E|E].
  - rewrite (take_rows_ok _ _ E). cbn [bind].
    rewrite (take_rows_ok (and_mask M m) s) by (rewrite length_and_mask; assumption).
    rewrite take_rows_ok.
    + destruct s; rewrite compress_compress; auto.
    + destruct s; simpl in *; rewrite !length_compress; congruence.
  - rewrite (take_rows_length _ _ E). cbn [bind]. symmetry.
    apply take_rows_length. rewrite length_and_mask; assumption.
Qed.

(** One filter cell: the test is computed on the rows selected so far, and
    selects among them the rows that the test selects on the whole table. *)
Lemma selection_step base idx M d (t : row_test) name s m s1 m1 d' :
  selection base idx M d ->
  stable t ->
  base name = Some s -> t s = Some m -> length m = length idx ->
  col name d = Some s1 -> t s1 = Some m1 -> loc_rows m1 d = Some d' ->
  selection base idx (and_mask M m) d'.
Proof.
  intros (LM & I & V) St B T Lm C T1 D.
  rewrite V, B in C. cbn [bind] in C.
  rewrite (St _ _ _ _ C T) in T1. injection T1 as <-.
  apply loc_rows_Some in D. destruct D as (_ & I' & V').
  assert (L : length m = length M) by congruence.
  split; [rewrite length_and_mask; assumption|]. split.
  - rewrite I', I. apply compress_compress. exact L.
  - intros n. rewrite V', V. destruct (base n) as [c|]; cbn [bind]; [|reflexivity].
    apply take_rows_compose. exact L.
Qed.

(** The age cells through the substitution of "> 89", the removal of the
    empty strings and the cast. *)
Lemma ne_str_recoded age :
  ne_str (putmask (eq_str age "> 89") 93 age) "" = map nonempty (cells age).
Proof.
  unfold ne_str. destruct age as [l|l]; simpl.
  - induction l as [|x l IH]; simpl; [|rewrite IH]; reflexivity.
  - induction l as [|o l IH]; simpl; [reflexivity|]. rewrite IH. f_equal.
    destruct o as [t| |]; simpl; try reflexivity.
    destruct (String.eqb_spec t "> 89") as [->|]; reflexivity.
Qed.

Lemma traverse_cast_recoded parse (l : list obj) mask r :
  traverse (fun o => match o with
                     | OStr t => parse t
                     | OFloat x => Some x
                     | ONone => Some nan
                     end)
    (compress mask
       (map2 (fun (b : bool) o => if b then OFloat 93 else o)
          (eq_str (ObjCol l) "> 89") l)) = Some r ->
  r = compress mask (map (age_number parse) l).
Proof.
  cbn [eq_str]. revert mask r. induction l as [|o l IH]; intros mask r E.
  - cbn [map map2] in *. rewrite compress_nil in E. rewrite compress_nil.
    cbn [traverse] in E. injection E as <-. reflexivity.
  - destruct mask as [|b mask]; [cbn [compress traverse] in E; injection E as <-; reflexivity|].
    cbn [map map2 compress] in *. destruct b.
    + cbn [traverse] in E. inv_bind E. inv_bind E. injection E as <-.
      rewrite (IH _ _ E1). f_equal.
      destruct o as [t| |]; cbn [age_number].
      * destruct (String.eqb t "> 89"); [injection E0 as <-; reflexivity|].
        rewrite E0. reflexivity.
      * injection E0 as <-. reflexivity.
      * injection E0 as <-. reflexivity.
    + apply (IH _ _ E).
Qed.

Lemma cast_recoded parse age mask s v :
  take_rows mask (putmask (eq_str age "> 89") 93 age) = Some s ->
  astype_float64 parse s = Some (FloatCol v) ->
  v = compress mask (map (age_number parse) (cells age)).
Proof.
  intros T C. apply take_rows_Some in T. destruct T as [_ T].
  destruct age as [l|l]; cbn [putmask] in T; subst s; cbn [astype_float64] in C.
  - injection C as <-. cbn [cells]. rewrite map_map. cbn [age_number]. rewrite map_id.
    f_equal. cbn [eq_str]. induction l as [|x l IH]; cbn [map map2]; [|rewrite IH];
      reflexivity.
  - destruct (traverse _ _) as [r|] eqn:E; [|discriminate C].
    cbn [option_map] in C. injection C as <-.
    apply (traverse_cast_recoded _ _ _ _ E).
Qed.

Lemma length_cells s : length (cells s) = size s.
Proof. destruct s; simpl; [apply length_map|reflexivity]. Qed.

(** The table the criteria are read on: the joined table, with the age
    column in numbers. *)
Lemma filter_stage_exact parse df out :
  filter_ready parse df = true ->
  filter_stage parse df = Some out ->
  exists age M,
    col "age" df = Some age
    /\ eligible parse df = Some M
    /\ selection
         (after_assign "age" (FloatCol (map (age_number parse) (cells age)))
            (fun m => col m df))
         (index df) M out.
Proof.
  intros Rdy H.
  destruct (filter_ready_filterable _ _ Rdy)
    as (R0 & (s_los & l_los & Clos & Vlos) & (s_w & l_w & Cw & Vw)
        & (s_h & l_h & Ch & Vh) & Hadx0).
  open_filter_stage H.
  pose proof (rectangular_col _ _ _ R0 Hage0) as Sage.
  (* cell 14, up to the cast *)
  unfold loc_setitem in Hd1. rewrite Hage0 in Hd1. cbn [bind] in Hd1.
  destruct (length (eq_str age0 "> 89") =? size age0); [|discriminate Hd1].
  apply assign_Some in Hd1. destruct Hd1 as (_ & I1 & V1).
  rewrite V1 in Hage1. unfold after_assign in Hage1. cbn in Hage1.
  injection Hage1 as <-.
  pose proof Hd2 as Hd2'. apply loc_rows_Some in Hd2'.
  destruct Hd2' as (L2 & I2 & V2).
  rewrite ne_str_recoded in *. rewrite I1 in L2, I2.
  rewrite V2, V1 in Hage2. unfold after_assign in Hage2. cbn in Hage2.
  destruct (astype_float64_float _ _ _ Hage3) as [a3 ->].
  pose proof (cast_recoded _ _ _ _ _ Hage2 Hage3) as ->.
  apply assign_Some in Hd3. destruct Hd3 as (_ & I3 & V3).
  set (ages := map (age_number parse) (cells age0)) in *.
  set (base := after_assign "age" (FloatCol ages) (fun m => col m df)).
  assert (S3 : selection base (index df) (map nonempty (cells age0)) d3).
  { split; [exact L2|]. split; [congruence|].
    intros n. rewrite V3. unfold base, after_assign.
    destruct (String.eqb n "age") eqn:En.
    - cbn [bind]. rewrite take_rows_ok; [reflexivity|].
      cbn [size]. unfold ages. rewrite !length_map, length_cells. reflexivity.
    - rewrite V2, V1. unfold after_assign. rewrite En. reflexivity. }
  (* the five tests *)
  set (M4 := and_mask (map nonempty (cells age0)) (map (PrimFloat.leb 18) ages)).
  assert (S4 : selection base (index df) M4 d4).
  { apply (selection_step base (index df) _ d3 adult "age" (FloatCol ages) _ age4 m_adult);
      [exact S3|apply stable_adult|reflexivity|reflexivity| |exact Hage4|exact Hadult
      |exact Hd4].
    unfold ages. rewrite !length_map, length_cells. exact Sage. }
  destruct (ge_ok s_los 240 _ Vlos) as (mlos & Tlos & Llos).
  set (M5 := and_mask M4 mlos).
  assert (S5 : selection base (index df) M5 d5).
  { apply (selection_step base (index df) _ d4 long_stay "unit_los" s_los _ los m_los);
      [exact S4|apply stable_long_stay|exact Clos|exact Tlos| |exact Hlos|exact Hmlos
      |exact Hd5].
    rewrite Llos. apply (rectangular_col _ _ _ R0 Clos). }
  unfold has in Hadx0. destruct (col "admit_diagnosis" df) as [s_adx|] eqn:Cadx;
    [|discriminate Hadx0].
  set (M6 := and_mask M5 (invert (isin s_adx ["S-UGIBLEED"; "S-LGIBLEED"]))).
  assert (S6 : selection base (index df) M6 d6).
  { apply (selection_step base (index df) _ d5 not_surgical "admit_diagnosis" s_adx _ adx
             (invert (isin adx ["S-UGIBLEED"; "S-LGIBLEED"])));
      [exact S5|apply stable_not_surgical|exact Cadx|reflexivity| |exact Hadx|reflexivity
      |exact Hd6].
    unfold invert. rewrite length_map, isin_length.
    apply (rectangular_col _ _ _ R0 Cadx). }
  destruct (plausible_weight_ok s_w _ Vw) as (mw & Tw & Lw).
  assert (W : plausible_weight weight = Some (and_mask w_lo w_hi))
    by (unfold plausible_weight; rewrite Hwlo, Hwhi; reflexivity).
  set (M7 := and_mask M6 mw).
  assert (S7 : selection base (index df) M7 d7).
  { apply (selection_step base (index df) _ d6 plausible_weight "weight" s_w _ weight
             (and_mask w_lo w_hi));
      [exact S6|apply stable_plausible_weight|exact Cw|exact Tw| |exact Hweight|exact W
      |exact Hd7].
    rewrite Lw. apply (rectangular_col _ _ _ R0 Cw). }
  destruct (plausible_height_ok s_h _ Vh) as (mh & Th & Lh).
  assert (Hh : plausible_height height = Some (and_mask h_hi h_lo))
    by (unfold plausible_height; rewrite Hhhi, Hhlo; reflexivity).
  assert (S8 : selection base (index df) (and_mask M7 mh) out).
  { apply (selection_step base (index df) _ d7 plausible_height "height" s_h _ height
             (and_mask h_hi h_lo));
      [exact S7|apply stable_plausible_height|exact Ch|exact Th| |exact Hheight|exact Hh
      |exact H].
    rewrite Lh. apply (rectangular_col _ _ _ R0 Ch). }
  exists age0. eexists. split; [exact Hage0|]. split; [|exact S8].
  unfold eligible. rewrite Hage0. cbn [bind]. fold ages.
  change (adult (FloatCol ages)) with (Some (map (PrimFloat.leb 18) ages)). cbn [bind].
  rewrite Clos; cbn [bind]. unfold long_stay. rewrite Tlos; cbn [bind].
  rewrite Cadx; cbn [bind]. unfold not_surgical at 1; cbn [bind].
  rewrite Cw; cbn [bind]. rewrite Tw; cbn [bind].
  rewrite Ch; cbn [bind]. rewrite Th; cbn [bind]. reflexivity.
Qed.

Lemma In_compress {A : Type} (M : list bool) (l : list A) (x : A) :
  In x (compress M l)
  <-> exists i, nth_error M i = Some true /\ nth_error l i = Some x.
Proof.
  revert l; induction M as [|b M IH]; intros [|y l]; simpl.
  - split; [contradiction|intros ([|i] & H & _); discriminate H].
  - split; [contradiction|intros ([|i] & H & _); discriminate H].
  - split; [destruct b; contradiction|intros ([|i] & _ & H); discriminate H].
  - destruct b; simpl; rewrite IH; split.
    + intros [->|(i & H1 & H2)]; [exists 0; auto|exists (S i); auto].
    + intros ([|i] & H1 & H2); simpl in *; [left; congruence|right; eauto].
    + intros (i & H1 & H2). exists (S i); auto.
    + intros ([|i] & H1 & H2); simpl in *; [discriminate H1|eauto].
Qed.

(** [ValueError]: a cell that the cast cannot read. *)
Lemma traverse_In {A B : Type} (f : A -> option B) l r x :
  traverse f l = Some r -> In x l -> f x <> None.
Proof.
  revert r; induction l as [|y l IH]; intros r E H; [contradiction|].
  cbn [traverse] in E. inv_bind E. inv_bind E.
  destruct H as [->|H]; [congruence|]. apply (IH _ E1 H).
Qed.

(** A text that is neither "> 89" nor empty is still there when the cast
    runs. *)
Lemma In_recoded l t :
  In (OStr t) l -> t <> "> 89" -> t <> "" ->
  In (OStr t)
     (compress (map nonempty l)
        (map2 (fun (b : bool) o => if b then OFloat 93 else o)
           (eq_str (ObjCol l) "> 89") l)).
Proof.
  intros H N1 N2. cbn [eq_str]. induction l as [|o l IH]; [contradiction|].
  cbn [map map2 compress]. destruct H as [->|H].
  - cbn [nonempty]. apply String.eqb_neq in N1, N2. rewrite N1, N2. left. reflexivity.
  - destruct (nonempty o); [right|]; apply (IH H).
Qed.

End SelectionFacts.

(** ** Properties of every column of a frame *)

Module ViewFacts.

Import Numpy NumpyFacts Pandas PandasFacts Encoding Notebook Spec Properties ReducerFacts
  FloatFacts SentinelFacts FilterFacts CuratorFacts PassFacts.

Lemma all_after_drop P labels except v :
  all_except P except v -> all_except P except (after_drop labels v).
Proof.
  intros K n s H E. unfold after_drop in H.
  destruct (mem n labels); [discriminate|]. apply (K n s H E).
Qed.

Lemma all_after_assign P name s0 except v :
  mem name except = true ->
  all_except P except v -> all_except P except (after_assign name s0 v).
Proof.
  intros M K n s H E. unfold after_assign in H.
  destruct (String.eqb_spec n name) as [->|_]; [congruence|]. apply (K n s H E).
Qed.

Lemma all_after_concat P b except v :
  (forall n s, lookup n b = Some s -> P s) ->
  all_except P except v -> all_except P except (after_concat b v).
Proof.
  intros B K n s H E. unfold after_concat in H.
  destruct (v n) as [s0|] eqn:V.
  - injection H as <-. apply (K n s0 V E).
  - apply (B n s H).
Qed.

Lemma all_after_sentinel_pass except v :
  all_except (fun s => sentinel_free s = true) except (after_replace (-1)%float nan v).
Proof.
  intros n s H _. unfold after_replace in H.
  destruct (v n) as [s0|]; [|discriminate]. injection H as <-.
  apply replace_series_free.
Qed.

Lemma all_ext P except (v v' : view) :
  (forall n, v n = v' n) -> all_except P except v' -> all_except P except v.
Proof. intros X K n s H E. rewrite X in H. apply (K n s H E). Qed.

Lemma indicator_free level o : PrimFloat.eqb (indicator level o) (-1)%float = false.
Proof.
  destruct o as [t| |]; cbn [indicator]; try reflexivity.
  destruct (String.eqb t level); reflexivity.
Qed.

Lemma dummies_free s prefix dummies n c :
  get_dummies_drop_first s prefix = Some dummies -> lookup n dummies = Some c ->
  sentinel_free c = true.
Proof.
  intros D L. destruct (get_dummies_Some _ _ _ D) as (l & _ & _ & ->).
  apply lookup_dummies in L. destruct L as (level & _ & _ & ->).
  cbn [sentinel_free]. unfold no_sentinel. rewrite forallb_forall. intros x Hx.
  apply in_map_iff in Hx. destruct Hx as (o & <- & _).
  rewrite indicator_free. reflexivity.
Qed.

End ViewFacts.

(** ** Cells run a second time *)

Module RerunFacts.

Import Numpy NumpyFacts Pandas PandasFacts Encoding Notebook Spec Properties ReducerFacts
  FloatFacts SentinelFacts FilterFacts CuratorFacts PassFacts.

(** [KeyError]: a label to drop that is not a column. *)
Lemma drop_missing labels df l :
  In l labels -> has l df = false -> drop labels df = None.
Proof.
  intros I H. destruct (drop labels df) as [df'|] eqn:E; [|reflexivity].
  rewrite (drop_requires _ _ _ _ E I) in H. discriminate H.
Qed.

(** The curated table has lost the periodic systolic pressure. *)
Lemma curated_lacks_periodic cohort curated :
  feature_curator cohort = Some curated -> has "sbp_periodic_mean" curated = false.
Proof.
  unfold feature_curator, relabel_and_prune, drop_features, encode_admit_diagnosis,
    combine_gcs.
  intros H. inv_binds.
  match goal with
  | D : get_dummies_drop_first _ "adx" = Some ?dm |- _ =>
      pose proof (lookup_adx_dummies _ _ "sbp_periodic_mean" D eq_refl) as L
  end.
  open_frames. unfold has.
  repeat match goal with
         | Hd : forall n, col n ?d = _ |- context [col ?m ?d] =>
             rewrite (Hd m); eval_names
         end.
  rewrite col_concat.
  repeat match goal with
         | Hd : forall n, col n ?d = _ |- context [col ?m ?d] =>
             rewrite (Hd m); eval_names
         end.
  rewrite L. reflexivity.
Qed.

End RerunFacts.

(** ** The join of well-formed query results *)

Module JoinFacts.

Import Numpy NumpyFacts Pandas PandasFacts Encoding Notebook Spec Properties Merge
  ReducerFacts FilterFacts CuratorFacts TotalityFacts MergeFacts SchemaFacts SelectionFacts.

Lemma traverse_nth_ok {A : Type} (l : list A) ps :
  (forall p, In p ps -> p < length l) ->
  exists r, traverse (nth_error l) ps = Some r
            /\ length r = length ps
            /\ forall x, In x r -> In x l.
Proof.
  induction ps as [|p ps IH]; intros B; cbn [traverse].
  - exists []. split; [reflexivity|]. split; [reflexivity|]. intros x [].
  - destruct IH as (r & -> & L & I); [intros q Hq; apply B; right; exact Hq|].
    destruct (nth_error l p) as [x|] eqn:N.
    + cbn [bind]. exists (x :: r). split; [reflexivity|]. split; [cbn; congruence|].
      intros y [<-|Hy]; [apply (nth_error_In _ _ N)|apply (I _ Hy)].
    + apply nth_error_None in N. specialize (B p (or_introl eq_refl)). lia.
Qed.

Lemma take_ok ps s :
  (forall p, In p ps -> p < size s) ->
  exists s', take ps s = Some s' /\ taken_from (length ps) s s'.
Proof.
  intros B. destruct s as [l|l]; cbn [take size] in *;
    destruct (traverse_nth_ok l ps B) as (r & -> & L & I); cbn [option_map].
  - exists (FloatCol r). split; [reflexivity|]. split; [exact L|]. split; [exact Logic.I|].
    cbn [cells]. intros o Ho. apply in_map_iff in Ho. destruct Ho as (x & <- & Hx).
    apply in_map, I, Hx.
  - exists (ObjCol r). split; [reflexivity|]. split; [exact L|]. split; [exact Logic.I|].
    exact I.
Qed.

Lemma traverse_taken_ok (g : string -> string) ps cols :
  (forall c, In c cols -> forall p, In p ps -> p < size (snd c)) ->
  exists cols',
    traverse (fun c => s <- take ps (snd c) ;; Some (g (fst c), s)) cols = Some cols'
    /\ Forall2 (fun c c' => fst c' = g (fst c) /\ taken_from (length ps) (snd c) (snd c'))
         cols cols'.
Proof.
  induction cols as [|c cols IH]; intros B; cbn [traverse].
  - exists []. split; [reflexivity|constructor].
  - destruct (take_ok ps (snd c)) as (s' & -> & T); [apply B; left; reflexivity|].
    destruct IH as (cols' & -> & F); [intros d Hd; apply B; right; exact Hd|].
    cbn [bind]. eexists. split; [reflexivity|]. constructor; [|exact F].
    cbn [fst snd]. auto.
Qed.

Lemma join_pairs_bounds lk rk p :
  In p (join_pairs lk rk) -> fst p < length lk /\ snd p < length rk.
Proof.
  destruct p as [i j]. intros H. apply In_join_pairs in H.
  destruct H as (x & Nl & Nr). cbn [fst snd].
  split; apply nth_error_Some; congruence.
Qed.

Lemma keys_length s ks : keys s = Some ks -> length ks = size s.
Proof.
  destruct s as [l|l]; cbn [keys size]; [|discriminate]. apply traverse_length.
Qed.

Lemma keyed_Some key df :
  keyed key df = true -> exists s ks, col key df = Some s /\ keys s = Some ks.
Proof.
  unfold keyed. destruct (col key df) as [s|]; [|discriminate].
  destruct (keys s) as [ks|] eqn:K; [|discriminate].
  intros _. exists s, ks. split; [reflexivity|exact K].
Qed.

Lemma In_mem_names n l : In n l -> mem n l = true.
Proof.
  intros I. unfold mem. apply existsb_exists. exists n.
  split; [exact I|apply String.eqb_refl].
Qed.

Lemma Forall2_In_r {A B : Type} (R : A -> B -> Prop) l l' y :
  Forall2 R l l' -> In y l' -> exists x, In x l /\ R x y.
Proof.
  induction 1 as [|x y' l l' H F IH]; intros I; [contradiction|].
  destruct I as [<-|I].
  - exists x. split; [left; reflexivity|exact H].
  - destruct (IH I) as (x' & Hx & Hr). exists x'. split; [right; exact Hx|exact Hr].
Qed.

Lemma incl_check (a b : list string) :
  forallb (fun n => mem n b) a = true -> forall n, In n a -> In n b.
Proof.
  intros H n I. rewrite forallb_forall in H. apply mem_In, H, I.
Qed.

(** The header of the join of two tables with the headers of the queries. *)
Lemma join_header base feature cohort :
  columns base = base_cohort_columns -> columns feature = feature_set_columns ->
  join_cohort base feature = Some cohort ->
  columns cohort
  = if length (index base) =? 0 then cohort_columns_without_stays else cohort_columns.
Proof.
  intros B F H. apply merge_inner_columns in H. cbn zeta in H. rewrite B, F in H.
  rewrite H. destruct (length (index base) =? 0); vm_compute; reflexivity.
Qed.

Lemma has_of_columns df n : mem n (columns df) = true -> has n df = true.
Proof. rewrite mem_columns. unfold has. trivial. Qed.

Lemma typed_taken (c c' : string * Series) n :
  fst c' = fst c -> taken_from n (snd c) (snd c') ->
  mem (fst c) text_columns
  || match snd c with FloatCol _ => true | ObjCol _ => false end = true ->
  mem (fst c') text_columns
  || match snd c' with FloatCol _ => true | ObjCol _ => false end = true.
Proof.
  intros -> (_ & K & _) T. destruct (mem (fst c) text_columns); [reflexivity|].
  cbn [orb] in *. destruct (snd c), (snd c'); try reflexivity; try discriminate T.
  contradiction.
Qed.

(** The join of the results of the two queries runs, and gives a table the
    rest of the notebook runs on. *)
Lemma join_of_query_results parse base feature :
  rectangularb base = true -> rectangularb feature = true ->
  columns base = base_cohort_columns -> columns feature = feature_set_columns ->
  typed_as_queried base = true -> typed_as_queried feature = true ->
  keyed "patientunitstayid" base = true -> keyed "patientunitstayid" feature = true ->
  age_ready parse base = true -> textb "admit_diagnosis" base = true ->
  exists cohort,
    join_cohort base feature = Some cohort /\ joined_ready parse cohort = true.
Proof.
  intros Rb Rf Cb Cf Tb Tf Kb Kf Ab Xb.
  apply rectangularb_spec in Rb, Rf.
  assert (S : share_only "patientunitstayid" base feature = true)
    by (unfold share_only; rewrite Cb, Cf; vm_compute; reflexivity).
  destruct (keyed_Some _ _ Kb) as (lkey & lk & Kl & Vl).
  destruct (keyed_Some _ _ Kf) as (rkey & rk & Kr & Vr).
  pose proof (rectangular_col _ _ _ Rb Kl) as Ll. rewrite <- (keys_length _ _ Vl) in Ll.
  pose proof (rectangular_col _ _ _ Rf Kr) as Lr. rewrite <- (keys_length _ _ Vr) in Lr.
  set (ps := join_pairs lk rk).
  assert (Bl : forall s, size s = length (index base) ->
                         forall p, In p (map fst ps) -> p < size s).
  { intros s Hs p Hp. apply in_map_iff in Hp. destruct Hp as (q & <- & Hq).
    rewrite Hs, <- Ll. apply (join_pairs_bounds _ _ _ Hq). }
  assert (Br : forall s, size s = length (index feature) ->
                         forall p, In p (map snd ps) -> p < size s).
  { intros s Hs p Hp. apply in_map_iff in Hp. destruct Hp as (q & <- & Hq).
    rewrite Hs, <- Lr. apply (join_pairs_bounds _ _ _ Hq). }
  set (gl := fun m : string =>
               if negb (String.eqb m "patientunitstayid") && mem m (columns base)
                  && mem m (columns feature)
               then (m ++ "_x")%string else m).
  set (gr := fun m : string =>
               if negb (String.eqb m "patientunitstayid") && mem m (columns base)
                  && mem m (columns feature)
               then (m ++ "_y")%string else m).
  set (other := fun c : string * Series => negb (String.eqb (fst c) "patientunitstayid")).
  set (lsrc := if length (index base) =? 0 then filter other (data base) else data base).
  set (rsrc := if length (index base) =? 0 then data feature
               else filter other (data feature)).
  assert (Il : forall c, In c lsrc -> In c (data base)).
  { intros c. unfold lsrc. destruct (length (index base) =? 0); [|trivial].
    intros I. apply filter_In in I. apply I. }
  assert (Ir : forall c, In c rsrc -> In c (data feature)).
  { intros c. unfold rsrc. destruct (length (index base) =? 0); [trivial|].
    intros I. apply filter_In in I. apply I. }
  destruct (traverse_taken_ok gl (map fst ps) lsrc) as (lcols & TL & FL).
  { intros c Hc. apply Bl. unfold rectangular in Rb. rewrite Forall_forall in Rb.
    apply (Rb _ (Il _ Hc)). }
  destruct (traverse_taken_ok gr (map snd ps) rsrc) as (rcols & TR & FR).
  { intros c Hc. apply Br. unfold rectangular in Rf. rewrite Forall_forall in Rf.
    apply (Rf _ (Ir _ Hc)). }
  assert (E : join_cohort base feature
              = Some {| index := map Z.of_nat (seq 0 (length ps)); data := lcols ++ rcols |}).
  { unfold join_cohort, merge_inner. rewrite Kl. cbn [bind]. rewrite Vl. cbn [bind].
    rewrite Kr. cbn [bind]. rewrite Vr. cbn [bind]. cbn zeta.
    pose proof TL as TL'. pose proof TR as TR'.
    unfold gl, lsrc, other in TL'. unfold gr, rsrc, other in TR'. cbn beta in TL', TR'.
    fold ps. rewrite TL'. cbn [bind]. rewrite TR'. reflexivity. }
  eexists. split; [exact E|].
  set (out := {| index := map Z.of_nat (seq 0 (length ps)); data := lcols ++ rcols |}) in *.
  destruct (merge_inner_Some _ _ _ _ E S)
    as (lkey' & lk' & rkey' & rk' & Kl' & Vl' & Kr' & Vr' & _ & HL & _).
  rewrite Kl in Kl'. injection Kl' as <-. rewrite Vl in Vl'. injection Vl' as <-.
  rewrite Kr in Kr'. injection Kr' as <-. rewrite Vr in Vr'. injection Vr' as <-.
  fold ps in HL.
  assert (BaseCol : forall n s, n <> "patientunitstayid" -> col n base = Some s ->
             exists s', col n out = Some s' /\ taken_from (length ps) s s').
  { intros n s Hn C. destruct (HL n s (or_introl Hn) C) as [Q _].
    destruct (take_ok (map fst ps) s) as (s' & T & K);
      [apply Bl, (rectangular_col _ _ _ Rb C)|].
    exists s'. rewrite length_map in K. split; [congruence|exact K]. }
  assert (Hcols : forall n, In n cohort_columns -> mem n (columns out) = true).
  { pose proof (merge_inner_columns _ _ _ _ E) as Hc. cbn zeta in Hc.
    rewrite Cb, Cf in Hc. rewrite Hc. apply forallb_forall.
    destruct (length (index base) =? 0); vm_compute; reflexivity. }
  unfold joined_ready.
  apply andb_true_intro; split; [apply andb_true_intro; split;
    [apply andb_true_intro; split; [apply andb_true_intro; split|]|]|].
  - apply rectangularb_spec. unfold rectangular, out. cbn [data index].
    rewrite length_map, length_seq. apply Forall_forall. intros c' Hc'.
    apply in_app_or in Hc'. destruct Hc' as [Hc'|Hc'].
    + destruct (Forall2_In_r _ _ _ _ FL Hc') as (c & _ & _ & (Sz & _)).
      rewrite length_map in Sz. exact Sz.
    + destruct (Forall2_In_r _ _ _ _ FR Hc') as (c & _ & _ & (Sz & _)).
      rewrite length_map in Sz. exact Sz.
  - unfold age_ready in *.
    destruct (col "age" base) as [age|] eqn:Ca; [|discriminate Ab].
    destruct (BaseCol "age" age ltac:(discriminate) Ca) as (age' & -> & (_ & K & I)).
    destruct age as [l|l], age' as [l'|l']; try contradiction; [reflexivity|].
    rewrite forallb_forall in *. intros o Ho. apply Ab, I, Ho.
  - apply forallb_forall. intros n Hn. apply has_of_columns, Hcols, Hn.
  - unfold typed_as_queried in *. unfold out. cbn [data]. rewrite forallb_app.
    apply andb_true_intro. rewrite !forallb_forall in *. split.
    + intros c' Hc'. destruct (Forall2_In_r _ _ _ _ FL Hc') as (c & Hc & Hn & K).
      apply Il in Hc.
      unfold gl in Hn. rewrite (share_only_left _ _ _ _ S Hc) in Hn.
      apply (typed_taken c c' _ Hn K), Tb, Hc.
    + intros c' Hc'. destruct (Forall2_In_r _ _ _ _ FR Hc') as (c & Hc & Hn & K).
      apply Ir in Hc.
      assert (G : gr (fst c) = fst c).
      { unfold gr. destruct (String.eqb_spec (fst c) "patientunitstayid") as [Q|Q];
          [reflexivity|]. cbn [negb andb].
        rewrite (share_only_right "patientunitstayid" base feature (fst c) S Q
                   (In_mem _ _ Hc)). reflexivity. }
      rewrite G in Hn. apply (typed_taken c c' _ Hn K), Tf, Hc.
  - unfold textb in *.
    destruct (col "admit_diagnosis" base) as [[|l]|] eqn:Cx; try discriminate Xb.
    destruct (BaseCol "admit_diagnosis" (ObjCol l) ltac:(discriminate) Cx) as (s' & -> & (_ & K & I)).
    destruct s' as [l'|l']; [contradiction|].
    rewrite forallb_forall in *. intros o Ho. apply Xb, I, Ho.
Qed.

End JoinFacts.

(** * The reducer never reads a fresh array *)

Import Numpy NumpyFacts Pandas PandasFacts Notebook Spec ReducerFacts JunkFacts.

(** X1.  The arrays allocated with [np.empty] hold arbitrary values, and none
    of them reaches the table: whatever the allocator left in them, the
    reducer raises on the same tables and returns the same table. *)
Theorem reducer_ignores_fresh_memory (junk junk' : nat -> float) (df : DataFrame) :
  abnormal_value_reducer junk df = abnormal_value_reducer junk' df.
Proof.
  unfold abnormal_value_reducer. repeat same_head. reflexivity.
Qed.

(** * The sentinel pass *)

Import Properties PassFacts.

(** X2.  [cohort.replace(-1, np.nan)] leaves no numeric cell equal to -1 in
    any column, keeps the rows and the column names, changes nothing in a
    column that holds no -1, and a second pass changes nothing. *)
Theorem sentinel_pass_clears_and_settles (df : DataFrame) :
  let df' := replace (-1)%float nan df in
  index df' = index df
  /\ columns df' = columns df
  /\ (forall n s, col n df' = Some s -> sentinel_free s = true)
  /\ (forall n s, col n df = Some s -> sentinel_free s = true -> col n df' = Some s)
  /\ replace (-1)%float nan df' = df'.
Proof.
  cbn zeta. split; [reflexivity|]. split; [|split; [|split]].
  - unfold columns, replace. cbn [data]. rewrite map_map. reflexivity.
  - intros n s C. rewrite col_replace in C.
    destruct (col n df) as [s0|]; [|discriminate C]. injection C as <-.
    apply replace_series_free.
  - intros n s C F. rewrite col_replace, C. cbn [option_map].
    rewrite (replace_series_id _ F). reflexivity.
  - unfold replace. cbn [index data]. f_equal. rewrite map_map.
    apply map_ext. intros [n s]. cbn [fst snd]. rewrite replace_series_twice. reflexivity.
Qed.

(** * The composite coma score *)

Import Encoding FilterFacts CuratorFacts SeparationFacts ScoreFacts.

(** X3.  The column gcs of the feature matrix is, row by row, the sum of the
    eyes, motor and verbal components of the stays that passed the filters,
    each taken after the sentinel pass: a component that is NaN or -1 makes
    the score NaN.  The three component columns are not in the feature
    matrix. *)
Theorem gcs_adds_relabelled_components
  (float_of_string : string -> option float) (junk : nat -> float)
  (df : DataFrame) (sep : Separated) :
  pre_split float_of_string junk df = Some sep ->
  exists cohort e m v g,
    filter_stage float_of_string df = Some cohort
    /\ numeric "gcs_eyes" cohort e
    /\ numeric "gcs_motor" cohort m
    /\ numeric "gcs_verbal" cohort v
    /\ col "gcs" (features sep) = Some (FloatCol g)
    /\ length g = length (index (features sep))
    /\ (forall i a b c,
          nth_error e i = Some a -> nth_error m i = Some b -> nth_error v i = Some c ->
          nth_error g i = Some (gcs_rule a b c))
    /\ (forall a b c,
          unrecorded a || unrecorded b || unrecorded c = true ->
          missing (gcs_rule a b c) = true)
    /\ (forall n, In n ["gcs_eyes"; "gcs_motor"; "gcs_verbal"] ->
          has n (features sep) = false).
Proof.
  intros H.
  destruct (pre_split_Some _ _ _ _ H) as (cohort & reduced & curated & EF & ER & EC & ES).
  destruct (reducer_Some _ _ _ ER)
    as (? & ? & ? & ? & ? & ? & ? & ? & ? & ?
        & _ & _ & _ & _ & _ & _ & _ & _ & _ & _ & Ir & Vr).
  destruct (separated_Some _ _ _ EC ES)
    as (adx & dummies & eyes & motor & verbal & em & gcs & outcome & pred
        & _ & D & Ce & Cm & Cv & A1 & A2 & Sz & _ & _ & _ & _ & Ix & Vc).
  rewrite Vr in Ce, Cm, Cv. unfold reduced_view in Ce, Cm, Cv.
  eval_names_in Ce. eval_names_in Cm. eval_names_in Cv.
  destruct (add_series_Some _ _ _ A1) as (xe & xm & Vx & Vy & Lxy & ->).
  destruct (add_series_Some _ _ _ A2) as (xy & xv & Vxy & Vz & Lz & ->).
  cbn [values] in Vxy. injection Vxy as <-.
  destruct (values_normalized _ _ Vx) as (e & Ve & ->).
  destruct (values_normalized _ _ Vy) as (m & Vm & ->).
  destruct (values_normalized _ _ Vz) as (v & Vv & ->).
  rewrite !length_map in Lxy.
  assert (Lg : length (map2 PrimFloat.add (map normalize e) (map normalize m)) = length e)
    by (rewrite length_map2; rewrite !length_map; congruence).
  rewrite Lg, length_map in Lz.
  cbn [size] in Sz. rewrite length_map2 in Sz by (rewrite Lg, length_map; exact Lz).
  rewrite Lg, Ir in Sz.
  exists cohort, e, m, v,
    (map2 PrimFloat.add (map2 PrimFloat.add (map normalize e) (map normalize m))
       (map normalize v)).
  split; [exact EF|].
  split; [exists eyes; repeat split; [exact Ce|exact Ve|congruence]|].
  split; [exists motor; repeat split; [exact Cm|exact Vm|congruence]|].
  split; [exists verbal; repeat split; [exact Cv|exact Vv|congruence]|].
  split; [rewrite Vc; reflexivity|].
  split.
  { rewrite length_map2 by (rewrite Lg, length_map; exact Lz). rewrite Lg. congruence. }
  split.
  { intros i a b c Ha Hb Hc. unfold gcs_rule.
    apply nth_error_map2; [apply nth_error_map2|];
      rewrite nth_error_map; [rewrite Ha|rewrite Hb|rewrite Hc]; reflexivity. }
  split; [exact gcs_rule_unrecorded|].
  intros n Hn. unfold has. rewrite Vc. unfold curated_view. simpl in Hn.
  repeat (destruct Hn as [<-|Hn];
          [eval_names; try reflexivity;
           rewrite (lookup_adx_dummies _ _ _ D) by reflexivity; reflexivity|]).
  contradiction.
Qed.

Lemma gcs_adds_relabelled_components_witness :
  pre_split Examples.float_of_digits Examples.zeros Examples.joined
  = Some Examples.separated
  /\ exists cohort e m v g,
      filter_stage Examples.float_of_digits Examples.joined = Some cohort
      /\ numeric "gcs_eyes" cohort e
      /\ numeric "gcs_motor" cohort m
      /\ numeric "gcs_verbal" cohort v
      /\ col "gcs" (features Examples.separated) = Some (FloatCol g)
      /\ length g = length (index (features Examples.separated))
      /\ (forall i a b c,
            nth_error e i = Some a -> nth_error m i = Some b -> nth_error v i = Some c ->
            nth_error g i = Some (gcs_rule a b c))
      /\ (forall a b c,
            unrecorded a || unrecorded b || unrecorded c = true ->
            missing (gcs_rule a b c) = true)
      /\ (forall n, In n ["gcs_eyes"; "gcs_motor"; "gcs_verbal"] ->
            has n (features Examples.separated) = false).
Proof.
  split.
  - vm_compute. reflexivity.
  - apply (gcs_adds_relabelled_components Examples.float_of_digits Examples.zeros Examples.joined Examples.separated).
    vm_compute. reflexivity.
Defined.

(** The sample: the stay whose eyes component is -1 has no score. *)
Example sample_gcs :
  col "gcs" (features Examples.separated) = Some (FloatCol [15; 12; nan]%float).
Proof. reflexivity. Qed.


(** * Label and benchmark *)

(** X4.  The label has one entry per stay that passed the filters: 1 when the
    outcome cell of the stay is the text EXPIRED and 0 in every other case, a
    missing outcome included.  The label is never missing, and the outcome
    column is not in the feature matrix. *)
Theorem label_marks_expired_stays
  (float_of_string : string -> option float) (junk : nat -> float)
  (df : DataFrame) (sep : Separated) :
  pre_split float_of_string junk df = Some sep ->
  exists cohort outcome,
    filter_stage float_of_string df = Some cohort
    /\ col "hospital_expiration" cohort = Some outcome
    /\ (forall l, outcome = ObjCol l -> label sep = map expired l)
    /\ (forall l, outcome = FloatCol l -> label sep = map (fun _ => 0%Z) l)
    /\ (forall z, In z (label sep) -> z = 0%Z \/ z = 1%Z)
    /\ length (label sep) = length (index (features sep))
    /\ has "hospital_expiration" (features sep) = false.
Proof.
  intros H.
  destruct (pre_split_Some _ _ _ _ H) as (cohort & reduced & curated & EF & ER & EC & ES).
  destruct (reducer_Some _ _ _ ER)
    as (? & ? & ? & ? & ? & ? & ? & ? & ? & ?
        & _ & _ & _ & _ & _ & _ & _ & _ & _ & _ & Ir & Vr).
  destruct (separated_Some _ _ _ EC ES)
    as (adx & dummies & eyes & motor & verbal & em & gcs & outcome & pred
        & _ & D & _ & _ & _ & _ & _ & _ & Co & L & _ & _ & Ix & Vc).
  rewrite Vr in Co. unfold reduced_view in Co. eval_names_in Co.
  destruct (filter_stage_filtered _ _ _ EF) as (R & _).
  pose proof (rectangular_col _ _ _ R Co) as Sz.
  exists cohort, outcome. split; [exact EF|]. split; [exact Co|].
  rewrite L. unfold astype_int.
  split; [intros l ->; cbn [eq_str]; rewrite map_map; apply map_ext;
          intros [t| |]; cbn [expired]; try reflexivity;
          destruct (String.eqb t "EXPIRED"); reflexivity|].
  split; [intros l ->; cbn [eq_str]; rewrite map_map; reflexivity|].
  split.
  { intros z Hz. apply in_map_iff in Hz. destruct Hz as ([|] & <- & _); auto. }
  split.
  { rewrite length_map, Ix, Ir, <- Sz. destruct outcome; simpl; apply length_map. }
  unfold has. rewrite Vc. reflexivity.
Qed.

Lemma label_marks_expired_stays_witness :
  pre_split Examples.float_of_digits Examples.zeros Examples.joined
  = Some Examples.separated
  /\ exists cohort outcome,
      filter_stage Examples.float_of_digits Examples.joined = Some cohort
      /\ col "hospital_expiration" cohort = Some outcome
      /\ (forall l, outcome = ObjCol l -> label Examples.separated = map expired l)
      /\ (forall l, outcome = FloatCol l ->
            label Examples.separated = map (fun _ => 0%Z) l)
      /\ (forall z, In z (label Examples.separated) -> z = 0%Z \/ z = 1%Z)
      /\ length (label Examples.separated) = length (index (features Examples.separated))
      /\ has "hospital_expiration" (features Examples.separated) = false.
Proof.
  split.
  - vm_compute. reflexivity.
  - apply (label_marks_expired_stays Examples.float_of_digits Examples.zeros Examples.joined Examples.separated).
    vm_compute. reflexivity.
Defined.


(** X5.  The benchmark handed to the split is the APACHE prediction of the
    stays that passed the filters with every -1 turned into NaN; it has one
    entry per row of the feature matrix, whose rows are those of the filtered
    cohort, and the prediction is not a column of the feature matrix. *)
Theorem benchmark_is_relabelled_prediction
  (float_of_string : string -> option float) (junk : nat -> float)
  (df : DataFrame) (sep : Separated) :
  pre_split float_of_string junk df = Some sep ->
  exists cohort pred,
    filter_stage float_of_string df = Some cohort
    /\ col "apache_prediction" cohort = Some pred
    /\ apache_pred sep = replace_series (-1)%float nan pred
    /\ sentinel_free (apache_pred sep) = true
    /\ size (apache_pred sep) = length (index (features sep))
    /\ index (features sep) = index cohort
    /\ has "apache_prediction" (features sep) = false.
Proof.
  intros H.
  destruct (pre_split_Some _ _ _ _ H) as (cohort & reduced & curated & EF & ER & EC & ES).
  destruct (reducer_Some _ _ _ ER)
    as (? & ? & ? & ? & ? & ? & ? & ? & ? & ?
        & _ & _ & _ & _ & _ & _ & _ & _ & _ & _ & Ir & Vr).
  destruct (separated_Some _ _ _ EC ES)
    as (adx & dummies & eyes & motor & verbal & em & gcs & outcome & pred
        & _ & D & _ & _ & _ & _ & _ & _ & _ & _ & Cp & P & Ix & Vc).
  rewrite Vr in Cp. unfold reduced_view in Cp. eval_names_in Cp.
  destruct (filter_stage_filtered _ _ _ EF) as (R & _).
  pose proof (rectangular_col _ _ _ R Cp) as Sz.
  exists cohort, pred. split; [exact EF|]. split; [exact Cp|]. split; [exact P|].
  rewrite P. split; [apply replace_series_free|].
  split; [rewrite size_replace_series; congruence|].
  split; [congruence|].
  unfold has. rewrite Vc. reflexivity.
Qed.

Lemma benchmark_is_relabelled_prediction_witness :
  pre_split Examples.float_of_digits Examples.zeros Examples.joined
  = Some Examples.separated
  /\ exists cohort pred,
      filter_stage Examples.float_of_digits Examples.joined = Some cohort
      /\ col "apache_prediction" cohort = Some pred
      /\ apache_pred Examples.separated = replace_series (-1)%float nan pred
      /\ sentinel_free (apache_pred Examples.separated) = true
      /\ size (apache_pred Examples.separated)
         = length (index (features Examples.separated))
      /\ index (features Examples.separated) = index cohort
      /\ has "apache_prediction" (features Examples.separated) = false.
Proof.
  split.
  - vm_compute. reflexivity.
  - apply (benchmark_is_relabelled_prediction Examples.float_of_digits Examples.zeros Examples.joined Examples.separated).
    vm_compute. reflexivity.
Defined.


(** * The sentinel and the feature matrix *)

Import ViewFacts.

(** X6.  No cell of the feature matrix handed to the split equals -1, the
    computed column gcs apart: every column that comes from the database went
    through the sentinel pass and the indicator columns hold 0 and 1. *)
Theorem sentinel_absent_from_features
  (float_of_string : string -> option float) (junk : nat -> float)
  (df : DataFrame) (sep : Separated) :
  pre_split float_of_string junk df = Some sep ->
  forall n s, col n (features sep) = Some s -> n <> "gcs" -> sentinel_free s = true.
Proof.
  intros H.
  destruct (pre_split_Some _ _ _ _ H) as (cohort & reduced & curated & EF & ER & EC & ES).
  destruct (curated_Some _ _ _ EC ES) as (adx & dummies & gcs & _ & D & _ & _ & Vc).
  intros n s C Hn.
  cut (all_except (fun s => sentinel_free s = true) ["gcs"]
         (fun n => col n (features sep))).
  { intros K. apply (K n s C). apply String.eqb_neq in Hn.
    unfold mem. cbn [existsb]. rewrite Hn. reflexivity. }
  apply (all_ext _ _ _ _ Vc). unfold curated_view.
  repeat first
    [ apply all_after_drop
    | apply all_after_assign; [reflexivity|]
    | apply all_after_concat; [intros m c; apply (dummies_free _ _ _ _ _ D)|] ].
  apply all_after_sentinel_pass.
Qed.

Lemma sentinel_absent_from_features_witness :
  pre_split Examples.float_of_digits Examples.zeros Examples.joined
  = Some Examples.separated
  /\ col "glucose_max" (features Examples.separated) = Some (FloatCol [nan; 210; 180]%float)
  /\ "glucose_max" <> "gcs"
  /\ sentinel_free (FloatCol [nan; 210; 180]%float) = true.
Proof.
  split; [vm_compute; reflexivity|]. split; [reflexivity|]. split; [discriminate|].
  apply (sentinel_absent_from_features Examples.float_of_digits Examples.zeros Examples.joined Examples.separated) with (n := "glucose_max");
    [vm_compute; reflexivity|reflexivity|discriminate].
Defined.


(** * Cells run a second time *)

Import SentinelFacts RerunFacts.

(** X7.  Cell 21 cannot be run twice: on the table it returned, the reducer
    raises, the columns it drops being gone. *)
Theorem reducer_raises_on_its_output (junk junk' : nat -> float) (df out : DataFrame) :
  abnormal_value_reducer junk df = Some out ->
  abnormal_value_reducer junk' out = None.
Proof.
  intros H.
  destruct (reducer_Some _ _ _ H)
    as (? & ? & ? & ? & ? & ? & ? & ? & ? & ?
        & _ & _ & _ & _ & _ & _ & _ & _ & _ & _ & _ & V).
  unfold abnormal_value_reducer.
  rewrite (drop_missing lab_drop out "bicarbonate_max"); [reflexivity|left; reflexivity|].
  unfold has. rewrite V. reflexivity.
Qed.

Lemma reducer_raises_on_its_output_witness :
  abnormal_value_reducer Examples.zeros Examples.filtered_cohort
  = Some Samples.reduced_cohort
  /\ abnormal_value_reducer Examples.zeros Samples.reduced_cohort = None.
Proof.
  split.
  - vm_compute. reflexivity.
  - apply (reducer_raises_on_its_output Examples.zeros Examples.zeros
             Examples.filtered_cohort Samples.reduced_cohort).
    vm_compute. reflexivity.
Defined.


(** X8.  The curation cells cannot be run twice either: on the table they
    returned, the first drop raises. *)
Theorem curator_raises_on_its_output (cohort curated : DataFrame) :
  feature_curator cohort = Some curated ->
  feature_curator curated = None.
Proof.
  intros H. pose proof (curated_lacks_periodic _ _ H) as L.
  unfold feature_curator, relabel_and_prune.
  rewrite (drop_missing _ _ "sbp_periodic_mean"); [reflexivity|left; reflexivity|].
  rewrite has_replace. exact L.
Qed.

Lemma curator_raises_on_its_output_witness :
  feature_curator Samples.reduced_cohort = Some Samples.curated_cohort
  /\ feature_curator Samples.curated_cohort = None.
Proof.
  split.
  - vm_compute. reflexivity.
  - apply (curator_raises_on_its_output Samples.reduced_cohort Samples.curated_cohort).
    vm_compute. reflexivity.
Defined.


(** * The filter cells as one selection *)

Import TotalityFacts SelectionFacts SchemaFacts.

(** X9.  On every table the filter cells accept, the stays they keep are
    exactly the stays that meet every criterion on the joined table, in the
    order of the joined table: a non-empty age of at least 18 (with 93 for
    "> 89"), a unit stay of at least 240 minutes, a diagnosis that is not a
    surgical bleed, a weight in [50, 300] and a height in [50, 250].  Every
    column is cut down to these rows and otherwise unchanged, age being the
    number the cast gives, and no column is added or removed. *)
Theorem filter_keeps_exactly_the_eligible_stays
  (float_of_string : string -> option float) (df : DataFrame) :
  filter_ready float_of_string df = true ->
  exists out age M,
    filter_stage float_of_string df = Some out
    /\ col "age" df = Some age
    /\ eligible float_of_string df = Some M
    /\ length M = length (index df)
    /\ index out = Numpy.compress M (index df)
    /\ (forall id, In id (index out)
          <-> exists i, nth_error M i = Some true /\ nth_error (index df) i = Some id)
    /\ col "age" out
       = Some (FloatCol (Numpy.compress M (map (age_number float_of_string) (cells age))))
    /\ (forall n s, n <> "age" -> col n df = Some s -> col n out = take_rows M s)
    /\ columns out = columns df.
Proof.
  intros Rdy. destruct (filter_stage_total _ _ Rdy) as [out H].
  destruct (filter_stage_exact _ _ _ Rdy H) as (age & M & A & E & L & I & V).
  pose proof (filter_ready_filterable _ _ Rdy) as (R & _).
  exists out, age, M.
  split; [exact H|]. split; [exact A|]. split; [exact E|]. split; [exact L|].
  split; [exact I|]. split; [intros id; rewrite I; apply In_compress|]. split.
  - rewrite V. unfold after_assign. rewrite String.eqb_refl. cbn [bind].
    rewrite take_rows_ok; [reflexivity|].
    cbn [size]. rewrite length_map, length_cells, L.
    symmetry. apply (rectangular_col _ _ _ R A).
  - split; [|apply (filter_stage_columns _ _ _ H)].
    intros n s Hn C. rewrite V. unfold after_assign.
    apply String.eqb_neq in Hn. rewrite Hn, C. reflexivity.
Qed.

Lemma filter_keeps_exactly_the_eligible_stays_witness :
  filter_ready Examples.float_of_digits Examples.joined = true
  /\ exists out age M,
      filter_stage Examples.float_of_digits Examples.joined = Some out
      /\ col "age" Examples.joined = Some age
      /\ eligible Examples.float_of_digits Examples.joined = Some M
      /\ length M = length (index Examples.joined)
      /\ index out = Numpy.compress M (index Examples.joined)
      /\ (forall id, In id (index out)
            <-> exists i, nth_error M i = Some true
                          /\ nth_error (index Examples.joined) i = Some id)
      /\ col "age" out
         = Some (FloatCol (Numpy.compress M
                             (map (age_number Examples.float_of_digits) (cells age))))
      /\ (forall n s, n <> "age" -> col n Examples.joined = Some s ->
            col n out = take_rows M s)
      /\ columns out = columns Examples.joined.
Proof.
  split.
  - vm_compute. reflexivity.
  - apply (filter_keeps_exactly_the_eligible_stays Examples.float_of_digits Examples.joined).
    vm_compute. reflexivity.
Defined.

(** The sample: of the six stays, the first, the second and the fifth meet
    every criterion. *)
Example sample_eligible :
  eligible Examples.float_of_digits Examples.joined
  = Some [true; true; false; false; true; false].
Proof. vm_compute. reflexivity. Qed.


(** X10.  An age that is a text other than "> 89", the empty string and a
    number makes the filter cells raise, whatever the row it is in: the cast
    to float64 runs on every row with a non-empty age. *)
Theorem unreadable_age_raises
  (float_of_string : string -> option float) (df : DataFrame) (l : list obj) (t : string) :
  col "age" df = Some (ObjCol l) ->
  In (OStr t) l -> t <> "> 89" -> t <> "" -> float_of_string t = None ->
  filter_stage float_of_string df = None.
Proof.
  intros A Hin N1 N2 P.
  destruct (filter_stage float_of_string df) as [out|] eqn:H; [exfalso|reflexivity].
  open_filter_stage H. rewrite A in Hage0. injection Hage0 as <-.
  unfold loc_setitem in Hd1. rewrite A in Hd1. cbn [bind] in Hd1.
  destruct (length (eq_str (ObjCol l) "> 89") =? size (ObjCol l)); [|discriminate Hd1].
  apply assign_Some in Hd1. destruct Hd1 as (_ & _ & V1).
  rewrite V1 in Hage1. unfold after_assign in Hage1. rewrite String.eqb_refl in Hage1.
  injection Hage1 as <-.
  apply loc_rows_Some in Hd2. destruct Hd2 as (_ & _ & V2).
  rewrite V2, V1 in Hage2. unfold after_assign in Hage2.
  rewrite String.eqb_refl in Hage2. cbn [bind] in Hage2.
  pose proof (ne_str_recoded (ObjCol l)) as N. cbn [putmask eq_str cells] in N.
  rewrite N in Hage2.
  apply take_rows_Some in Hage2. destruct Hage2 as [_ Hage2]. cbn [putmask] in Hage2.
  subst age2. cbn [astype_float64] in Hage3.
  destruct (traverse _ _) as [r|] eqn:T; [|discriminate Hage3].
  apply (traverse_In _ _ _ (OStr t) T); [|exact P].
  apply In_recoded; assumption.
Qed.

Lemma unreadable_age_raises_witness :
  col "age" Samples.unreadable = Some (ObjCol Samples.unreadable_ages)
  /\ In (OStr "n/a") Samples.unreadable_ages
  /\ "n/a" <> "> 89" /\ "n/a" <> ""
  /\ Examples.float_of_digits "n/a" = None
  /\ filter_stage Examples.float_of_digits Samples.unreadable = None.
Proof.
  split; [reflexivity|]. split; [right; left; reflexivity|].
  split; [discriminate|]. split; [discriminate|]. split; [reflexivity|].
  apply (unreadable_age_raises Examples.float_of_digits Samples.unreadable
           Samples.unreadable_ages "n/a");
    [reflexivity|right; left; reflexivity|discriminate|discriminate|reflexivity].
Defined.


(** * The header of the feature matrix *)

Import SchemaFacts.

(** X11.  On a joined table with the columns of the two queries, the feature
    matrix handed to the split has these columns, in this order: 29 columns
    of the joined table, the reduced potassium, wbc and pmn, one indicator
    column per diagnosis category but the first, named adx_ and the category,
    and gcs.  No name occurs twice. *)
Theorem feature_matrix_header
  (float_of_string : string -> option float) (junk : nat -> float)
  (df : DataFrame) (sep : Separated) :
  columns df = cohort_columns ->
  pre_split float_of_string junk df = Some sep ->
  exists cohort l,
    filter_stage float_of_string df = Some cohort
    /\ col "admit_diagnosis" cohort = Some (ObjCol l)
    /\ columns (features sep) = feature_names ++ indicator_names l ++ ["gcs"]
    /\ NoDup (columns (features sep)).
Proof.
  intros C H.
  destruct (pre_split_Some _ _ _ _ H) as (cohort & reduced & curated & EF & ER & EC & ES).
  pose proof (filter_stage_columns _ _ _ EF) as Cc. rewrite C in Cc.
  destruct (curator_columns _ _ _ _ _ Cc ER EC ES) as (l & A & Hd).
  destruct (reducer_Some _ _ _ ER)
    as (? & ? & ? & ? & ? & ? & ? & ? & ? & ?
        & _ & _ & _ & _ & _ & _ & _ & _ & _ & _ & _ & Vr).
  rewrite Vr in A. unfold reduced_view in A. eval_names_in A.
  exists cohort, l. split; [exact EF|]. split; [exact A|]. split; [exact Hd|].
  rewrite Hd. apply NoDup_header.
Qed.

Lemma feature_matrix_header_witness :
  columns Examples.joined = cohort_columns
  /\ pre_split Examples.float_of_digits Examples.zeros Examples.joined
     = Some Examples.separated
  /\ exists cohort l,
      filter_stage Examples.float_of_digits Examples.joined = Some cohort
      /\ col "admit_diagnosis" cohort = Some (ObjCol l)
      /\ columns (features Examples.separated)
         = feature_names ++ indicator_names l ++ ["gcs"]
      /\ NoDup (columns (features Examples.separated)).
Proof.
  split; [vm_compute; reflexivity|]. split; [vm_compute; reflexivity|].
  apply (feature_matrix_header Examples.float_of_digits Examples.zeros Examples.joined Examples.separated); vm_compute; reflexivity.
Defined.


(** * Columns that no cell computes *)

(** X12.  The reducer keeps the rows of the table and leaves every column
    alone that is neither one of the bounds it drops or reduces nor one of
    the five reduced columns. *)
Theorem reducer_leaves_other_columns
  (junk : nat -> float) (df out : DataFrame) (n : string) :
  abnormal_value_reducer junk df = Some out ->
  mem n reducer_names = false ->
  col n out = col n df /\ index out = index df.
Proof.
  intros H M.
  destruct (reducer_Some _ _ _ H)
    as (? & ? & ? & ? & ? & ? & ? & ? & ? & ?
        & _ & _ & _ & _ & _ & _ & _ & _ & _ & _ & I & V).
  split; [|exact I].
  rewrite V. unfold reduced_view, after_drop, after_assign, mem.
  unfold reducer_names, lab_drop, mem in M. cbn [app existsb] in M.
  repeat (apply orb_false_elim in M; destruct M as [? M]).
  cbn [existsb lab_drop].
  repeat match goal with
         | E : String.eqb n ?x = false |- _ => rewrite E; clear E
         end.
  reflexivity.
Qed.

Lemma reducer_leaves_other_columns_witness :
  abnormal_value_reducer Examples.zeros Examples.filtered_cohort
  = Some Samples.reduced_cohort
  /\ mem "glucose_max" reducer_names = false
  /\ col "glucose_max" Samples.reduced_cohort = col "glucose_max" Examples.filtered_cohort
  /\ index Samples.reduced_cohort = index Examples.filtered_cohort.
Proof.
  split; [vm_compute; reflexivity|]. split; [reflexivity|].
  apply (reducer_leaves_other_columns Examples.zeros Examples.filtered_cohort
           Samples.reduced_cohort "glucose_max"); vm_compute; reflexivity.
Defined.

(** X13.  The 29 columns of the feature matrix that no cell computes hold
    the cells of the stays that passed the filters, a cell equal to -1
    turned into NaN and every other cell as it was. *)
Theorem features_pass_through
  (float_of_string : string -> option float) (junk : nat -> float)
  (df : DataFrame) (sep : Separated) :
  pre_split float_of_string junk df = Some sep ->
  exists cohort,
    filter_stage float_of_string df = Some cohort
    /\ index (features sep) = index cohort
    /\ forall n, In n passed_through ->
         col n (features sep)
         = option_map (replace_series (-1)%float nan) (col n cohort).
Proof.
  intros H.
  destruct (pre_split_Some _ _ _ _ H) as (cohort & reduced & curated & EF & ER & EC & ES).
  destruct (reducer_Some _ _ _ ER)
    as (? & ? & ? & ? & ? & ? & ? & ? & ? & ?
        & _ & _ & _ & _ & _ & _ & _ & _ & _ & _ & Ir & Vr).
  destruct (curated_Some _ _ _ EC ES) as (adx & dummies & gcs & _ & D & _ & Ix & Vc).
  exists cohort. split; [exact EF|]. split; [congruence|].
  intros n Hn. rewrite Vc. unfold curated_view.
  let r := eval vm_compute in passed_through in change passed_through with r in Hn.
  cbn [In] in Hn.
  repeat (destruct Hn as [<-|Hn];
          [eval_names; rewrite Vr; unfold reduced_view; eval_names;
           match goal with
           | |- context [col ?m cohort] => destruct (col m cohort)
           end;
           [reflexivity|apply (lookup_adx_dummies _ _ _ D); reflexivity]|]).
  contradiction.
Qed.

Lemma features_pass_through_witness :
  pre_split Examples.float_of_digits Examples.zeros Examples.joined
  = Some Examples.separated
  /\ exists cohort,
      filter_stage Examples.float_of_digits Examples.joined = Some cohort
      /\ index (features Examples.separated) = index cohort
      /\ forall n, In n passed_through ->
           col n (features Examples.separated)
           = option_map (replace_series (-1)%float nan) (col n cohort).
Proof.
  split.
  - vm_compute. reflexivity.
  - apply (features_pass_through Examples.float_of_digits Examples.zeros Examples.joined
             Examples.separated).
    vm_compute. reflexivity.
Defined.

(** * The reduced analytes in the feature matrix *)

Import RuleFacts.

(** X14.  Of the five reduced analytes, potassium, wbc and pmn reach the
    feature matrix: each is, row by row, the bound its rule picks among the
    two bounds of the stays that passed the filters, turned into NaN when the
    bound picked is -1.  The reduced sodium and lym, and the bounds
    themselves, are not in the feature matrix. *)
Theorem reduced_analytes_in_features
  (float_of_string : string -> option float) (junk : nat -> float)
  (df : DataFrame) (sep : Separated) :
  pre_split float_of_string junk df = Some sep ->
  exists cohort,
    filter_stage float_of_string df = Some cohort
    /\ (forall x_min x_max x rule,
          In (x_min, x_max, x, rule) kept_analytes ->
          exists lo hi,
            numeric x_min cohort lo /\ numeric x_max cohort hi
            /\ col x (features sep) = Some (FloatCol (map normalize (map2 rule lo hi)))
            /\ has x_min (features sep) = false
            /\ has x_max (features sep) = false)
    /\ has "sodium" (features sep) = false
    /\ has "lym" (features sep) = false.
Proof.
  intros H.
  destruct (pre_split_Some _ _ _ _ H) as (cohort & reduced & curated & EF & ER & EC & ES).
  pose proof (reducer_rules _ _ _ ER) as Rules.
  destruct (reducer_Some _ _ _ ER)
    as (? & ? & ? & ? & ? & ? & ? & ? & ? & ?
        & _ & _ & _ & _ & _ & _ & _ & _ & _ & _ & _ & Vr).
  destruct (curated_Some _ _ _ EC ES) as (adx & dummies & gcs & _ & D & _ & _ & Vc).
  exists cohort. split; [exact EF|]. split; [|split].
  - intros a_min a_max a rule Hin.
    destruct (Rules a_min a_max a rule) as (lo & hi & Nlo & Nhi & C).
    { cbn [In kept_analytes two_sided] in *. tauto. }
    exists lo, hi. split; [exact Nlo|]. split; [exact Nhi|].
    cbn [In kept_analytes] in Hin.
    repeat (destruct Hin as [Hin|Hin];
            [injection Hin as <- <- <- <-;
             split; [rewrite Vc; unfold curated_view; eval_names; rewrite C; reflexivity|];
             split; unfold has; rewrite Vc; unfold curated_view; eval_names;
             rewrite Vr; unfold reduced_view; eval_names;
             rewrite (lookup_adx_dummies _ _ _ D) by reflexivity; reflexivity|]).
    contradiction.
  - unfold has. rewrite Vc. unfold curated_view. eval_names.
    rewrite (lookup_adx_dummies _ _ _ D) by reflexivity. reflexivity.
  - unfold has. rewrite Vc. unfold curated_view. eval_names.
    rewrite (lookup_adx_dummies _ _ _ D) by reflexivity. reflexivity.
Qed.

Lemma reduced_analytes_in_features_witness :
  pre_split Examples.float_of_digits Examples.zeros Examples.joined
  = Some Examples.separated
  /\ exists cohort,
      filter_stage Examples.float_of_digits Examples.joined = Some cohort
      /\ (forall x_min x_max x rule,
            In (x_min, x_max, x, rule) kept_analytes ->
            exists lo hi,
              numeric x_min cohort lo /\ numeric x_max cohort hi
              /\ col x (features Examples.separated)
                 = Some (FloatCol (map normalize (map2 rule lo hi)))
              /\ has x_min (features Examples.separated) = false
              /\ has x_max (features Examples.separated) = false)
      /\ has "sodium" (features Examples.separated) = false
      /\ has "lym" (features Examples.separated) = false.
Proof.
  split.
  - vm_compute. reflexivity.
  - apply (reduced_analytes_in_features Examples.float_of_digits Examples.zeros
             Examples.joined Examples.separated).
    vm_compute. reflexivity.
Defined.

(** The sample: the potassium of the first stay, whose minimum is -1, is
    missing, and so is that of the third, whose maximum is missing. *)
Example sample_potassium :
  col "potassium" (features Examples.separated) = Some (FloatCol [nan; 4; nan]%float).
Proof. reflexivity. Qed.

(** * The materialized views *)

Import Database DatabaseFacts.

(** X15.  [execute_query_safely] closes the cursor it opened on every path
    and prints nothing.  It returns normally exactly when the server accepts
    the statement, and then the statement is all it sent.  When the server
    rejects the statement it sends rollback next and raises: the error of the
    statement when the rollback is accepted, the error of the rollback
    otherwise. *)
Theorem execute_query_safely_contract
  (server : list string -> string -> option string) (sql : string) (w : world) :
  let r := fst (execute_query_safely server sql w) in
  let w' := snd (execute_query_safely server sql w) in
  cursors w' = cursors w
  /\ stdout w' = stdout w
  /\ files w' = files w
  /\ (r = inl tt <-> server (sent w) sql = None)
  /\ (server (sent w) sql = None -> sent w' = sent w ++ [sql])
  /\ (forall message,
        server (sent w) sql = Some message ->
        sent w' = sent w ++ [sql; "rollback;"]
        /\ r = inr (DatabaseError
                      match server (sent w ++ [sql]) "rollback;" with
                      | None => message
                      | Some message' => message'
                      end)).
Proof.
  cbn zeta. rewrite execute_query_safely_run.
  destruct (server (sent w) sql) as [m|]; cbn [fst snd files sent cursors stdout].
  - split; [reflexivity|]. split; [reflexivity|]. split; [reflexivity|].
    split; [split; discriminate|]. split; [discriminate|].
    intros m' E. injection E as <-. rewrite <- app_assoc. split; reflexivity.
  - split; [reflexivity|]. split; [reflexivity|]. split; [reflexivity|].
    split; [split; reflexivity|]. split; [reflexivity|discriminate].
Qed.

(** X16.  [generate_materialized_view] sends one statement for the view: the
    schema prefix followed by the whole text of the query file as text mode
    reads it, that is with every line ending stored as carriage return and
    line feed, or as a lone carriage return, turned into a line feed (the
    join of the lines read gives the text read back).  For a file stored
    without carriage return this is the stored text.  It announces the view
    before the statement is sent and prints done only when the server
    accepted it; the cursor is closed either way.  When the file cannot be
    opened it raises before anything is printed or sent. *)
Theorem generate_materialized_view_contract
  (server : list string -> string -> option string)
  (query_file schema : string) (w : world) :
  let r := fst (generate_materialized_view server query_file schema w) in
  let w' := snd (generate_materialized_view server query_file schema w) in
  let announced :=
    (stdout w ++ "Generating materialized view using " ++ query_file ++ " ... ")%string in
  cursors w' = cursors w
  /\ (files w query_file = None -> r = inr (OSError query_file) /\ w' = w)
  /\ (forall stored,
        files w query_file = Some stored ->
        let text := universal_newlines stored in
        Properties.has_cr text = false
        /\ (Properties.has_cr stored = false -> text = stored)
        /\ (exists rest, sent w' = sent w ++ (schema ++ text)%string :: rest)
        /\ (r = inl tt <-> server (sent w) (schema ++ text)%string = None)
        /\ (r = inl tt ->
            sent w' = sent w ++ [(schema ++ text)%string]
            /\ stdout w' = (announced ++ "done." ++ newline)%string)
        /\ (r <> inl tt ->
            sent w' = sent w ++ [(schema ++ text)%string; "rollback;"]
            /\ stdout w' = announced)).
Proof.
  cbn zeta. rewrite generate_materialized_view_run.
  assert (A : forall a b : string,
             (stdout w ++ (a ++ b ++ " ...") ++ " ")%string
             = (stdout w ++ a ++ b ++ " ... ")%string)
    by (intros a b; rewrite !append_assoc; reflexivity).
  destruct (files w query_file) as [stored|]; cbn zeta.
  - destruct (server (sent w) (schema ++ universal_newlines stored)%string) as [m|] eqn:S;
      cbn [fst snd files sent cursors stdout].
    + split; [reflexivity|]. split; [discriminate|].
      intros t E. injection E as <-. rewrite S, <- app_assoc. cbn [app].
      split; [apply universal_newlines_no_cr|].
      split; [apply universal_newlines_plain|].
      split; [eexists; reflexivity|]. split; [split; discriminate|].
      split; [discriminate|]. intros _. split; [reflexivity|apply A].
    + split; [reflexivity|]. split; [discriminate|].
      intros t E. injection E as <-. rewrite S.
      split; [apply universal_newlines_no_cr|].
      split; [apply universal_newlines_plain|].
      split; [eexists; reflexivity|]. split; [split; reflexivity|].
      split; [|intros N; contradiction N; reflexivity].
      intros _. split; [reflexivity|]. rewrite A. reflexivity.
  - cbn [fst snd]. split; [reflexivity|]. split; [auto|discriminate].
Qed.

Import Properties.



(** The sample: with a server that accepts every statement, the log is the
    one recorded in the notebook. *)
Example sample_log :
  stdout (snd (generate_views Samples.accepting Samples.fresh))
  = (view_line "./sql/vitalsfirstday.sql" ++ view_line "./sql/labsfirstday.sql"
     ++ view_line "./sql/treatmentfirstday.sql")%string.
Proof. vm_compute. reflexivity. Qed.

(** The sample: with a server that rejects the second statement, the labs
    view fails, a rollback follows, and the treatment view is not sent.  The
    first file is stored with carriage return and line feed; the statement
    sent ends with the line feed alone. *)
Example sample_failure :
  generate_views Samples.rejecting_second Samples.fresh
  = (inr (DatabaseError "relation does not exist"),
     {| files := Samples.disk;
        sent := [ ("SET search_path TO eicu_crd;CREATE MATERIALIZED VIEW v;"
                   ++ newline)%string;
                  ("SET search_path TO eicu_crd;CREATE MATERIALIZED VIEW l;"
                   ++ newline)%string;
                  "rollback;" ];
        cursors := 0;
        stdout := (view_line "./sql/vitalsfirstday.sql"
                   ++ view_started "./sql/labsfirstday.sql")%string |}).
Proof. vm_compute. reflexivity. Qed.

(** * The join of the two query results *)

Import Merge MergeFacts JoinFacts.

(** X18.  The join of a base cohort and a feature set that have the columns
    of the two queries has 106 columns, no name twice: the names of the
    joined table.  When the base cohort has a row they come in the order of
    the joined table: the 34 columns of the base cohort, the stay identifier
    first, followed by the 72 other columns of the feature set.  When the
    base cohort has no row the stay identifier is the column of the feature
    set: the 33 other columns of the base cohort come first, the stay
    identifier is the 34th column, and the other columns of the feature set
    follow.  No name is shared but the key, so no column is renamed. *)
Theorem join_has_the_columns_of_both_queries (base_cohort feature_set cohort : DataFrame) :
  columns base_cohort = base_cohort_columns ->
  columns feature_set = feature_set_columns ->
  join_cohort base_cohort feature_set = Some cohort ->
  (index base_cohort <> [] -> columns cohort = cohort_columns)
  /\ (index base_cohort = [] ->
      columns cohort = cohort_columns_without_stays
      /\ nth_error (columns cohort) 33 = Some "patientunitstayid")
  /\ length (columns cohort) = 106
  /\ NoDup (columns cohort)
  /\ (forall n, In n (columns cohort) <-> In n cohort_columns).
Proof.
  intros B F H. pose proof (join_header _ _ _ B F H) as E.
  destruct (length (index base_cohort) =? 0) eqn:Z.
  - apply empty_index in Z. rewrite E.
    split; [intros N; contradiction|]. split; [intros _; split; reflexivity|].
    split; [reflexivity|]. split; [apply distinct_NoDup; vm_compute; reflexivity|].
    intros n. split; apply incl_check; vm_compute; reflexivity.
  - rewrite E. split; [reflexivity|]. split.
    { intros N. rewrite N in Z. discriminate Z. }
    split; [reflexivity|]. split; [apply distinct_NoDup; vm_compute; reflexivity|].
    intros n. tauto.
Qed.

Lemma join_has_the_columns_of_both_queries_witness :
  columns Samples.base_cohort = base_cohort_columns
  /\ columns Samples.feature_set = feature_set_columns
  /\ join_cohort Samples.base_cohort Samples.feature_set = Some Samples.joined_cohort
  /\ (index Samples.base_cohort <> [] -> columns Samples.joined_cohort = cohort_columns)
  /\ (index Samples.base_cohort = [] ->
      columns Samples.joined_cohort = cohort_columns_without_stays
      /\ nth_error (columns Samples.joined_cohort) 33 = Some "patientunitstayid")
  /\ length (columns Samples.joined_cohort) = 106
  /\ NoDup (columns Samples.joined_cohort)
  /\ (forall n, In n (columns Samples.joined_cohort) <-> In n cohort_columns).
Proof.
  split; [vm_compute; reflexivity|]. split; [vm_compute; reflexivity|].
  split; [vm_compute; reflexivity|].
  apply (join_has_the_columns_of_both_queries Samples.base_cohort Samples.feature_set
           Samples.joined_cohort); vm_compute; reflexivity.
Defined.

(** The sample: the join of a base cohort without a stay has no row, and the
    stay identifier as its 34th column. *)
Example sample_join_without_stays :
  exists cohort,
    join_cohort Samples.no_stay Samples.feature_set = Some cohort
    /\ index cohort = []
    /\ columns cohort = cohort_columns_without_stays
    /\ nth_error (columns cohort) 0 = Some "age"
    /\ nth_error (columns cohort) 33 = Some "patientunitstayid".
Proof. eexists. split; [vm_compute; reflexivity|]. repeat split. Qed.

(** X19.  The stay identifiers being integers, the join has one row per pair
    of a base-cohort row and a feature-set row with the same stay
    identifier, each pair once, and no other row: a stay without a row in
    one of the tables is left out.  The rows are numbered afresh and come
    grouped by stay: the stay that appears first in the base cohort comes
    first; the rows of one stay follow the order of the base cohort and, for
    one base-cohort row, the order of the feature set.  When no stay has two
    rows in the base cohort, the rows follow the order of the base cohort.
    A row holds, in the columns of the base cohort, the cells of its
    base-cohort row and, in the other columns of the feature set, the cells
    of its feature-set row. *)
Theorem join_pairs_matching_rows (base_cohort feature_set cohort : DataFrame) :
  share_only "patientunitstayid" base_cohort feature_set = true ->
  join_cohort base_cohort feature_set = Some cohort ->
  exists lkey lk rkey rk pairs,
    col "patientunitstayid" base_cohort = Some lkey /\ keys lkey = Some lk
    /\ col "patientunitstayid" feature_set = Some rkey /\ keys rkey = Some rk
    /\ index cohort = map Z.of_nat (seq 0 (length pairs))
    /\ (forall i j,
          In (i, j) pairs
          <-> exists x, nth_error lk i = Some x /\ nth_error rk j = Some x)
    /\ (forall r r' p p',
          r < r' -> nth_error pairs r = Some p -> nth_error pairs r' = Some p' ->
          row_before lk p p')
    /\ (NoDup lk ->
        forall r r' p p',
          r < r' -> nth_error pairs r = Some p -> nth_error pairs r' = Some p' ->
          fst p <= fst p')
    /\ (forall r i j,
          nth_error pairs r = Some (i, j) ->
          (forall n s,
             n <> "patientunitstayid" \/ index base_cohort <> [] ->
             col n base_cohort = Some s ->
             exists s', col n cohort = Some s'
                        /\ nth_error (cells s') r = nth_error (cells s) i)
          /\ (forall n s,
                n <> "patientunitstayid" \/ index base_cohort = [] ->
                col n feature_set = Some s ->
                exists s', col n cohort = Some s'
                           /\ nth_error (cells s') r = nth_error (cells s) j)).
Proof.
  intros S H. unfold join_cohort in H.
  destruct (merge_inner_Some _ _ _ _ H S)
    as (lkey & lk & rkey & rk & Cl & Vl & Cr & Vr & I & HL & HR).
  exists lkey, lk, rkey, rk, (join_pairs lk rk).
  split; [exact Cl|]. split; [exact Vl|]. split; [exact Cr|]. split; [exact Vr|].
  split; [exact I|]. split; [apply In_join_pairs|].
  assert (O : forall r r' p p',
             r < r' -> nth_error (join_pairs lk rk) r = Some p ->
             nth_error (join_pairs lk rk) r' = Some p' -> row_before lk p p').
  { intros r r' p p'. apply sorted_nth, join_pairs_sorted. }
  split; [exact O|]. split.
  { intros D r r' p p' L N N'.
    destruct (O r r' p p' L N N') as (x & y & Nx & Ny & [Q|[<- [Q|[Q _]]]]).
    - rewrite (first_index_nth _ _ _ D Nx), (first_index_nth _ _ _ D Ny) in Q. lia.
    - lia.
    - lia. }
  intros r i j N. split.
  - intros n s Hn C. destruct (HL n s Hn C) as [E D].
    destruct (take (map fst (join_pairs lk rk)) s) as [s'|] eqn:T; [|contradiction].
    exists s'. split; [exact E|]. apply (take_cells _ _ _ _ _ T).
    rewrite nth_error_map, N. reflexivity.
  - intros n s Hn C. destruct (HR n s Hn C) as [E D].
    destruct (take (map snd (join_pairs lk rk)) s) as [s'|] eqn:T; [|contradiction].
    exists s'. split; [exact E|]. apply (take_cells _ _ _ _ _ T).
    rewrite nth_error_map, N. reflexivity.
Qed.

Lemma join_pairs_matching_rows_witness :
  share_only "patientunitstayid" Samples.base_cohort Samples.feature_set = true
  /\ join_cohort Samples.base_cohort Samples.feature_set = Some Samples.joined_cohort
  /\ exists lkey lk rkey rk pairs,
      col "patientunitstayid" Samples.base_cohort = Some lkey /\ keys lkey = Some lk
      /\ col "patientunitstayid" Samples.feature_set = Some rkey /\ keys rkey = Some rk
      /\ index Samples.joined_cohort = map Z.of_nat (seq 0 (length pairs))
      /\ (forall i j,
            In (i, j) pairs
            <-> exists x, nth_error lk i = Some x /\ nth_error rk j = Some x)
      /\ (forall r r' p p',
            r < r' -> nth_error pairs r = Some p -> nth_error pairs r' = Some p' ->
            row_before lk p p')
      /\ (NoDup lk ->
          forall r r' p p',
            r < r' -> nth_error pairs r = Some p -> nth_error pairs r' = Some p' ->
            fst p <= fst p')
      /\ (forall r i j,
            nth_error pairs r = Some (i, j) ->
            (forall n s,
               n <> "patientunitstayid" \/ index Samples.base_cohort <> [] ->
               col n Samples.base_cohort = Some s ->
               exists s', col n Samples.joined_cohort = Some s'
                          /\ nth_error (cells s') r = nth_error (cells s) i)
            /\ (forall n s,
                  n <> "patientunitstayid" \/ index Samples.base_cohort = [] ->
                  col n Samples.feature_set = Some s ->
                  exists s', col n Samples.joined_cohort = Some s'
                             /\ nth_error (cells s') r = nth_error (cells s) j)).
Proof.
  split; [vm_compute; reflexivity|]. split; [vm_compute; reflexivity|].
  apply (join_pairs_matching_rows Samples.base_cohort Samples.feature_set
           Samples.joined_cohort); vm_compute; reflexivity.
Defined.

(** The sample: the stays 141168 and 141203 are in both tables. *)
Example sample_join_keys :
  col "patientunitstayid" Samples.joined_cohort = Some (FloatCol [141168; 141203]%float)
  /\ index Samples.joined_cohort = [0; 1]%Z.
Proof. split; reflexivity. Qed.

(** The sample: stay 2 has the first and the third row of the left table;
    its two rows come first in the join, before the row of stay 1. *)
Example sample_join_groups_by_stay :
  join_cohort Samples.visits Samples.measurements
  = Some {| index := [0; 1; 2]%Z;
            data := [ ("patientunitstayid", FloatCol [2; 2; 1]%float);
                      ("a", FloatCol [20; 21; 10]%float);
                      ("b", FloatCol [8; 8; 7]%float) ] |}.
Proof. vm_compute. reflexivity. Qed.

(** * From the query results to the split *)

Import TotalityFacts.

(** X20.  On the results of the two queries as the database delivers them
    (one cell per row in every column, the two headers, numbers everywhere
    but in the text columns, integer stay identifiers, ages that can be cast
    and a diagnosis in text) the notebook runs from the join to the
    arguments of the split without an exception.  The join has the 106
    columns that the later cells refer to by name, in the order of the
    joined table when the base cohort has a row. *)
Theorem notebook_runs_on_query_results
  (float_of_string : string -> option float) (junk : nat -> float)
  (base_cohort feature_set : DataFrame) :
  rectangularb base_cohort = true -> rectangularb feature_set = true ->
  columns base_cohort = base_cohort_columns ->
  columns feature_set = feature_set_columns ->
  typed_as_queried base_cohort = true -> typed_as_queried feature_set = true ->
  keyed "patientunitstayid" base_cohort = true ->
  keyed "patientunitstayid" feature_set = true ->
  age_ready float_of_string base_cohort = true ->
  textb "admit_diagnosis" base_cohort = true ->
  exists cohort sep,
    join_cohort base_cohort feature_set = Some cohort
    /\ (index base_cohort <> [] -> columns cohort = cohort_columns)
    /\ length (columns cohort) = 106
    /\ (forall n, In n cohort_columns -> has n cohort = true)
    /\ pre_split float_of_string junk cohort = Some sep.
Proof.
  intros Rb Rf Cb Cf Tb Tf Kb Kf Ab Xb.
  destruct (join_of_query_results float_of_string _ _ Rb Rf Cb Cf Tb Tf Kb Kf Ab Xb)
    as (cohort & J & Rdy).
  destruct (pre_split_total float_of_string junk cohort Rdy) as [sep P].
  exists cohort, sep. split; [exact J|].
  pose proof (join_header _ _ _ Cb Cf J) as E.
  split; [|split; [|split; [|exact P]]].
  - intros N. destruct (length (index base_cohort) =? 0) eqn:Z; [|exact E].
    apply empty_index in Z. contradiction.
  - rewrite E. destruct (length (index base_cohort) =? 0); reflexivity.
  - intros n Hn. apply has_of_columns, In_mem_names. rewrite E.
    destruct (length (index base_cohort) =? 0); [|exact Hn].
    revert n Hn. apply incl_check. vm_compute. reflexivity.
Qed.

Lemma notebook_runs_on_query_results_witness :
  rectangularb Samples.base_cohort = true /\ rectangularb Samples.feature_set = true
  /\ columns Samples.base_cohort = base_cohort_columns
  /\ columns Samples.feature_set = feature_set_columns
  /\ typed_as_queried Samples.base_cohort = true
  /\ typed_as_queried Samples.feature_set = true
  /\ keyed "patientunitstayid" Samples.base_cohort = true
  /\ keyed "patientunitstayid" Samples.feature_set = true
  /\ age_ready Examples.float_of_digits Samples.base_cohort = true
  /\ textb "admit_diagnosis" Samples.base_cohort = true
  /\ exists cohort sep,
      join_cohort Samples.base_cohort Samples.feature_set = Some cohort
      /\ (index Samples.base_cohort <> [] -> columns cohort = cohort_columns)
      /\ length (columns cohort) = 106
      /\ (forall n, In n cohort_columns -> has n cohort = true)
      /\ pre_split Examples.float_of_digits Examples.zeros cohort = Some sep.
Proof.
  repeat (split; [vm_compute; reflexivity|]).
  apply (notebook_runs_on_query_results Examples.float_of_digits Examples.zeros
           Samples.base_cohort Samples.feature_set); vm_compute; reflexivity.
Defined.
